(** * Accounting-and-Inventory: the stock module (stok.py)

    A shallow embedding of the request handlers of [stok.py] over an explicit
    model of the per-user SQLite store, with the Python text primitives the
    handlers rely on ([str.strip], [str.split], [str.lower], [float], [int],
    [json.dumps], [json.loads]).

    Conventions of the embedding.
    - Text is a Rocq [string]; a character is a code point below 256
      (Latin-1), classified the way Python classifies that code point.
    - A request handler is a function from the committed store and the
      request to the committed store after the request and the response.
      Statements a handler runs inside a transaction reach the committed
      store only through [db.commit()]; the connection is closed when the
      request ends, which discards an open transaction.
    - What SQLite decides by itself and the source does not fix (whether
      foreign keys are enforced on the connection, which bare words its
      grammar takes as a column name, how it converts a value written to the
      rowid column) is a variable of the section holding the handlers. *)

From Stdlib Require Import ZArith NArith List String Ascii Bool Lia Sorted.

#[global] Set Warnings "-register-all".
#[global] Set Warnings "-automation".

Import ListNotations.

Local Open Scope list_scope.
Local Open Scope string_scope.

(** ** Python text primitives *)

Module Py.

Definition code (c : ascii) : N := N_of_ascii c.

Definition between (lo hi : N) (c : ascii) : bool :=
  ((lo <=? code c) && (code c <=? hi))%N.

Definition is_code (n : N) (c : ascii) : bool := (code c =? n)%N.

(** The double quote character. *)
Definition dquote : ascii := "034"%char.

(** [c.isspace()]: tab to carriage return, the four separators 28..31,
    the space, NEL and the no-break space. *)
Definition isspace (c : ascii) : bool :=
  between 9 13 c || between 28 32 c || is_code 133 c || is_code 160 c.

Definition is_digit (c : ascii) : bool := between 48 57 c.
Definition is_upper_ascii (c : ascii) : bool := between 65 90 c.
Definition is_lower_ascii (c : ascii) : bool := between 97 122 c.

(** The Latin-1 code points above 127 on which [isalnum] holds: the
    ordinal indicators, the micro sign, superscript digits, the vulgar
    fractions and the accented letters (the multiplication and division
    signs excluded). *)
Definition is_alnum_latin1 (c : ascii) : bool :=
  is_code 170 c || between 178 179 c || is_code 181 c || between 185 186 c
  || between 188 190 c || between 192 214 c || between 216 246 c
  || between 248 255 c.

(** [c.isalnum()] *)
Definition isalnum (c : ascii) : bool :=
  is_digit c || is_upper_ascii c || is_lower_ascii c || is_alnum_latin1 c.

(** [c.lower()] on one character: the ASCII capitals and the accented
    Latin-1 capitals move 32 places up. *)
Definition lower_char (c : ascii) : ascii :=
  if is_upper_ascii c || between 192 214 c || between 216 222 c
  then ascii_of_N (code c + 32) else c.

Fixpoint smap (f : ascii -> ascii) (s : string) : string :=
  match s with
  | EmptyString => EmptyString
  | String c r => String (f c) (smap f r)
  end.

Fixpoint sfilter (p : ascii -> bool) (s : string) : string :=
  match s with
  | EmptyString => EmptyString
  | String c r => if p c then String c (sfilter p r) else sfilter p r
  end.

(** [s.lower()] *)
Definition lower (s : string) : string := smap lower_char s.

Definition is_empty (s : string) : bool :=
  match s with EmptyString => true | _ => false end.

(** Truthiness of a [str]: [if s:] *)
Definition truthy (s : string) : bool := negb (is_empty s).

Fixpoint lstrip_by (p : ascii -> bool) (s : string) : string :=
  match s with
  | EmptyString => EmptyString
  | String c r => if p c then lstrip_by p r else s
  end.

Fixpoint rstrip_by (p : ascii -> bool) (s : string) : string :=
  match s with
  | EmptyString => EmptyString
  | String c r =>
      let r' := rstrip_by p r in
      if is_empty r' && p c then EmptyString else String c r'
  end.

Definition strip_by (p : ascii -> bool) (s : string) : string :=
  rstrip_by p (lstrip_by p s).

(** [s.strip()] *)
Definition strip (s : string) : string := strip_by isspace s.

Fixpoint mem_char (c : ascii) (chars : string) : bool :=
  match chars with
  | EmptyString => false
  | String d r => Ascii.eqb c d || mem_char c r
  end.

(** [s.strip(chars)] *)
Definition strip_chars (chars : string) (s : string) : string :=
  strip_by (fun c => mem_char c chars) s.

(** [s.replace(old, new)] for a one-character [old]. *)
Fixpoint replace_char (old : ascii) (new : string) (s : string) : string :=
  match s with
  | EmptyString => EmptyString
  | String c r =>
      if Ascii.eqb c old then new ++ replace_char old new r
      else String c (replace_char old new r)
  end.

(** [s.replace(old, new)] for [old] a backslash and a double quote and
    [new] a double quote: every backslash followed by a double quote,
    scanned from the left without overlap, becomes a double quote. *)
Fixpoint replace_bs_quote (s : string) : string :=
  match s with
  | EmptyString => EmptyString
  | String c r =>
      if Ascii.eqb c "\" then
        match r with
        | String d r' =>
            if Ascii.eqb d dquote then String dquote (replace_bs_quote r')
            else String c (replace_bs_quote r)
        | EmptyString => String c EmptyString
        end
      else String c (replace_bs_quote r)
  end.

(** [s.split(sep)] for a one-character separator: never the empty list. *)
Fixpoint split (sep : ascii) (s : string) : list string :=
  match s with
  | EmptyString => [EmptyString]
  | String c r =>
      if Ascii.eqb c sep then EmptyString :: split sep r
      else match split sep r with
           | h :: t => String c h :: t
           | [] => [String c EmptyString]
           end
  end.

(** [sep.join(l)] *)
Fixpoint join (sep : string) (l : list string) : string :=
  match l with
  | [] => EmptyString
  | [x] => x
  | x :: r => x ++ sep ++ join sep r
  end.

(** [x in l] for a list of strings *)
Definition mem (x : string) (l : list string) : bool :=
  existsb (String.eqb x) l.

(** *** [int(str)] and [float(str)] *)

Definition digit_val (c : ascii) : N := (code c - 48)%N.

Definition digits_val (ds : list ascii) : N :=
  fold_left (fun acc d => (10 * acc + digit_val d)%N) ds 0%N.

(** The tail of a [digitpart]: digits, each optionally preceded by one
    underscore, taken greedily. *)
Fixpoint digits_after (s : string) : list ascii * string :=
  match s with
  | EmptyString => ([], EmptyString)
  | String c r =>
      if is_digit c then
        let (ds, rest) := digits_after r in (c :: ds, rest)
      else if Ascii.eqb c "_" then
        match r with
        | String d r' =>
            if is_digit d then
              let (ds, rest) := digits_after r' in (d :: ds, rest)
            else ([], s)
        | EmptyString => ([], s)
        end
      else ([], s)
  end.

(** [digitpart]: a digit, then the tail above. *)
Definition digitpart (s : string) : option (list ascii * string) :=
  match s with
  | String c r =>
      if is_digit c then
        let (ds, rest) := digits_after r in Some (c :: ds, rest)
      else None
  | EmptyString => None
  end.

(** An optional sign: [true] for a minus. *)
Definition sign (s : string) : bool * string :=
  match s with
  | String c r =>
      if Ascii.eqb c "-" then (true, r)
      else if Ascii.eqb c "+" then (false, r)
      else (false, s)
  | EmptyString => (false, s)
  end.

(** [int(s)] in base ten; [None] is [ValueError]. *)
Definition int (s : string) : option Z :=
  let (neg, body) := sign (strip s) in
  match digitpart body with
  | Some (ds, EmptyString) =>
      let v := Z.of_N (digits_val ds) in
      Some (if neg then (- v)%Z else v)
  | _ => None
  end.

(** The value of a [float] literal before it is rounded to a double: the
    sign, the digits read as one natural number and the power of ten. *)
Inductive float : Type :=
| Dec (neg : bool) (mant : N) (exp10 : Z)
| Inf (neg : bool)
| NaN.

(** [number]: digits, a point and digits, where either run of digits but
    not both may be missing, or digits alone; the result is
    the digits before and after the point. *)
Definition number (s : string) : option (list ascii * list ascii * string) :=
  match digitpart s with
  | Some (ip, rest) =>
      match rest with
      | String c r =>
          if Ascii.eqb c "." then
            match digitpart r with
            | Some (fp, rest') => Some (ip, fp, rest')
            | None => Some (ip, [], r)
            end
          else Some (ip, [], rest)
      | EmptyString => Some (ip, [], rest)
      end
  | None =>
      match s with
      | String c r =>
          if Ascii.eqb c "." then
            match digitpart r with
            | Some (fp, rest') => Some ([], fp, rest')
            | None => None
            end
          else None
      | EmptyString => None
      end
  end.

(** [exponent]: e or E, an optional sign and a [digitpart]; the text has to
    end after it. [None] when the rest is neither. *)
Definition exponent (s : string) : option Z :=
  match s with
  | EmptyString => Some 0%Z
  | String c r =>
      if Ascii.eqb c "e" || Ascii.eqb c "E" then
        let (neg, body) := sign r in
        match digitpart body with
        | Some (ds, EmptyString) =>
            let v := Z.of_N (digits_val ds) in
            Some (if neg then (- v)%Z else v)
        | _ => None
        end
      else None
  end.

(** [float(s)]; [None] is [ValueError]. *)
Definition float_of_string (s : string) : option float :=
  let (neg, body) := sign (strip s) in
  let word := lower body in
  if String.eqb word "inf" || String.eqb word "infinity" then Some (Inf neg)
  else if String.eqb word "nan" then Some NaN
  else
    match number body with
    | Some (ip, fp, rest) =>
        match exponent rest with
        | Some e =>
            Some (Dec neg (digits_val (ip ++ fp)%list)
                      (e - Z.of_nat (List.length fp)))
        | None => None
        end
    | None => None
    end.


Definition float_is_nan (x : float) : bool :=
  match x with NaN => true | _ => false end.

End Py.

(** ** The [json] module: [dumps] of a list of strings, [loads] *)

Module Json.

(** A decoded document. A string is its sequence of code points (an escape
    [\uXXXX] may denote any code point); a number keeps its literal, the
    conversion to [int] or [float] is not interpreted; an object keeps its
    pairs in document order. *)
Inductive value : Type :=
| JNull
| JBool (b : bool)
| JNum (literal : string)
| JStr (s : list N)
| JArr (items : list value)
| JObj (pairs : list (list N * value)).

(** The code points of a text. *)
Fixpoint codes (s : string) : list N :=
  match s with
  | EmptyString => []
  | String c r => Py.code c :: codes r
  end.

Definition of_string (s : string) : value := JStr (codes s).

(** *** Encoding *)

Definition hex_digit (n : N) : ascii :=
  if (n <? 10)%N then ascii_of_N (48 + n) else ascii_of_N (87 + n).

(** ['\\u{0:04x}'.format(n)] for a code point below 256. *)
Definition escape_u (n : N) : string :=
  String "\" (String "u" (String "0" (String "0"
    (String (hex_digit (n / 16)) (String (hex_digit (n mod 16)) EmptyString))))).

(** One character under [ESCAPE_ASCII]: the backslash, the double quote and
    everything outside space..tilde is escaped, by [ESCAPE_DCT] when it has
    an entry. *)
Definition escape_char (c : ascii) : string :=
  if Ascii.eqb c "\" then "\\"
  else if Ascii.eqb c Py.dquote then String "\" (String Py.dquote EmptyString)
  else if Py.is_code 8 c then "\b"
  else if Py.is_code 12 c then "\f"
  else if Py.is_code 10 c then "\n"
  else if Py.is_code 13 c then "\r"
  else if Py.is_code 9 c then "\t"
  else if Py.between 32 126 c then String c EmptyString
  else escape_u (Py.code c).

Fixpoint escape (s : string) : string :=
  match s with
  | EmptyString => EmptyString
  | String c r => escape_char c ++ escape r
  end.

(** [encode_basestring_ascii] *)
Definition encode_string (s : string) : string :=
  String Py.dquote (escape s ++ String Py.dquote EmptyString).

(** [json.dumps(l)] for a list of [str], default separators. *)
Definition dumps (l : list string) : string :=
  "[" ++ Py.join ", " (map encode_string l) ++ "]".

(** *** Decoding *)

Inductive res (A : Type) : Type :=
| Ok (a : A) (rest : string)
| Err
| Fuel.
Arguments Ok {A} a rest.
Arguments Err {A}.
Arguments Fuel {A}.

Definition is_ws (c : ascii) : bool :=
  Ascii.eqb c " " || Py.is_code 9 c || Py.is_code 10 c || Py.is_code 13 c.

Definition skip_ws (s : string) : string := Py.lstrip_by is_ws s.

Definition hex_val (c : ascii) : option N :=
  if Py.is_digit c then Some (Py.code c - 48)%N
  else if Py.between 97 102 c then Some (Py.code c - 87)%N
  else if Py.between 65 70 c then Some (Py.code c - 55)%N
  else None.

(** [_decode_uXXXX] *)
Definition hex4 (a b c d : ascii) : option N :=
  match hex_val a, hex_val b, hex_val c, hex_val d with
  | Some x, Some y, Some z, Some w => Some (((x * 16 + y) * 16 + z) * 16 + w)%N
  | _, _, _, _ => None
  end.

(** The [BACKSLASH] table. *)
Definition unescape (e : ascii) : option N :=
  if Ascii.eqb e Py.dquote then Some 34%N
  else if Ascii.eqb e "\" then Some 92%N
  else if Ascii.eqb e "/" then Some 47%N
  else if Ascii.eqb e "b" then Some 8%N
  else if Ascii.eqb e "f" then Some 12%N
  else if Ascii.eqb e "n" then Some 10%N
  else if Ascii.eqb e "r" then Some 13%N
  else if Ascii.eqb e "t" then Some 9%N
  else None.

Definition is_high (u : N) : bool := ((55296 <=? u) && (u <=? 56319))%N.
Definition is_low (u : N) : bool := ((56320 <=? u) && (u <=? 57343))%N.
Definition join_surrogates (u u2 : N) : N :=
  (65536 + N.lor (N.shiftl (u - 55296) 10) (u2 - 56320))%N.

Definition cons_code (n : N) (r : option (list N * string))
  : option (list N * string) :=
  match r with
  | Some (cs, rest) => Some (n :: cs, rest)
  | None => None
  end.

(** [scanstring] in strict mode, from just after the opening quote. *)
Fixpoint scanstring (s : string) : option (list N * string) :=
  match s with
  | EmptyString => None
  | String c r =>
      if Ascii.eqb c Py.dquote then Some ([], r)
      else if Ascii.eqb c "\" then
        match r with
        | EmptyString => None
        | String e r1 =>
            if Ascii.eqb e "u" then
              match r1 with
              | String h1 (String h2 (String h3 (String h4 r2))) =>
                  match hex4 h1 h2 h3 h4 with
                  | None => None
                  | Some uni =>
                      if is_high uni then
                        match r2 with
                        | String b (String u (String k1 (String k2
                            (String k3 (String k4 r3))))) =>
                            if Ascii.eqb b "\" && Ascii.eqb u "u" then
                              match hex4 k1 k2 k3 k4 with
                              | None => None
                              | Some uni2 =>
                                  if is_low uni2
                                  then cons_code (join_surrogates uni uni2)
                                                 (scanstring r3)
                                  else cons_code uni (scanstring r2)
                              end
                            else cons_code uni (scanstring r2)
                        | _ => cons_code uni (scanstring r2)
                        end
                      else cons_code uni (scanstring r2)
                  end
              | _ => None
              end
            else
              match unescape e with
              | Some ch => cons_code ch (scanstring r1)
              | None => None
              end
        end
      else if (Py.code c <? 32)%N then None
      else cons_code (Py.code c) (scanstring r)
  end.

(** [s[idx:idx+len(p)] == p], giving what follows. *)
Fixpoint strip_prefix (p s : string) : option string :=
  match p with
  | EmptyString => Some s
  | String a p' =>
      match s with
      | String b s' => if Ascii.eqb a b then strip_prefix p' s' else None
      | EmptyString => None
      end
  end.

Fixpoint span_digits (s : string) : string * string :=
  match s with
  | EmptyString => (EmptyString, EmptyString)
  | String c r =>
      if Py.is_digit c then let (ds, rest) := span_digits r in (String c ds, rest)
      else (EmptyString, s)
  end.

(** The integer part of [NUMBER_RE]: an optional minus, then a lone zero or
    a non-zero digit with any digits after it. *)
Definition number_int (s : string) : option (string * string) :=
  let (neg, body) :=
    match s with
    | String c r => if Ascii.eqb c "-" then ("-", r) else (EmptyString, s)
    | EmptyString => (EmptyString, s)
    end in
  match body with
  | String c r =>
      if Ascii.eqb c "0" then Some (neg ++ "0", r)
      else if Py.between 49 57 c then
        let (ds, rest) := span_digits r in Some (neg ++ String c ds, rest)
      else None
  | EmptyString => None
  end.

(** The optional fraction of [NUMBER_RE]: a point and at least one digit. *)
Definition number_frac (s : string) : string * string :=
  match s with
  | String c r =>
      if Ascii.eqb c "." then
        match span_digits r with
        | (EmptyString, _) => (EmptyString, s)
        | (ds, rest) => (String c ds, rest)
        end
      else (EmptyString, s)
  | EmptyString => (EmptyString, s)
  end.

(** The optional exponent of [NUMBER_RE]: e or E, an optional sign and at
    least one digit. *)
Definition number_exp (s : string) : string * string :=
  match s with
  | String c r =>
      if Ascii.eqb c "e" || Ascii.eqb c "E" then
        let (sg, body) :=
          match r with
          | String d r' =>
              if Ascii.eqb d "-" || Ascii.eqb d "+"
              then (String d EmptyString, r') else (EmptyString, r)
          | EmptyString => (EmptyString, r)
          end in
        match span_digits body with
        | (EmptyString, _) => (EmptyString, s)
        | (ds, rest) => (String c (sg ++ ds), rest)
        end
      else (EmptyString, s)
  | EmptyString => (EmptyString, s)
  end.

(** [NUMBER_RE.match]: the literal matched at the head of [s]. *)
Definition match_number (s : string) : option (string * string) :=
  match number_int s with
  | Some (ip, r1) =>
      let (fp, r2) := number_frac r1 in
      let (ep, r3) := number_exp r2 in
      Some (ip ++ fp ++ ep, r3)
  | None => None
  end.

(** The scalar branches of [_scan_once] after strings, objects and arrays,
    in the order of the source. *)
Definition scan_scalar (s : string) : res value :=
  match strip_prefix "null" s with
  | Some r => Ok JNull r
  | None =>
  match strip_prefix "true" s with
  | Some r => Ok (JBool true) r
  | None =>
  match strip_prefix "false" s with
  | Some r => Ok (JBool false) r
  | None =>
  match match_number s with
  | Some (lit, r) => Ok (JNum lit) r
  | None =>
  match strip_prefix "NaN" s with
  | Some r => Ok (JNum "NaN") r
  | None =>
  match strip_prefix "Infinity" s with
  | Some r => Ok (JNum "Infinity") r
  | None =>
  match strip_prefix "-Infinity" s with
  | Some r => Ok (JNum "-Infinity") r
  | None => Err
  end end end end end end end.

(** [_scan_once], [JSONArray] and [JSONObject]. The fuel bounds the
    recursion; [loads] supplies enough of it for every text. *)
Fixpoint scan_once (n : nat) (s : string) : res value :=
  match n with
  | O => Fuel
  | S n' =>
      match s with
      | EmptyString => Err
      | String c r =>
          if Ascii.eqb c Py.dquote then
            match scanstring r with
            | Some (cs, rest) => Ok (JStr cs) rest
            | None => Err
            end
          else if Ascii.eqb c "{" then
            match skip_ws r with
            | String d r' =>
                if Ascii.eqb d "}" then Ok (JObj []) r'
                else if Ascii.eqb d Py.dquote then
                  match object_loop n' r' with
                  | Ok ps rest => Ok (JObj ps) rest
                  | Err => Err
                  | Fuel => Fuel
                  end
                else Err
            | EmptyString => Err
            end
          else if Ascii.eqb c "[" then
            match skip_ws r with
            | String d r' =>
                if Ascii.eqb d "]" then Ok (JArr []) r'
                else
                  match array_loop n' (String d r') with
                  | Ok vs rest => Ok (JArr vs) rest
                  | Err => Err
                  | Fuel => Fuel
                  end
            | EmptyString => Err
            end
          else scan_scalar s
      end
  end

(** The loop of [JSONArray], entered where an item is expected. *)
with array_loop (n : nat) (s : string) : res (list value) :=
  match n with
  | O => Fuel
  | S n' =>
      match scan_once n' s with
      | Ok v rest =>
          match skip_ws rest with
          | String c r =>
              if Ascii.eqb c "]" then Ok [v] r
              else if Ascii.eqb c "," then
                match array_loop n' (skip_ws r) with
                | Ok vs rest' => Ok (v :: vs) rest'
                | Err => Err
                | Fuel => Fuel
                end
              else Err
          | EmptyString => Err
          end
      | Err => Err
      | Fuel => Fuel
      end
  end

(** The loop of [JSONObject], entered just after the quote opening a key. *)
with object_loop (n : nat) (s : string) : res (list (list N * value)) :=
  match n with
  | O => Fuel
  | S n' =>
      match scanstring s with
      | Some (key, rest) =>
          match skip_ws rest with
          | String c r =>
              if Ascii.eqb c ":" then
                match scan_once n' (skip_ws r) with
                | Ok v rest1 =>
                    match skip_ws rest1 with
                    | String d r1 =>
                        if Ascii.eqb d "}" then Ok [(key, v)] r1
                        else if Ascii.eqb d "," then
                          match skip_ws r1 with
                          | String q r2 =>
                              if Ascii.eqb q Py.dquote then
                                match object_loop n' r2 with
                                | Ok ps rest' => Ok ((key, v) :: ps) rest'
                                | Err => Err
                                | Fuel => Fuel
                                end
                              else Err
                          | EmptyString => Err
                          end
                        else Err
                    | EmptyString => Err
                    end
                | Err => Err
                | Fuel => Fuel
                end
              else Err
          | EmptyString => Err
          end
      | None => Err
      end
  end.

(** The fuel [loads] gives [scan_once]. *)
Definition fuel_for (s : string) : nat := 2 * String.length s + 2.

(** [JSONDecoder.decode]: one value between optional whitespace and nothing
    after it. *)
Definition decode (s : string) : res value :=
  match scan_once (fuel_for s) (skip_ws s) with
  | Ok v rest =>
      match skip_ws rest with
      | EmptyString => Ok v EmptyString
      | _ => Err
      end
  | Err => Err
  | Fuel => Fuel
  end.

(** [json.loads(s)]; [None] is [JSONDecodeError]. *)
Definition loads (s : string) : option value :=
  match decode s with
  | Ok v _ => Some v
  | _ => None
  end.

End Json.

(** ** The per-user store *)

(** A value bound to a statement or held in a cell. The storage class a
    column's affinity may give a stored value is not interpreted: a cell
    holds the value that was bound. *)
Inductive sqlval : Type :=
| VNull
| VInt (z : Z)
| VReal (x : Py.float)
| VText (s : string).

(** A column of [products] other than the rowid, as [PRAGMA table_info]
    describes it. *)
Record column : Type := mkColumn {
  c_name : string;
  c_notnull : bool;
  c_default : sqlval
}.

(** A row of [products]: the rowid ([id INTEGER PRIMARY KEY AUTOINCREMENT])
    and one cell per other column, in table order. *)
Record product : Type := mkProduct {
  p_rowid : Z;
  p_cells : list sqlval
}.

(** A row of [inventory]. *)
Record inv_row : Type := mkInv {
  i_id : Z;
  i_product_id : Z;
  i_quantity : Z;
  i_location : string;
  i_last_updated : string
}.

(** A row of [stock_columns]. *)
Record col_def : Type := mkColDef {
  sc_id : Z;
  sc_name : string;
  sc_type : string;
  sc_options : option string
}.

(** A row of [user_column_visibility]. *)
Record vis_row : Type := mkVis {
  v_id : Z;
  v_user_id : Z;
  v_name : string;
  v_visible : bool
}.

(** The committed content of one store file. Each [*_seq] is the table's
    entry in [sqlite_sequence]. *)
Record store : Type := mkStore {
  pk_name : string;
  columns : list column;
  products : list product;
  products_seq : Z;
  inventory : list inv_row;
  inventory_seq : Z;
  stock_columns : list col_def;
  stock_columns_seq : Z;
  visibility : list vis_row;
  visibility_seq : Z
}.

(** The store [init_stock_table] creates on a new file. *)
Definition init_stock_table : store :=
  {| pk_name := "id";
     columns := [ mkColumn "user_product_id" false VNull;
                  mkColumn "name" true VNull;
                  mkColumn "price" true VNull ];
     products := []; products_seq := 0;
     inventory := []; inventory_seq := 0;
     stock_columns := []; stock_columns_seq := 0;
     visibility := []; visibility_seq := 0 |}.

(** *** SQLite's side of the statements *)

Module Sql.

(** SQLite folds only the ASCII capitals when it compares names. *)
Definition fold_char (c : ascii) : ascii :=
  if Py.is_upper_ascii c then ascii_of_N (Py.code c + 32) else c.

Definition name_eqb (a b : string) : bool :=
  String.eqb (Py.smap fold_char a) (Py.smap fold_char b).

(** The column names in the order of [PRAGMA table_info(products)]. *)
Definition table_info (st : store) : list string :=
  pk_name st :: map c_name (columns st).

Definition has_column (st : store) (name : string) : bool :=
  existsb (name_eqb name) (table_info st).

(** A Python [int] binds only when it fits a signed 64-bit integer
    ([OverflowError] otherwise). *)
Definition fits_int64 (z : Z) : bool :=
  ((- 2 ^ 63 <=? z) && (z <? 2 ^ 63))%Z.

(** Binding a Python [float]: SQLite takes a NaN as NULL. *)
Definition bind_float (x : Py.float) : sqlval :=
  if Py.float_is_nan x then VNull else VReal x.

Definition bindable (v : sqlval) : bool :=
  match v with VInt z => fits_int64 z | _ => true end.

Definition is_null (v : sqlval) : bool :=
  match v with VNull => true | _ => false end.

(** The next AUTOINCREMENT rowid: one more than the largest rowid the
    table ever held. *)
Definition next_rowid (seq : Z) (rowids : list Z) : Z :=
  (fold_left Z.max rowids seq + 1)%Z.

(** The position of a column (rowid excluded) by name. *)
Fixpoint column_index (name : string) (cols : list column) : option nat :=
  match cols with
  | [] => None
  | c :: r =>
      if name_eqb name (c_name c) then Some O
      else option_map S (column_index name r)
  end.

(** The cells of one column. *)
Definition column_cells (i : nat) (rows : list product) : list sqlval :=
  map (fun p => nth i (p_cells p) VNull) rows.

(** The value given to a column by an assignment list: the first entry
    naming it. *)
Fixpoint assigned (name : string) (a : list (string * sqlval)) : option sqlval :=
  match a with
  | [] => None
  | (k, v) :: r => if name_eqb k name then Some v else assigned name r
  end.

(** **** Comparison of values, for [MAX] and [ORDER BY]: NULL first, then
    numbers by value, then text by code points. *)

Definition dec_cmp (m1 : Z) (e1 : Z) (m2 : Z) (e2 : Z) : comparison :=
  if (e1 <=? e2)%Z then (m1 ?= m2 * 10 ^ (e2 - e1))%Z
  else (m1 * 10 ^ (e1 - e2) ?= m2)%Z.

Definition signed (neg : bool) (m : N) : Z :=
  if neg then (- Z.of_N m)%Z else Z.of_N m.

Definition float_cmp (x y : Py.float) : comparison :=
  match x, y with
  | Py.NaN, Py.NaN => Eq
  | Py.NaN, _ => Lt
  | _, Py.NaN => Gt
  | Py.Inf a, Py.Inf b => if Bool.eqb a b then Eq else if a then Lt else Gt
  | Py.Inf a, _ => if a then Lt else Gt
  | _, Py.Inf b => if b then Gt else Lt
  | Py.Dec n1 m1 e1, Py.Dec n2 m2 e2 => dec_cmp (signed n1 m1) e1 (signed n2 m2) e2
  end.

Fixpoint text_cmp (a b : string) : comparison :=
  match a, b with
  | EmptyString, EmptyString => Eq
  | EmptyString, _ => Lt
  | _, EmptyString => Gt
  | String c a', String d b' =>
      match (Py.code c ?= Py.code d)%N with
      | Eq => text_cmp a' b'
      | o => o
      end
  end.

Definition val_cmp (x y : sqlval) : comparison :=
  match x, y with
  | VNull, VNull => Eq
  | VNull, _ => Lt
  | _, VNull => Gt
  | VText a, VText b => text_cmp a b
  | VText _, _ => Gt
  | _, VText _ => Lt
  | VInt a, VInt b => (a ?= b)%Z
  | VInt a, VReal y => float_cmp (Py.Dec (a <? 0)%Z (Z.abs_N a) 0) y
  | VReal x, VInt b => float_cmp x (Py.Dec (b <? 0)%Z (Z.abs_N b) 0)
  | VReal x, VReal y => float_cmp x y
  end.

(** [MAX(col)]: NULL on no row or only NULLs. *)
Definition max_val (vs : list sqlval) : sqlval :=
  fold_left (fun acc v => match val_cmp acc v with Lt => v | _ => acc end)
            vs VNull.

(** [ORDER BY]: a stable insertion sort on a key. *)
Fixpoint insert_by {A : Type} (key : A -> sqlval) (x : A) (l : list A) : list A :=
  match l with
  | [] => [x]
  | y :: r =>
      match val_cmp (key x) (key y) with
      | Lt => x :: l
      | _ => y :: insert_by key x r
      end
  end.

Definition order_by {A : Type} (key : A -> sqlval) (l : list A) : list A :=
  fold_right (insert_by key) [] l.

(** **** [LIKE]: [%] any run, [_] any one character, ASCII letters
    compared without case. *)
Fixpoint like (pat text : string) : bool :=
  match pat with
  | EmptyString => Py.is_empty text
  | String c pat' =>
      if Ascii.eqb c "%" then
        (fix any (t : string) : bool :=
           like pat' t ||
           match t with
           | EmptyString => false
           | String _ t' => any t'
           end) text
      else
        match text with
        | EmptyString => false
        | String d text' =>
            (Ascii.eqb c "_" || Ascii.eqb (fold_char c) (fold_char d))
            && like pat' text'
        end
  end.

End Sql.

(** ** Requests *)

(** [request.form] and [request.args]: the first value of a key counts. *)
Definition form : Type := list (string * string).

Fixpoint form_get (f : form) (key : string) : option string :=
  match f with
  | [] => None
  | (k, v) :: r => if String.eqb k key then Some v else form_get r key
  end.

(** [request.form.get(key, default)] *)
Definition form_get_default (f : form) (key default : string) : string :=
  match form_get f key with
  | Some v => v
  | None => default
  end.

(** [['id', 'name', 'price', 'user_product_id']] *)
Definition reserved_names : list string :=
  ["id"; "name"; "price"; "user_product_id"].

(** [''.join(c for c in raw if c.isalnum() or c == ' ').replace(' ', '_').lower()] *)
Definition sanitize (raw : string) : string :=
  Py.lower
    (Py.replace_char " " "_"
       (Py.sfilter (fun c => Py.isalnum c || Ascii.eqb c " ") raw)).

(** [[opt.strip() for opt in options_raw.split(',') if opt.strip()]] *)
Definition options_list (options_raw : string) : list string :=
  map Py.strip
      (filter (fun opt => Py.truthy (Py.strip opt)) (Py.split "," options_raw)).

(** [opt.strip()], then [strip] of the two quote characters, then the
    replacement of every backslash-quote by a quote. *)
Definition clean_option (opt : string) : string :=
  Py.replace_bs_quote (Py.strip_chars (String "'" (String Py.dquote EmptyString)) (Py.strip opt)).

(** [s.replace('[', '').replace(']', '').strip()] *)
Definition strip_brackets (s : string) : string :=
  Py.strip (Py.replace_char "]" EmptyString
                             (Py.replace_char "[" EmptyString s)).

(** The decoding of a stored option list in [stok_listesi]: the text is
    stripped, decoded strictly, and on [JSONDecodeError] scanned leniently;
    a token is kept when it is not empty after cleaning. *)
Definition stok_listesi_options (db_options_str : option string) : list Json.value :=
  match db_options_str with
  | None => []
  | Some raw =>
      if Py.truthy raw then
        let stripped := Py.strip raw in
        match Json.loads stripped with
        | Some (Json.JArr loaded_options) => loaded_options
        | Some _ => []
        | None =>
            let cleaned_str := strip_brackets stripped in
            if Py.truthy cleaned_str then
              map Json.of_string
                  (filter Py.truthy
                          (map clean_option (Py.split "," cleaned_str)))
            else []
        end
      else []
  end.

(** The decoding in [add_product] and [update_product]: the stored text is
    decoded as it is, and in the lenient scan a token is kept when it is
    not blank before cleaning. *)
Definition add_product_options (options : option string) : list Json.value :=
  match options with
  | None => []
  | Some raw =>
      if Py.truthy raw then
        match Json.loads raw with
        | Some (Json.JArr loaded_options) => loaded_options
        | Some _ => []
        | None =>
            let cleaned_str := strip_brackets (Py.strip raw) in
            map Json.of_string
                (map clean_option
                     (filter (fun opt => Py.truthy (Py.strip opt))
                             (Py.split "," cleaned_str)))
        end
      else []
  end.

(** The decoding in [export_excel]: stripped first as in [stok_listesi],
    tokens kept as in [add_product]. *)
Definition export_excel_options (db_options_str : option string) : list Json.value :=
  match db_options_str with
  | None => []
  | Some raw =>
      if Py.truthy raw then
        let stripped := Py.strip raw in
        match Json.loads stripped with
        | Some (Json.JArr loaded_options) => loaded_options
        | Some _ => []
        | None =>
            let cleaned_str := strip_brackets stripped in
            map Json.of_string
                (map clean_option
                     (filter (fun opt => Py.truthy (Py.strip opt))
                             (Py.split "," cleaned_str)))
        end
      else []
  end.

(** [dynamic_columns_info_dict]: one entry per row of [stock_columns], a
    later row replacing an earlier one of the same name. *)
Record col_info : Type := mkColInfo {
  column_type : string;
  options : list Json.value
}.

Definition dict_get {V : Type} (d : list (string * V)) (key : string) : option V :=
  option_map snd (find (fun e => String.eqb (fst e) key) (rev d)).

Definition dynamic_columns_info (decode : option string -> list Json.value)
    (rows : list col_def) : list (string * col_info) :=
  map (fun r => (sc_name r, mkColInfo (sc_type r) (decode (sc_options r)))) rows.

(** [value in col_options] for a [str] value. *)
Definition in_options (value : string) (opts : list Json.value) : bool :=
  existsb (fun o => match o with
                    | Json.JStr cs => if list_eq_dec N.eq_dec cs (Json.codes value)
                                      then true else false
                    | _ => false
                    end) opts.

(** ** The request handlers of [stok.py] *)

(** What a handler answers. A flashed message is named after the condition
    it reports; [Crashed] is an exception no handler catches (the request
    ends in an HTTP 500 and nothing is committed). *)
Inductive name_error : Type :=
| BlankName          (* 'Parametre adi bos birakilamaz.' *)
| UnsafeOrReserved.  (* 'Gecersiz veya sisteme ait bir parametre adi girdiniz.' *)

Inductive response : Type :=
| BadRequest                            (* a required form key is missing *)
| Crashed
| InvalidAttributeName (why : name_error)
| EmptyOptionSet
| DuplicateAttribute
| AttributeAdded
| AttributeNotFound
| AttributeRenamed
| NotASelectAttribute
| OptionsUpdated
| ProtectedColumn
| VisibilitySet
| MissingField
| EmptyName
| InvalidPrice
| InvalidNumericValue (col : string)
| InvalidOption (col : string)
| ProductAdded
| ProductUpdated
| ProductDeleted
| ProductNotFound
| InvalidFormat
| NegativeQuantity
| EntryNotFound
| DuplicateLocation                     (* [sqlite3.IntegrityError] in [update_inventory] *)
| IntegrityFailure                      (* [sqlite3.IntegrityError] in [add_column] *)
| InventoryUpdated
| EntryDeleted
| OperationalError                      (* [sqlite3.OperationalError], flashed *)
| UnexpectedError.                      (* any other exception, flashed *)

(** The outcome of one statement. *)
Inductive exec (A : Type) : Type :=
| Done (a : A)
| Integrity      (* [sqlite3.IntegrityError] *)
| Operational    (* [sqlite3.OperationalError] *)
| Overflow.      (* [OverflowError]: an integer that does not fit *)
Arguments Done {A} a.
Arguments Integrity {A}.
Arguments Operational {A}.
Arguments Overflow {A}.

Section Handlers.

(** Whether the connection enforces foreign keys. The source never sets the
    pragma, so SQLite's build decides. *)
Variable foreign_keys : bool.

(** Whether SQLite's grammar takes a bare word as a column name (a keyword
    or a word starting with a digit is refused). *)
Variable column_token : string -> bool.

(** The rowid SQLite makes of a non-NULL value written to the rowid column;
    [None] is its datatype mismatch. *)
Variable rowid_of_value : sqlval -> option Z.

(** *** Statements *)

(** [ALTER TABLE products ADD COLUMN {name} TEXT DEFAULT] the empty text *)
Definition alter_add_column (name : string) (st : store) : exec store :=
  if negb (column_token name) || Sql.has_column st name then Operational
  else
    Done {| pk_name := pk_name st;
            columns := columns st ++ [mkColumn name false (VText EmptyString)];
            products := map (fun p => mkProduct (p_rowid p)
                                        (p_cells p ++ [VText EmptyString]))
                            (products st);
            products_seq := products_seq st;
            inventory := inventory st; inventory_seq := inventory_seq st;
            stock_columns := stock_columns st;
            stock_columns_seq := stock_columns_seq st;
            visibility := visibility st; visibility_seq := visibility_seq st |}.

Definition rename_in (old new : string) (cols : list column) : list column :=
  map (fun c => if Sql.name_eqb old (c_name c)
                then mkColumn new (c_notnull c) (c_default c) else c) cols.

(** [ALTER TABLE products RENAME COLUMN {old} TO {new}] *)
Definition alter_rename_column (old new : string) (st : store) : exec store :=
  if negb (column_token old) || negb (column_token new)
     || negb (Sql.has_column st old) || Sql.has_column st new
  then Operational
  else
    Done {| pk_name := if Sql.name_eqb old (pk_name st) then new else pk_name st;
            columns := rename_in old new (columns st);
            products := products st; products_seq := products_seq st;
            inventory := inventory st; inventory_seq := inventory_seq st;
            stock_columns := stock_columns st;
            stock_columns_seq := stock_columns_seq st;
            visibility := visibility st; visibility_seq := visibility_seq st |}.

(** [INSERT OR IGNORE INTO stock_columns (column_name, column_type, options)] *)
Definition insert_or_ignore_stock_column
    (name type : string) (opts : option string) (st : store) : store :=
  if existsb (fun r => String.eqb (sc_name r) name) (stock_columns st) then st
  else
    let id := Sql.next_rowid (stock_columns_seq st) (map sc_id (stock_columns st)) in
    {| pk_name := pk_name st; columns := columns st;
       products := products st; products_seq := products_seq st;
       inventory := inventory st; inventory_seq := inventory_seq st;
       stock_columns := stock_columns st ++ [mkColDef id name type opts];
       stock_columns_seq := id;
       visibility := visibility st; visibility_seq := visibility_seq st |}.

(** [INSERT OR REPLACE INTO user_column_visibility (user_id, column_name,
    is_visible)]: the row holding the name, if any, gives way. *)
Definition insert_or_replace_visibility
    (user_id : Z) (name : string) (visible : bool) (st : store) : exec store :=
  if negb (Sql.fits_int64 user_id) then Overflow
  else
    let id := Sql.next_rowid (visibility_seq st) (map v_id (visibility st)) in
    Done {| pk_name := pk_name st; columns := columns st;
            products := products st; products_seq := products_seq st;
            inventory := inventory st; inventory_seq := inventory_seq st;
            stock_columns := stock_columns st;
            stock_columns_seq := stock_columns_seq st;
            visibility :=
              filter (fun r => negb (String.eqb (v_name r) name)) (visibility st)
              ++ [mkVis id user_id name visible];
            visibility_seq := id |}.

(** [UPDATE stock_columns SET column_name = ? WHERE column_name = ?]; the
    UNIQUE constraint on the name refuses a second holder. *)
Definition update_stock_column_name (new old : string) (st : store) : exec store :=
  let hit := fun r => String.eqb (sc_name r) old in
  let hits := filter hit (stock_columns st) in
  if match hits with [] => false | _ => true end
     && ((1 <? List.length hits)%nat
         || existsb (fun r => negb (hit r) && String.eqb (sc_name r) new)
                    (stock_columns st))
  then Integrity
  else
    Done {| pk_name := pk_name st; columns := columns st;
            products := products st; products_seq := products_seq st;
            inventory := inventory st; inventory_seq := inventory_seq st;
            stock_columns :=
              map (fun r => if hit r
                            then mkColDef (sc_id r) new (sc_type r) (sc_options r)
                            else r) (stock_columns st);
            stock_columns_seq := stock_columns_seq st;
            visibility := visibility st; visibility_seq := visibility_seq st |}.

(** [UPDATE user_column_visibility SET column_name = ? WHERE column_name = ?
    AND user_id = ?] *)
Definition update_visibility_name
    (new old : string) (user_id : Z) (st : store) : exec store :=
  let hit := fun r => String.eqb (v_name r) old && (v_user_id r =? user_id)%Z in
  let hits := filter hit (visibility st) in
  if match hits with [] => false | _ => true end
     && ((1 <? List.length hits)%nat
         || existsb (fun r => negb (hit r) && String.eqb (v_name r) new)
                    (visibility st))
  then Integrity
  else
    Done {| pk_name := pk_name st; columns := columns st;
            products := products st; products_seq := products_seq st;
            inventory := inventory st; inventory_seq := inventory_seq st;
            stock_columns := stock_columns st;
            stock_columns_seq := stock_columns_seq st;
            visibility :=
              map (fun r => if hit r
                            then mkVis (v_id r) (v_user_id r) new (v_visible r)
                            else r) (visibility st);
            visibility_seq := visibility_seq st |}.

(** [UPDATE stock_columns SET options = ? WHERE column_name = ?] *)
Definition update_stock_column_options
    (opts : string) (name : string) (st : store) : store :=
  {| pk_name := pk_name st; columns := columns st;
     products := products st; products_seq := products_seq st;
     inventory := inventory st; inventory_seq := inventory_seq st;
     stock_columns :=
       map (fun r => if String.eqb (sc_name r) name
                     then mkColDef (sc_id r) (sc_name r) (sc_type r) (Some opts)
                     else r) (stock_columns st);
     stock_columns_seq := stock_columns_seq st;
     visibility := visibility st; visibility_seq := visibility_seq st |}.

(** The cells of the column a query names: the rowids under the name of the
    rowid column. [None]: no such column. *)
Definition select_column (name : string) (st : store) : option (list sqlval) :=
  if Sql.name_eqb name (pk_name st)
  then Some (map (fun p => VInt (p_rowid p)) (products st))
  else match Sql.column_index name (columns st) with
       | Some i => Some (Sql.column_cells i (products st))
       | None => None
       end.

(** [INSERT INTO products (...) VALUES (...)] for a list of named values.
    Every name has to be a column; a column not named takes its default; a
    NOT NULL column refuses NULL; the rowid is the next AUTOINCREMENT value
    unless the rowid column is named with a value. Gives the store and
    [cursor.lastrowid]. *)
Definition insert_product (a : list (string * sqlval)) (st : store)
  : exec (store * Z) :=
  if negb (forallb (fun kv => Sql.bindable (snd kv)) a) then Overflow
  else if negb (forallb (fun kv => Sql.has_column st (fst kv)) a) then Operational
  else
    let cells :=
      map (fun c => match Sql.assigned (c_name c) a with
                    | Some v => v
                    | None => c_default c
                    end) (columns st) in
    if existsb (fun cv => c_notnull (fst cv) && Sql.is_null (snd cv))
               (combine (columns st) cells)
    then Integrity
    else
      let auto := Sql.next_rowid (products_seq st) (map p_rowid (products st)) in
      let chosen :=
        match Sql.assigned (pk_name st) a with
        | None | Some VNull => Some auto
        | Some v =>
            match rowid_of_value v with
            | Some z =>
                if existsb (fun p => (p_rowid p =? z)%Z) (products st)
                then None else Some z
            | None => None
            end
        end in
      match chosen with
      | None => Integrity
      | Some id =>
          Done ({| pk_name := pk_name st; columns := columns st;
                   products := products st ++ [mkProduct id cells];
                   products_seq := Z.max (products_seq st) id;
                   inventory := inventory st; inventory_seq := inventory_seq st;
                   stock_columns := stock_columns st;
                   stock_columns_seq := stock_columns_seq st;
                   visibility := visibility st;
                   visibility_seq := visibility_seq st |}, id)
      end.

(** The cells of a row after [SET]: a named column takes its value. *)
Definition set_cells (a : list (string * sqlval)) (cols : list column)
    (cells : list sqlval) : list sqlval :=
  map (fun cv => match Sql.assigned (c_name (fst cv)) a with
                 | Some v => v
                 | None => snd cv
                 end) (combine cols cells).

(** [UPDATE products SET ... WHERE id = ?]: gives the store and
    [cursor.rowcount]. The statement names [id]; a value for the rowid
    column under another name is outside what the handlers can reach with
    a store that still has an [id] column. *)
Definition update_product_row (a : list (string * sqlval)) (id : Z) (st : store)
  : exec (store * nat) :=
  if negb (forallb (fun kv => Sql.bindable (snd kv)) a && Sql.fits_int64 id)
  then Overflow
  else if negb (forallb (fun kv => Sql.has_column st (fst kv)) a
                && Sql.name_eqb "id" (pk_name st))
  then Operational
  else
    let hit := fun p => (p_rowid p =? id)%Z in
    let updated :=
      map (fun p => if hit p
                    then mkProduct (p_rowid p) (set_cells a (columns st) (p_cells p))
                    else p) (products st) in
    if existsb (fun p => hit p
                  && existsb (fun cv => c_notnull (fst cv) && Sql.is_null (snd cv))
                       (combine (columns st) (p_cells p))) updated
    then Integrity
    else
      Done ({| pk_name := pk_name st; columns := columns st;
               products := updated; products_seq := products_seq st;
               inventory := inventory st; inventory_seq := inventory_seq st;
               stock_columns := stock_columns st;
               stock_columns_seq := stock_columns_seq st;
               visibility := visibility st;
               visibility_seq := visibility_seq st |},
            List.length (filter hit (products st))).

(** [DELETE FROM products WHERE id = ?]; with foreign keys enforced the
    inventory rows of the product go with it (ON DELETE CASCADE). *)
Definition delete_product_row (id : Z) (st : store) : exec (store * nat) :=
  if negb (Sql.fits_int64 id) then Overflow
  else if negb (Sql.name_eqb "id" (pk_name st)) then Operational
  else
    let hit := fun p => (p_rowid p =? id)%Z in
    let gone := List.length (filter hit (products st)) in
    Done ({| pk_name := pk_name st; columns := columns st;
             products := filter (fun p => negb (hit p)) (products st);
             products_seq := products_seq st;
             inventory :=
               if foreign_keys && (0 <? gone)%nat
               then filter (fun r => negb (i_product_id r =? id)%Z) (inventory st)
               else inventory st;
             inventory_seq := inventory_seq st;
             stock_columns := stock_columns st;
             stock_columns_seq := stock_columns_seq st;
             visibility := visibility st;
             visibility_seq := visibility_seq st |}, gone).

Definition with_inventory (rows : list inv_row) (seq : Z) (st : store) : store :=
  {| pk_name := pk_name st; columns := columns st;
     products := products st; products_seq := products_seq st;
     inventory := rows; inventory_seq := seq;
     stock_columns := stock_columns st;
     stock_columns_seq := stock_columns_seq st;
     visibility := visibility st; visibility_seq := visibility_seq st |}.

Definition same_slot (product_id : Z) (location : string) (r : inv_row) : bool :=
  (i_product_id r =? product_id)%Z && String.eqb (i_location r) location.

(** The foreign key of [inventory]: the product has to exist when foreign
    keys are enforced. *)
Definition parent_ok (product_id : Z) (st : store) : bool :=
  negb foreign_keys || existsb (fun p => (p_rowid p =? product_id)%Z) (products st).

(** [INSERT INTO inventory (product_id, quantity, location) VALUES (?, ?, ?)];
    [last_updated] takes CURRENT_TIMESTAMP. *)
Definition insert_inventory (product_id quantity : Z) (location now : string)
    (st : store) : exec store :=
  if negb (Sql.fits_int64 product_id && Sql.fits_int64 quantity) then Overflow
  else if existsb (same_slot product_id location) (inventory st)
          || negb (parent_ok product_id st)
  then Integrity
  else
    let id := Sql.next_rowid (inventory_seq st) (map i_id (inventory st)) in
    Done (with_inventory
            (inventory st ++ [mkInv id product_id quantity location now]) id st).

(** [INSERT OR REPLACE INTO inventory (product_id, quantity, location,
    last_updated)]: the row holding the pair, if any, is deleted and a new
    row is inserted under a new id. *)
Definition insert_or_replace_inventory
    (product_id quantity : Z) (location now : string) (st : store) : exec store :=
  if negb (Sql.fits_int64 product_id && Sql.fits_int64 quantity) then Overflow
  else if negb (parent_ok product_id st) then Integrity
  else
    let id := Sql.next_rowid (inventory_seq st) (map i_id (inventory st)) in
    Done (with_inventory
            (filter (fun r => negb (same_slot product_id location r)) (inventory st)
             ++ [mkInv id product_id quantity location now]) id st).

(** [UPDATE inventory SET quantity = ?, location = ?, last_updated = ?
    WHERE id = ? AND product_id = ?]: the UNIQUE pair refuses a location
    another row of the product holds. Gives the store and [rowcount]. *)
Definition update_inventory_row
    (quantity : Z) (location now : string) (inventory_id product_id : Z)
    (st : store) : exec (store * nat) :=
  if negb (Sql.fits_int64 quantity && Sql.fits_int64 inventory_id
           && Sql.fits_int64 product_id)
  then Overflow
  else
    let hit := fun r => (i_id r =? inventory_id)%Z && (i_product_id r =? product_id)%Z in
    let hits := filter hit (inventory st) in
    if match hits with [] => false | _ => true end
       && ((1 <? List.length hits)%nat
           || existsb (fun r => negb (hit r) && same_slot product_id location r)
                      (inventory st))
    then Integrity
    else
      Done (with_inventory
              (map (fun r => if hit r
                             then mkInv (i_id r) (i_product_id r) quantity location now
                             else r) (inventory st))
              (inventory_seq st) st,
            List.length hits).

(** [DELETE FROM inventory WHERE id = ?] *)
Definition delete_inventory_row (inventory_id : Z) (st : store) : exec store :=
  if negb (Sql.fits_int64 inventory_id) then Overflow
  else
    Done (with_inventory
            (filter (fun r => negb (i_id r =? inventory_id)%Z) (inventory st))
            (inventory_seq st) st).

(** *** The connection of one request

    [get_stock_db] opens one connection per request and
    [teardown_stock_request] closes it. [working] is what the statements of
    the request see, [committed] what the file holds. *)
Record conn : Type := mkConn {
  committed : store;
  working : store;
  in_transaction : bool
}.

Definition connect (st : store) : conn := mkConn st st false.

(** A data statement (INSERT, UPDATE, DELETE, REPLACE): the [sqlite3]
    module opens a transaction before it when none is open. A statement
    that fails changes nothing. *)
Definition dml {A : Type} (stmt : store -> exec (store * A)) (db : conn)
  : exec (conn * A) :=
  match stmt (working db) with
  | Done (w, a) => Done (mkConn (committed db) w true, a)
  | Integrity => Integrity
  | Operational => Operational
  | Overflow => Overflow
  end.

Definition dml_ (stmt : store -> exec store) (db : conn) : exec conn :=
  match stmt (working db) with
  | Done w => Done (mkConn (committed db) w true)
  | Integrity => Integrity
  | Operational => Operational
  | Overflow => Overflow
  end.

(** A schema statement (ALTER TABLE): no transaction is opened for it, so
    outside a transaction it is committed as soon as it has run. *)
Definition ddl (stmt : store -> exec store) (db : conn) : exec conn :=
  match stmt (working db) with
  | Done w =>
      Done (if in_transaction db then mkConn (committed db) w true
            else mkConn w w false)
  | Integrity => Integrity
  | Operational => Operational
  | Overflow => Overflow
  end.

(** [db.commit()] *)
Definition commit (db : conn) : conn := mkConn (working db) (working db) false.

(** [db.rollback()] *)
Definition rollback (db : conn) : conn := mkConn (committed db) (committed db) false.

(** [db.close()] at the end of the request: what was not committed is lost. *)
Definition close (db : conn) : store := committed db.

(** *** Attribute handlers *)

(** [add_column] *)
Definition add_column (user_id : Z) (f : form) (st : store) : store * response :=
  let db := connect st in
  match form_get f "new_column" with
  | None => (close db, BadRequest)
  | Some raw =>
      let new_col_raw := Py.strip raw in
      let column_type := form_get_default f "column_type" "text" in
      let options_raw := Py.strip (form_get_default f "options_hidden_input" EmptyString) in
      if negb (Py.truthy new_col_raw) then (close db, InvalidAttributeName BlankName)
      else
        let new_col := sanitize new_col_raw in
        if negb (Py.truthy new_col) || Py.mem new_col reserved_names
        then (close db, InvalidAttributeName UnsafeOrReserved)
        else
          let checked : option (option string) :=
            if String.eqb column_type "select" then
              match options_list options_raw with
              | [] => None
              | l => Some (Some (Json.dumps l))
              end
            else Some None in
          match checked with
          | None => (close db, EmptyOptionSet)
          | Some options_json =>
              let existing_product_columns :=
                map Py.lower (Sql.table_info (working db)) in
              if Py.mem new_col existing_product_columns
              then (close db, DuplicateAttribute)
              else
                match ddl (alter_add_column new_col) db with
                | Done db1 =>
                    let db2 :=
                      match dml_ (fun w => Done (insert_or_ignore_stock_column
                                                   new_col column_type options_json w))
                                 db1 with
                      | Done d => d
                      | _ => db1
                      end in
                    match dml_ (insert_or_replace_visibility user_id new_col true)
                               db2 with
                    | Done db3 => (close (commit db3), AttributeAdded)
                    | Integrity => (close db2, IntegrityFailure)
                    | Operational => (close db2, OperationalError)
                    | Overflow => (close db2, UnexpectedError)
                    end
                | Integrity => (close db, IntegrityFailure)
                | Operational => (close db, OperationalError)
                | Overflow => (close db, UnexpectedError)
                end
          end
  end.

(** [rename_column] *)
Definition rename_column (user_id : Z) (f : form) (st : store) : store * response :=
  let db := connect st in
  let new_column_raw := Py.strip (form_get_default f "new_column_name" EmptyString) in
  match form_get f "old_column_name" with
  | None => (close db, MissingField)
  | Some old_column_name =>
      if negb (Py.truthy old_column_name) || negb (Py.truthy new_column_raw)
      then (close db, MissingField)
      else
        let new_column_safe_name := sanitize new_column_raw in
        if negb (Py.truthy new_column_safe_name)
           || Py.mem new_column_safe_name reserved_names
        then (close db, InvalidAttributeName UnsafeOrReserved)
        else
          let existing_columns := map Py.lower (Sql.table_info (working db)) in
          if negb (Py.mem (Py.lower old_column_name) existing_columns)
          then (close db, AttributeNotFound)
          else if Py.mem new_column_safe_name existing_columns
          then (close db, DuplicateAttribute)
          else
            match ddl (alter_rename_column old_column_name new_column_safe_name)
                      db with
            | Done db1 =>
                match dml_ (update_stock_column_name
                              new_column_safe_name old_column_name) db1 with
                | Done db2 =>
                    match dml_ (update_visibility_name
                                  new_column_safe_name old_column_name user_id)
                               db2 with
                    | Done db3 => (close (commit db3), AttributeRenamed)
                    | Operational => (close db2, OperationalError)
                    | _ => (close db2, UnexpectedError)
                    end
                | Operational => (close db1, OperationalError)
                | _ => (close db1, UnexpectedError)
                end
            | Operational => (close db, OperationalError)
            | _ => (close db, UnexpectedError)
            end
  end.

(** [update_column_options] *)
Definition update_column_options (f : form) (st : store) : store * response :=
  let db := connect st in
  let options_raw := Py.strip (form_get_default f "options_input" EmptyString) in
  match form_get f "column_name" with
  | None => (close db, MissingField)
  | Some column_name =>
      if negb (Py.truthy column_name) then (close db, MissingField)
      else
        let options_json := Json.dumps (options_list options_raw) in
        match find (fun r => String.eqb (sc_name r) column_name)
                   (stock_columns (working db)) with
        | None => (close db, AttributeNotFound)
        | Some col_info =>
            if negb (String.eqb (sc_type col_info) "select")
            then (close db, NotASelectAttribute)
            else
              match dml_ (fun w => Done (update_stock_column_options
                                           options_json column_name w)) db with
              | Done db1 => (close (commit db1), OptionsUpdated)
              | _ => (close db, UnexpectedError)
              end
        end
  end.

(** [toggle_column_visibility] *)
Definition toggle_column_visibility (user_id : Z) (f : form) (st : store)
  : store * response :=
  let db := connect st in
  let is_visible :=
    match form_get f "is_visible" with
    | Some v => String.eqb v "true"
    | None => false
    end in
  match form_get f "column_name" with
  | None => (close db, MissingField)
  | Some column_name =>
      if negb (Py.truthy column_name) then (close db, MissingField)
      else if Py.mem column_name reserved_names then (close db, ProtectedColumn)
      else
        match dml_ (insert_or_replace_visibility user_id column_name is_visible)
                   db with
        | Done db1 => (close (commit db1), VisibilitySet)
        | _ => (close db, UnexpectedError)
        end
  end.

(** *** Product handlers *)

(** [int(result) if result is not None and str(result).strip() != '' else 0]
    on the value [SELECT MAX(user_product_id)] gives; [None] is an
    exception. *)
Definition max_user_id_of (result : sqlval) : option Z :=
  match result with
  | VNull => Some 0%Z
  | VInt z => Some z
  | VText s => if Py.truthy (Py.strip s) then Py.int s else Some 0%Z
  | VReal (Py.Dec neg m e) =>
      let a := if (0 <=? e)%Z then (Z.of_N m * 10 ^ e)%Z
               else (Z.of_N m / 10 ^ (- e))%Z in
      Some (if neg then (- a)%Z else a)
  | VReal _ => None
  end.

(** The loop over the product columns that validates and collects the
    values of the columns outside the four fixed names. The first invalid
    value ends it. *)
Fixpoint dynamic_values (info : list (string * col_info)) (f : form)
    (cols : list string) : response + list (string * sqlval) :=
  match cols with
  | [] => inr []
  | col_name :: rest =>
      if Py.mem col_name reserved_names then dynamic_values info f rest
      else
        let col_type :=
          match dict_get info col_name with
          | Some i => column_type i
          | None => "text"
          end in
        let col_options :=
          match dict_get info col_name with
          | Some i => options i
          | None => []
          end in
        let value := Py.strip (form_get_default f col_name EmptyString) in
        let checked : response + sqlval :=
          if String.eqb col_type "number" then
            if Py.truthy value then
              match Py.float_of_string value with
              | Some x => inr (Sql.bind_float x)
              | None => inl (InvalidNumericValue col_name)
              end
            else inr VNull
          else if String.eqb col_type "select" then
            if Py.truthy value && negb (in_options value col_options)
            then inl (InvalidOption col_name)
            else inr (VText value)
          else inr (VText value) in
        match checked with
        | inl e => inl e
        | inr v =>
            match dynamic_values info f rest with
            | inl e => inl e
            | inr vs => inr ((col_name, v) :: vs)
            end
        end
  end.

(** [add_product]; [now] is the CURRENT_TIMESTAMP of the request. *)
Definition add_product (f : form) (now : string) (st : store) : store * response :=
  let db := connect st in
  let all_product_column_names := Sql.table_info (working db) in
  let info := dynamic_columns_info add_product_options (stock_columns (working db)) in
  match select_column "user_product_id" (working db) with
  | None => (close db, Crashed)
  | Some cells =>
      match max_user_id_of (Sql.max_val cells) with
      | None => (close db, Crashed)
      | Some max_user_id =>
          let next_user_id := (max_user_id + 1)%Z in
          let name := Py.strip (form_get_default f "name" EmptyString) in
          let price_str := Py.strip (form_get_default f "price" EmptyString) in
          if negb (Py.truthy name) then (close db, EmptyName)
          else
            match Py.float_of_string price_str with
            | None => (close db, InvalidPrice)
            | Some price =>
                match dynamic_values info f all_product_column_names with
                | inl e => (close db, e)
                | inr dyn =>
                    let insert_values :=
                      ("user_product_id", VInt next_user_id)
                      :: ("name", VText name)
                      :: ("price", Sql.bind_float price) :: dyn in
                    match dml (insert_product insert_values) db with
                    | Done (db1, product_id) =>
                        match dml_ (insert_inventory product_id 0 EmptyString now)
                                   db1 with
                        | Done db2 => (close (commit db2), ProductAdded)
                        | _ => (close db1, UnexpectedError)
                        end
                    | _ => (close db, UnexpectedError)
                    end
                end
            end
      end
  end.

(** [delete_product] *)
Definition delete_product (product_id : Z) (st : store) : store * response :=
  let db := connect st in
  match dml (delete_product_row product_id) db with
  | Done (db1, rowcount) =>
      (close (commit db1),
       if (0 <? rowcount)%nat then ProductDeleted else ProductNotFound)
  | _ => (close db, UnexpectedError)
  end.

(** [update_product] *)
Definition update_product (product_id : Z) (f : form) (st : store)
  : store * response :=
  let db := connect st in
  let all_product_column_names := Sql.table_info (working db) in
  let info := dynamic_columns_info add_product_options (stock_columns (working db)) in
  let name := Py.strip (form_get_default f "name" EmptyString) in
  let price_str := Py.strip (form_get_default f "price" EmptyString) in
  if negb (Py.truthy name) then (close db, EmptyName)
  else
    match Py.float_of_string price_str with
    | None => (close db, InvalidPrice)
    | Some price =>
        match dynamic_values info f all_product_column_names with
        | inl e => (close db, e)
        | inr dyn =>
            let update_values :=
              ("name", VText name) :: ("price", Sql.bind_float price) :: dyn in
            match dml (update_product_row update_values product_id) db with
            | Done (db1, rowcount) =>
                (close (commit db1),
                 if (0 <? rowcount)%nat then ProductUpdated else ProductNotFound)
            | _ => (close db, UnexpectedError)
            end
        end
    end.

(** *** Inventory handlers *)

(** One inventory row as [envanter_listesi] hands it to the template; the
    placeholder has no id. *)
Record entry_view : Type := mkEntry {
  inventory_id : option Z;
  quantity : Z;
  location : string;
  last_updated : string
}.

(** One product of the listing: the four selected values and its rows. *)
Record product_view : Type := mkView {
  pv_id : sqlval;
  pv_user_product_id : sqlval;
  pv_name : sqlval;
  pv_price : sqlval;
  inventory_entries : list entry_view
}.

(** The value of a named column in one row. *)
Definition cell_of (name : string) (st : store) (p : product) : option sqlval :=
  if Sql.name_eqb name (pk_name st) then Some (VInt (p_rowid p))
  else option_map (fun i => nth i (p_cells p) VNull)
                  (Sql.column_index name (columns st)).

(** [name LIKE ?]; a name cell holds text in every store the handlers
    build, another value does not match here. *)
Definition name_like (pat : string) (v : sqlval) : bool :=
  match v with
  | VText s => Sql.like pat s
  | _ => false
  end.

(** [SELECT id, user_product_id, name, price FROM products
    [WHERE name LIKE ?] ORDER BY user_product_id]; [None]: one of the four
    names is not a column. *)
Definition select_products (product_name_filter : string) (st : store)
  : option (list (sqlval * sqlval * sqlval * sqlval)) :=
  let row := fun p =>
    match cell_of "id" st p, cell_of "user_product_id" st p,
          cell_of "name" st p, cell_of "price" st p with
    | Some a, Some b, Some c, Some d => Some (a, b, c, d)
    | _, _, _, _ => None
    end in
  if Sql.has_column st "id" && Sql.has_column st "user_product_id"
     && Sql.has_column st "name" && Sql.has_column st "price"
  then
    let rows := flat_map (fun p => match row p with Some r => [r] | None => [] end)
                         (products st) in
    let kept :=
      if Py.truthy product_name_filter
      then filter (fun r => name_like ("%" ++ product_name_filter ++ "%")
                                      (snd (fst r))) rows
      else rows in
    Some (Sql.order_by (fun r => snd (fst (fst r))) kept)
  else None.

(** [SELECT id AS inventory_id, quantity, location, last_updated FROM
    inventory WHERE product_id = ? [AND location = ?] ORDER BY location] *)
Definition select_inventory (product_id : sqlval) (location_filter : string)
    (st : store) : list entry_view :=
  let mine := fun r =>
    match product_id with
    | VInt z => (i_product_id r =? z)%Z
    | _ => false
    end in
  let kept := fun r =>
    mine r && (negb (Py.truthy location_filter)
               || String.eqb (i_location r) location_filter) in
  map (fun r => mkEntry (Some (i_id r)) (i_quantity r) (i_location r)
                        (i_last_updated r))
      (Sql.order_by (fun r => VText (i_location r)) (filter kept (inventory st))).

(** The loop of [envanter_listesi] over the selected products. *)
Fixpoint product_inventory_data
    (location_filter : string) (st : store)
    (rows : list (sqlval * sqlval * sqlval * sqlval)) : list product_view :=
  match rows with
  | [] => []
  | (id, upid, name, price) :: rest =>
      let entries := select_inventory id location_filter st in
      match entries with
      | [] =>
          if Py.truthy location_filter
          then product_inventory_data location_filter st rest
          else mkView id upid name price [mkEntry None 0 EmptyString "N/A"]
               :: product_inventory_data location_filter st rest
      | _ => mkView id upid name price entries
             :: product_inventory_data location_filter st rest
      end
  end.

(** [SELECT DISTINCT location FROM inventory WHERE location IS NOT NULL AND
    location != '' ORDER BY location] *)
Definition existing_locations (st : store) : list string :=
  Sql.order_by VText
    (nodup string_dec
       (filter Py.truthy (map i_location (inventory st)))).

(** [envanter_listesi]: what the template receives; [None] is the uncaught
    [sqlite3.OperationalError] of the product query. *)
Definition envanter_listesi (args : form) (st : store)
  : option (list product_view * list string) :=
  let product_name_filter :=
    Py.strip (form_get_default args "product_name_filter" EmptyString) in
  let location_filter :=
    Py.strip (form_get_default args "location_filter" EmptyString) in
  match select_products product_name_filter st with
  | None => None
  | Some rows =>
      Some (product_inventory_data location_filter st rows, existing_locations st)
  end.

(** [update_inventory]; [now] is [datetime.now()] formatted. *)
Definition update_inventory (f : form) (now : string) (st : store)
  : store * response :=
  let db := connect st in
  let location := Py.strip (form_get_default f "location" EmptyString) in
  match form_get f "product_id", form_get f "quantity" with
  | Some product_id_str, Some quantity_str =>
      if negb (Py.truthy product_id_str) || negb (Py.truthy quantity_str)
      then (close db, MissingField)
      else
        match Py.int product_id_str, Py.int quantity_str with
        | Some product_id, Some quantity =>
            if (quantity <? 0)%Z then (close db, NegativeQuantity)
            else
              let by_id :=
                match form_get f "inventory_id" with
                | Some i => if Py.truthy i && negb (String.eqb i "None")
                            then Some i else None
                | None => None
                end in
              match by_id with
              | Some i =>
                  match Py.int i with
                  | None => (close (rollback db), UnexpectedError)
                  | Some inventory_id =>
                      match dml (update_inventory_row quantity location now
                                                      inventory_id product_id) db with
                      | Done (db1, rowcount) =>
                          if (rowcount =? 0)%nat then (close db1, EntryNotFound)
                          else (close (commit db1), InventoryUpdated)
                      | Integrity => (close (rollback db), DuplicateLocation)
                      | _ => (close (rollback db), UnexpectedError)
                      end
                  end
              | None =>
                  match dml_ (insert_or_replace_inventory product_id quantity
                                                          location now) db with
                  | Done db1 => (close (commit db1), InventoryUpdated)
                  | Integrity => (close (rollback db), DuplicateLocation)
                  | _ => (close (rollback db), UnexpectedError)
                  end
              end
        | _, _ => (close db, InvalidFormat)
        end
  | _, _ => (close db, MissingField)
  end.

(** [delete_inventory_entry] *)
Definition delete_inventory_entry (inventory_id : Z) (st : store)
  : store * response :=
  let db := connect st in
  match dml_ (delete_inventory_row inventory_id) db with
  | Done db1 => (close (commit db1), EntryDeleted)
  | _ => (close (rollback db), UnexpectedError)
  end.

(** *** Requests as steps of the store *)

(** One state-changing request of the blueprint. *)
Inductive request : Type :=
| AddColumn (user_id : Z) (f : form)
| RenameColumn (user_id : Z) (f : form)
| UpdateColumnOptions (f : form)
| ToggleColumnVisibility (user_id : Z) (f : form)
| AddProduct (f : form) (now : string)
| UpdateProduct (product_id : Z) (f : form)
| DeleteProduct (product_id : Z)
| UpdateInventory (f : form) (now : string)
| DeleteInventoryEntry (inventory_id : Z).

Definition handle (r : request) (st : store) : store * response :=
  match r with
  | AddColumn u f => add_column u f st
  | RenameColumn u f => rename_column u f st
  | UpdateColumnOptions f => update_column_options f st
  | ToggleColumnVisibility u f => toggle_column_visibility u f st
  | AddProduct f now => add_product f now st
  | UpdateProduct id f => update_product id f st
  | DeleteProduct id => delete_product id st
  | UpdateInventory f now => update_inventory f now st
  | DeleteInventoryEntry id => delete_inventory_entry id st
  end.

(** The store after a sequence of requests. *)
Definition run (rs : list request) (st : store) : store :=
  fold_left (fun s r => fst (handle r s)) rs st.

(** The stores requests can produce from a new store file. *)
Definition reachable (st : store) : Prop :=
  exists rs, st = run rs init_stock_table.

End Handlers.

(** ** Vocabulary of the properties *)

(** The display identifiers of the products in table order: the cells of
    [user_product_id]. *)
Definition display_ids (st : store) : option (list sqlval) :=
  select_column "user_product_id" st.

(** One more than the largest of the display identifiers, 1 when there is
    none. *)
Definition next_display_id (ids : list Z) : Z :=
  match ids with
  | [] => 1%Z
  | i :: r => (fold_left Z.max r i + 1)%Z
  end.

(** A new identifier lies strictly above every identifier ever assigned. *)
Definition exceeds_all (new_id : Z) (assigned : list Z) : Prop :=
  Forall (fun i => (i < new_id)%Z) assigned.

(** The product a request created: the last row of the table. *)
Definition created (st : store) : option product :=
  hd_error (rev (products st)).

(** The key of the UNIQUE constraint of [inventory]. *)
Definition slot (r : inv_row) : Z * string := (i_product_id r, i_location r).

(** At most one inventory row per product and location. *)
Definition inventory_unique (st : store) : Prop :=
  NoDup (map slot (inventory st)).

(** The rows of a product at a location. *)
Definition entries_at (product_id : Z) (location : string) (st : store)
  : list inv_row :=
  filter (same_slot product_id location) (inventory st).

(** The form of a product with no dynamic value. *)
Definition product_form (name price : string) : form :=
  [("name", name); ("price", price)].

(** A definition and a visibility preference after the rename of [old] to
    [new] on behalf of [user_id]. *)
Definition rename_def (old new : string) (d : col_def) : col_def :=
  if String.eqb (sc_name d) old
  then mkColDef (sc_id d) new (sc_type d) (sc_options d) else d.

Definition rename_vis (old new : string) (user_id : Z) (v : vis_row) : vis_row :=
  if String.eqb (v_name v) old && (v_user_id v =? user_id)%Z
  then mkVis (v_id v) (v_user_id v) new (v_visible v) else v.

(** A product column after the rename, by its name. *)
Definition rename_name (old new name : string) : string :=
  if Sql.name_eqb old name then new else name.




(** A property of stores holds of both sides of a connection. *)
Definition conn_ok (P : store -> Prop) (db : conn) : Prop :=
  P (committed db) /\ P (working db).

(** A statement keeps a property of stores. *)
Definition preserves {A : Type} (P : store -> Prop)
    (stmt : store -> exec (store * A)) : Prop :=
  forall st st' a, P st -> stmt st = Done (st', a) -> P st'.

Definition preserves_ (P : store -> Prop) (stmt : store -> exec store) : Prop :=
  forall st st', P st -> stmt st = Done st' -> P st'.

(** The product and location an [update_inventory] form names, and its
    quantity, as the handler reads them. *)
Definition upsert_key (f : form) : option (Z * string) :=
  match form_get f "product_id" with
  | Some p =>
      match Py.int p with
      | Some product_id =>
          Some (product_id, Py.strip (form_get_default f "location" EmptyString))
      | None => None
      end
  | None => None
  end.

Definition upsert_quantity (f : form) : option Z :=
  match form_get f "quantity" with
  | Some q => Py.int q
  | None => None
  end.

(** The form of an [update_inventory] request without [inventory_id]. *)
Definition upsert_form (product_id location quantity : string) : form :=
  [("product_id", product_id); ("location", location); ("quantity", quantity)].

(** The lenient scan in the words of the specification: the bracket
    characters are removed, the text is split on commas, each token is
    trimmed of whitespace and of surrounding quote characters, escaped
    double quotes become plain ones, and the tokens that have become empty
    are discarded. *)
Definition spec_lenient_scan (s : string) : list string :=
  filter Py.truthy (map clean_option (Py.split "," (strip_brackets s))).

(** The three statements below are the specification's, as it words them;
    they are refuted further down. *)

(** Display identifiers are never reused: after three creations on a new
    store and the deletion of any one of the three products, the next
    creation gets an identifier above 1, 2 and 3. *)
Definition claimed_no_reuse (foreign_keys : bool)
    (column_token : string -> bool) (rowid_of_value : sqlval -> option Z) : Prop :=
  forall deleted : Z,
    In deleted [1; 2; 3]%Z ->
    let st :=
      run foreign_keys column_token rowid_of_value
          [AddProduct (product_form "a" "1") "t1";
           AddProduct (product_form "b" "2") "t2";
           AddProduct (product_form "c" "3") "t3";
           DeleteProduct deleted;
           AddProduct (product_form "d" "4") "t4"] init_stock_table in
    exists row new_id,
      created st = Some row
      /\ cell_of "user_product_id" st row = Some (VInt new_id)
      /\ exceeds_all new_id [1; 2; 3]%Z.

(** A successful rename carries every visibility preference of the old
    name over to the new name, whichever user it belongs to. *)
Definition claimed_cascade_to_all_users (column_token : string -> bool) : Prop :=
  forall (user_id : Z) (f : form) (st st' : store) (old : string),
    rename_column column_token user_id f st = (st', AttributeRenamed) ->
    form_get f "old_column_name" = Some old ->
    forall v, In v (visibility st) -> v_name v = old ->
      In (mkVis (v_id v) (v_user_id v)
            (sanitize (Py.strip (form_get_default f "new_column_name" EmptyString)))
            (v_visible v))
         (visibility st').

(** A sanitized name that is valid and equals an existing product column
    is answered with [DuplicateAttribute]. *)
Definition claimed_duplicate_reported (column_token : string -> bool) : Prop :=
  forall (user_id : Z) (f : form) (st : store) (raw : string),
    form_get f "new_column" = Some raw ->
    sanitize (Py.strip raw) <> EmptyString ->
    ~ In (sanitize (Py.strip raw)) reserved_names ->
    In (sanitize (Py.strip raw)) (map Py.lower (Sql.table_info st)) ->
    add_column column_token user_id f st = (st, DuplicateAttribute).

(** Stores and forms of the scenarios. *)
Definition color_form (options_raw : string) : form :=
  [("new_column", "Color"); ("column_type", "select");
   ("options_hidden_input", options_raw)].

Definition store_with_color : store :=
  fst (add_column (fun _ => true) 1 (color_form "Red, Blue, Green") init_stock_table).

(** The same store when the preference for [color] belongs to user 2. *)
Definition store_of_two_users : store :=
  {| pk_name := pk_name store_with_color;
     columns := columns store_with_color;
     products := products store_with_color;
     products_seq := products_seq store_with_color;
     inventory := inventory store_with_color;
     inventory_seq := inventory_seq store_with_color;
     stock_columns := stock_columns store_with_color;
     stock_columns_seq := stock_columns_seq store_with_color;
     visibility := [mkVis 1 2 "color" true];
     visibility_seq := visibility_seq store_with_color |}.

Definition rename_form (old new : string) : form :=
  [("old_column_name", old); ("new_column_name", new)].

(** ** An instance of SQLite's side for the concrete scenarios *)

(** A bare word the grammar takes as a column name: a letter or an
    underscore, then letters, digits and underscores (no keyword is among
    the names the scenarios use). *)
Definition bare_word (s : string) : bool :=
  match s with
  | EmptyString => false
  | String c r =>
      (Py.is_upper_ascii c || Py.is_lower_ascii c || Ascii.eqb c "_")
      && Py.is_empty
           (Py.sfilter (fun d => negb (Py.is_digit d || Py.is_upper_ascii d
                                       || Py.is_lower_ascii d || Ascii.eqb d "_")) r)
  end.

(** An integer is its own rowid; the scenarios write nothing else there. *)
Definition integer_rowid (v : sqlval) : option Z :=
  match v with
  | VInt z => Some z
  | _ => None
  end.

(** The store after the creation of one product, and after one and two
    inventory requests for its location A. *)
Definition widget_store : store :=
  fst (add_product false integer_rowid (product_form "Widget" "9.99") "t0"
         init_stock_table).

Definition widget_store_5 : store :=
  fst (update_inventory false (upsert_form "1" "A" "5") "t1" widget_store).

Definition widget_store_7 : store :=
  fst (update_inventory false (upsert_form "1" "A" "7") "t2" widget_store_5).

(** A store whose inventory holds a row for a product that does not exist
    yet (foreign keys are not enforced). *)
Definition store_with_orphan : store :=
  fst (update_inventory false (upsert_form "1" EmptyString "4") "t0" init_stock_table).

(** ** Vocabulary of the further properties *)

(** A property of the inventory rows, of the column names, of the product
    rows with their sequence, as a property of the store. *)
Definition on_inventory (Q : list inv_row -> Prop) (st : store) : Prop :=
  Q (inventory st).

Definition on_schema (Q : list string -> Prop) (st : store) : Prop :=
  Q (Sql.table_info st).

(** No inventory row holds a negative quantity. *)
Definition quantities_ok (st : store) : Prop :=
  on_inventory (Forall (fun r => (0 <= i_quantity r)%Z)) st.

(** The product columns have pairwise different names once lowercased,
    and every name is its own lowercase. *)
Definition schema_ok (st : store) : Prop :=
  on_schema (fun names => NoDup (map Py.lower names)
                          /\ Forall (fun n => Py.lower n = n) names) st.

(** A property of the internal ids of the products and of the sequence of
    their table, as a property of the store. *)
Definition on_rowids (Q : list Z -> Z -> Prop) (st : store) : Prop :=
  Q (map p_rowid (products st)) (products_seq st).

(** The internal ids are pairwise different and none lies above the
    sequence of the table. *)
Definition rowids_ok (st : store) : Prop :=
  on_rowids (fun ids seq => NoDup ids /\ Forall (fun z => (z <= seq)%Z) ids) st.


(** The answers that report a request as carried out. *)
Definition succeeded (r : response) : bool :=
  match r with
  | AttributeAdded | AttributeRenamed | OptionsUpdated | VisibilitySet
  | ProductAdded | ProductUpdated | ProductDeleted
  | InventoryUpdated | EntryDeleted => true
  | _ => false
  end.

(** The requests that run an ALTER TABLE. *)
Definition alters_schema (r : request) : bool :=
  match r with
  | AddColumn _ _ | RenameColumn _ _ => true
  | _ => false
  end.

(** A store with the columns [b] and [c] and the definitions [a] and [c]:
    the rename of [A] renamed the column [a], and left its definition. *)
Definition store_with_stale_definition : store :=
  run false bare_word integer_rowid
    [AddColumn 1 [("new_column", "a")];
     RenameColumn 1 (rename_form "A" "b");
     AddColumn 1 [("new_column", "c")]] init_stock_table.


(** Every character of a text satisfies [p]. *)
Fixpoint all_chars (p : ascii -> bool) (s : string) : bool :=
  match s with
  | EmptyString => true
  | String c r => p c && all_chars p r
  end.


(** The sequence of the products is at least [s0]. *)
Definition seq_from (s0 : Z) : store -> Prop :=
  on_rowids (fun _ seq => (s0 <= seq)%Z).

(** The store after the widget has been created and deleted. *)
Definition store_after_delete : store :=
  run false bare_word integer_rowid
    [AddProduct (product_form "Widget" "9.99") "t0"; DeleteProduct 1]
    init_stock_table.

(** ** The columns a user sees: [stok_listesi] and [export_excel] *)

(** [column_visibility_preferences] as both handlers fill it from
    [SELECT column_name, is_visible FROM user_column_visibility WHERE
    user_id = ?]: one entry per row of the user, a later row replacing an
    earlier one of the same name. *)
Definition column_visibility_preferences (user_id : Z) (st : store)
  : list (string * bool) :=
  map (fun r => (v_name r, v_visible r))
      (filter (fun r => (v_user_id r =? user_id)%Z) (visibility st)).

(** [column_visibility_preferences.get(col_name, True)] *)
Definition preference (prefs : list (string * bool)) (col_name : string) : bool :=
  match dict_get prefs col_name with
  | Some b => b
  | None => true
  end.

(** [fixed_columns_meta] of [stok_listesi] *)
Definition fixed_columns_meta : list (string * col_info) :=
  [("id", mkColInfo "number" []);
   ("user_product_id", mkColInfo "number" []);
   ("name", mkColInfo "text" []);
   ("price", mkColInfo "number" [])].

(** [columns_for_form] and [all_display_columns_with_info] of
    [stok_listesi] (the two loops are the same): every product column but
    [id] that has fixed meta data or a definition, with that information. *)
Definition columns_for_form (st : store) : list (string * col_info) :=
  let dynamic_columns_info_dict :=
    dynamic_columns_info stok_listesi_options (stock_columns st) in
  flat_map
    (fun col_name =>
       if String.eqb col_name "id" then []
       else match dict_get fixed_columns_meta col_name with
            | Some i => [(col_name, i)]
            | None =>
                match dict_get dynamic_columns_info_dict col_name with
                | Some i => [(col_name, i)]
                | None => []
                end
            end)
    (Sql.table_info st).

(** The preferences [stok_listesi] hands to the template: the rows of the
    user, then [True] for every listed column without an entry. *)
Definition stok_listesi_preferences (user_id : Z) (st : store)
  : list (string * bool) :=
  fold_left
    (fun prefs col_info =>
       match dict_get prefs (fst col_info) with
       | Some _ => prefs
       | None => (prefs ++ [(fst col_info, true)])%list
       end)
    (columns_for_form st)
    (column_visibility_preferences user_id st).

(** [columns_to_export] of [export_excel]: the fixed columns the table
    has, then every other column the preferences do not hide. *)
Definition columns_to_export (user_id : Z) (st : store) : list string :=
  let column_visibility_preferences := column_visibility_preferences user_id st in
  let all_db_column_names := Sql.table_info st in
  let fixed_columns := ["id"; "user_product_id"; "name"; "price"] in
  fold_left
    (fun columns_to_export col_name =>
       if Py.mem col_name columns_to_export then columns_to_export
       else if preference column_visibility_preferences col_name
            then (columns_to_export ++ [col_name])%list
            else columns_to_export)
    all_db_column_names
    (filter (fun col_name => Py.mem col_name all_db_column_names) fixed_columns).

(** A property of the attribute definitions, as a property of the store. *)
Definition on_defs (Q : list col_def -> Prop) (st : store) : Prop :=
  Q (stock_columns st).

(** An option text the handlers write: none, or the serialization of a
    list of tokens. *)
Definition written_options (o : option string) : Prop :=
  o = None \/ exists tokens, o = Some (Json.dumps tokens).

(** Every definition has a lowercase name and options the handlers wrote. *)
Definition definitions_ok (st : store) : Prop :=
  on_defs (Forall (fun d => Py.lower (sc_name d) = sc_name d
                            /\ written_options (sc_options d))) st.

(** The store with the column [shade] and the definition [color]: the
    rename of [Color] renamed the column only. *)
Definition store_with_stale_color : store :=
  fst (rename_column (fun _ => true) 1 (rename_form "Color" "shade") store_with_color).

(** ** Vocabulary of the name filter *)

(** A pattern character other than the percent sign takes a text
    character: the underscore any, another one itself up to the case of
    the ASCII letters. *)
Definition char_like (c d : ascii) : bool :=
  Ascii.eqb c "_" || Ascii.eqb (Sql.fold_char c) (Sql.fold_char d).

(** The pattern, character by character, takes a prefix of the text. *)
Fixpoint matches_at (p t : string) : bool :=
  match p with
  | EmptyString => true
  | String c p' =>
      match t with
      | EmptyString => false
      | String d t' => char_like c d && matches_at p' t'
      end
  end.

(** The pattern takes the text somewhere: at the text or at one of its
    suffixes. *)
Fixpoint occurs (p t : string) : bool :=
  matches_at p t
  || match t with
     | EmptyString => false
     | String _ t' => occurs p t'
     end.

(** [LIKE] of a pattern at the text or at one of its suffixes. *)
Fixpoint like_any (p t : string) : bool :=
  Sql.like p t
  || match t with
     | EmptyString => false
     | String _ t' => like_any p t'
     end.

(** A text without the two wildcards of [LIKE]. *)
Definition plain (s : string) : bool :=
  all_chars (fun c => negb (Ascii.eqb c "%") && negb (Ascii.eqb c "_")) s.




(** The entry, product, quantity and location an [update_inventory] form
    with [inventory_id] names, as the handler reads them. *)
Definition entry_update (f : form) : option (Z * Z * Z * string) :=
  match form_get f "product_id", form_get f "quantity", form_get f "inventory_id" with
  | Some p, Some q, Some i =>
      if Py.truthy p && Py.truthy q && Py.truthy i && negb (String.eqb i "None")
      then match Py.int p, Py.int q, Py.int i with
           | Some product_id, Some quantity, Some inventory_id =>
               Some (inventory_id, product_id, quantity,
                     Py.strip (form_get_default f "location" EmptyString))
           | _, _, _ => None
           end
      else None
  | _, _, _ => None
  end.
(** * Properties *)

(** ** Text *)

Lemma append_assoc (a b c : string) : (a ++ b) ++ c = a ++ (b ++ c).
Proof. induction a as [|x a IH]; simpl; [reflexivity | now rewrite IH]. Qed.

Lemma append_nil_r (a : string) : a ++ EmptyString = a.
Proof. induction a as [|x a IH]; simpl; [reflexivity | now rewrite IH]. Qed.

Lemma length_append (a b : string) :
  String.length (a ++ b) = String.length a + String.length b.
Proof. induction a as [|x a IH]; simpl; [reflexivity | now rewrite IH]. Qed.

Lemma rstrip_by_last (p : ascii -> bool) (s : string) (c : ascii) :
  p c = false ->
  Py.rstrip_by p (s ++ String c EmptyString) = s ++ String c EmptyString.
Proof.
  intros Hc. induction s as [|x s IH]; simpl.
  - now rewrite Hc.
  - rewrite IH. destruct s; reflexivity.
Qed.

(** A text that neither starts nor ends with a blank is its own [strip]. *)
Lemma strip_by_framed (p : ascii -> bool) (a c : ascii) (s : string) :
  p a = false -> p c = false ->
  Py.strip_by p (String a (s ++ String c EmptyString))
  = String a (s ++ String c EmptyString).
Proof.
  intros Ha Hc. unfold Py.strip_by. simpl Py.lstrip_by. rewrite Ha.
  change (String a (s ++ String c EmptyString))
    with (String a s ++ String c EmptyString).
  now apply rstrip_by_last.
Qed.

(** ** The round trip of [json.dumps] and [json.loads] on lists of text *)

(** Reading back one escaped character. *)
Lemma scanstring_escape_char (c : ascii) (tail : string) :
  Json.scanstring (Json.escape_char c ++ tail)
  = Json.cons_code (Py.code c) (Json.scanstring tail).
Proof.
  destruct c as [[] [] [] [] [] [] [] []]; reflexivity.
Qed.

Lemma scanstring_escape (s rest : string) :
  Json.scanstring (Json.escape s ++ String Py.dquote rest)
  = Some (Json.codes s, rest).
Proof.
  induction s as [|c s IH]; simpl.
  - reflexivity.
  - rewrite append_assoc, scanstring_escape_char, IH. reflexivity.
Qed.

Lemma scan_once_encoded (n : nat) (s rest : string) :
  Json.scan_once (S n) (Json.encode_string s ++ rest)
  = Json.Ok (Json.of_string s) rest.
Proof.
  unfold Json.encode_string. simpl.
  rewrite append_assoc. simpl. rewrite scanstring_escape. reflexivity.
Qed.

Lemma join_encoded_cons (x y : string) (r : list string) :
  Py.join ", " (map Json.encode_string (x :: y :: r))
  = Json.encode_string x ++ ", " ++ Py.join ", " (map Json.encode_string (y :: r)).
Proof. reflexivity. Qed.

Lemma join_encoded_head (y : string) (r : list string) :
  exists t, Py.join ", " (map Json.encode_string (y :: r)) = String Py.dquote t.
Proof.
  destruct r as [|z r]; [| rewrite join_encoded_cons]; eexists; reflexivity.
Qed.

Lemma array_loop_last (n : nat) (s rest : string) (v : Json.value) :
  Json.scan_once n s = Json.Ok v (String "]" rest) ->
  Json.array_loop (S n) s = Json.Ok [v] rest.
Proof. intros H. simpl. rewrite H. reflexivity. Qed.

Lemma array_loop_more (n : nat) (s rest : string) (v : Json.value) :
  Json.scan_once n s = Json.Ok v (String "," rest) ->
  Json.array_loop (S n) s
  = match Json.array_loop n (Json.skip_ws rest) with
    | Json.Ok vs rest' => Json.Ok (v :: vs) rest'
    | Json.Err => Json.Err
    | Json.Fuel => Json.Fuel
    end.
Proof. intros H. simpl. rewrite H. reflexivity. Qed.

(** The loop of [JSONArray] over the items [dumps] wrote. *)
Lemma array_loop_dumped (l : list string) :
  l <> [] ->
  forall (n : nat) (rest : string),
    List.length l < n ->
    Json.array_loop n (Py.join ", " (map Json.encode_string l) ++ String "]" rest)
    = Json.Ok (map Json.of_string l) rest.
Proof.
  induction l as [|x l IH]; [congruence|].
  intros _ n rest Hn.
  destruct n as [|[|n]]; [simpl in Hn; lia | simpl in Hn; lia |].
  destruct l as [|y r].
  - change (Py.join ", " (map Json.encode_string [x])) with (Json.encode_string x).
    apply array_loop_last. apply scan_once_encoded.
  - rewrite join_encoded_cons, !append_assoc.
    set (J := Py.join ", " (map Json.encode_string (y :: r))).
    rewrite (array_loop_more (S n)
               (Json.encode_string x ++ ", " ++ J ++ String "]" rest)
               (" " ++ J ++ String "]" rest) (Json.of_string x)
               (scan_once_encoded n x _)).
    subst J.
    destruct (join_encoded_head y r) as [t Ht].
    assert (Hskip : Json.skip_ws
                      (" " ++ Py.join ", " (map Json.encode_string (y :: r))
                       ++ String "]" rest)
                    = Py.join ", " (map Json.encode_string (y :: r))
                      ++ String "]" rest).
    { rewrite Ht. reflexivity. }
    rewrite Hskip, IH; [reflexivity | congruence | simpl in Hn |- *; lia].
Qed.

Lemma length_join_encoded (l : list string) :
  List.length l <= String.length (Py.join ", " (map Json.encode_string l)).
Proof.
  induction l as [|x [|y r] IH].
  - simpl. lia.
  - simpl. lia.
  - rewrite join_encoded_cons, !length_append.
    simpl List.length in *. unfold Json.encode_string at 1. simpl String.length at 1. lia.
Qed.

(** [json.loads(json.dumps(l)) == l] for a list of text. *)
Lemma loads_dumps (l : list string) :
  Json.loads (Json.dumps l) = Some (Json.JArr (map Json.of_string l)).
Proof.
  unfold Json.loads, Json.decode, Json.dumps.
  destruct l as [|x r]; [reflexivity|].
  set (body := Py.join ", " (map Json.encode_string (x :: r))).
  assert (Hfuel : List.length (x :: r)
                  < Json.fuel_for ("[" ++ body ++ "]") - 1).
  { unfold Json.fuel_for. pose proof (length_join_encoded (x :: r)) as H.
    fold body in H. rewrite length_append. simpl String.length at 1.
    rewrite length_append. lia. }
  destruct (Json.fuel_for ("[" ++ body ++ "]")) as [|n]; [simpl in Hfuel; lia|].
  replace (S n - 1) with n in Hfuel by lia.
  destruct (join_encoded_head x r) as [t Ht]. fold body in Ht.
  assert (Harr : Json.array_loop n (body ++ "]")
                 = Json.Ok (map Json.of_string (x :: r)) EmptyString).
  { apply array_loop_dumped; [congruence | exact Hfuel]. }
  change (Json.skip_ws ("[" ++ body ++ "]")) with (String "[" (body ++ "]")).
  cbn [Json.scan_once]. 
  change (Ascii.eqb "[" Py.dquote) with false.
  change (Ascii.eqb "[" "{") with false.
  change (Ascii.eqb "[" "[") with true.
  cbv iota.
  assert (Hsk : Json.skip_ws (body ++ "]") = String Py.dquote (t ++ "]")).
  { rewrite Ht. reflexivity. }
  rewrite Hsk.
  change (Ascii.eqb Py.dquote "]") with false. cbv iota.
  replace (String Py.dquote (t ++ "]")) with (body ++ "]") by (rewrite Ht; reflexivity).
  rewrite Harr. reflexivity.
Qed.
Lemma dumps_framed (l : list string) :
  exists body, Json.dumps l = String "[" (body ++ String "]" EmptyString).
Proof. unfold Json.dumps. eexists. reflexivity. Qed.

Lemma strip_dumps (l : list string) : Py.strip (Json.dumps l) = Json.dumps l.
Proof.
  destruct (dumps_framed l) as [body ->].
  apply strip_by_framed; reflexivity.
Qed.

Lemma truthy_dumps (l : list string) : Py.truthy (Json.dumps l) = true.
Proof. destruct (dumps_framed l) as [body ->]. reflexivity. Qed.

(** The three decodings read back what [json.dumps] wrote. *)
Lemma stok_listesi_options_dumps (l : list string) :
  stok_listesi_options (Some (Json.dumps l)) = map Json.of_string l.
Proof.
  unfold stok_listesi_options.
  now rewrite truthy_dumps, strip_dumps, loads_dumps.
Qed.

Lemma add_product_options_dumps (l : list string) :
  add_product_options (Some (Json.dumps l)) = map Json.of_string l.
Proof.
  unfold add_product_options. now rewrite truthy_dumps, loads_dumps.
Qed.

Lemma export_excel_options_dumps (l : list string) :
  export_excel_options (Some (Json.dumps l)) = map Json.of_string l.
Proof.
  unfold export_excel_options.
  now rewrite truthy_dumps, strip_dumps, loads_dumps.
Qed.

Ltac destruct_match_in H :=
  match type of H with
  | context [match ?x with _ => _ end] => destruct x eqn:?
  | context [if ?x then _ else _] => destruct x eqn:?
  end.

(** ** The connection *)

Lemma ddl_connect_done (stmt : store -> exec store) (st : store) (db : conn) :
  ddl stmt (connect st) = Done db ->
  exists w, stmt st = Done w /\ db = mkConn w w false.
Proof.
  unfold ddl, connect. cbn [working in_transaction committed].
  destruct (stmt st) as [w| | |]; intros H; inversion H. eauto.
Qed.

Lemma dml__done (stmt : store -> exec store) (db db' : conn) :
  dml_ stmt db = Done db' ->
  exists w, stmt (working db) = Done w /\ db' = mkConn (committed db) w true.
Proof.
  unfold dml_. destruct (stmt (working db)) as [w| | |]; intros H; inversion H. eauto.
Qed.

Lemma dml_done {A : Type} (stmt : store -> exec (store * A)) (db db' : conn) (a : A) :
  dml stmt db = Done (db', a) ->
  exists w, stmt (working db) = Done (w, a) /\ db' = mkConn (committed db) w true.
Proof.
  unfold dml. destruct (stmt (working db)) as [[w a']| | |]; intros H; inversion H.
  subst. eauto.
Qed.

Section Properties.
Variable foreign_keys : bool.
Variable column_token : string -> bool.
Variable rowid_of_value : sqlval -> option Z.

(** What a successful [add_column] did. *)
Lemma add_column_added (user_id : Z) (f : form) (st st' : store) :
  add_column column_token user_id f st = (st', AttributeAdded) ->
  exists raw st1 options_json,
    form_get f "new_column" = Some raw /\
    let new_col := sanitize (Py.strip raw) in
    let column_type := form_get_default f "column_type" "text" in
    let l := options_list (Py.strip (form_get_default f "options_hidden_input" EmptyString)) in
    options_json = (if String.eqb column_type "select" then Some (Json.dumps l) else None) /\
    (String.eqb column_type "select" = true -> l <> []) /\
    alter_add_column column_token new_col st = Done st1 /\
    insert_or_replace_visibility user_id new_col true
      (insert_or_ignore_stock_column new_col column_type options_json st1)
    = Done st'.
Proof.
  unfold add_column. intros H.
  destruct (form_get f "new_column") as [raw|] eqn:Hraw; [|discriminate].
  exists raw.
  repeat (destruct_match_in H; try discriminate).
  apply ddl_connect_done in Heqe. destruct Heqe as (st1 & Hst1 & ->).
  apply dml__done in Heqe0. destruct Heqe0 as (st3 & Hst3 & ->).
  inversion H; subst st'; clear H.
  exists st1, o. split; [reflexivity|]. cbv zeta.
  assert (Ho : o = (if (form_get_default f "column_type" "text" =? "select")%string
                    then Some (Json.dumps (options_list (Py.strip
                           (form_get_default f "options_hidden_input" EmptyString))))
                    else None)
               /\ ((form_get_default f "column_type" "text" =? "select")%string = true ->
                   options_list (Py.strip (form_get_default f "options_hidden_input" EmptyString)) <> [])).
  { destruct (form_get_default f "column_type" "text" =? "select")%string.
    - destruct (options_list _); [discriminate|]. inversion Heqo. split; [reflexivity | discriminate].
    - inversion Heqo. split; [reflexivity | discriminate]. }
  destruct Ho as [Ho1 Ho2]. repeat split; assumption.
Qed.



Lemma existsb_false_iff {A : Type} (p : A -> bool) (l : list A) :
  existsb p l = false <-> forall x, In x l -> p x = false.
Proof.
  induction l as [|a l IH]; simpl.
  - split; [intros _ x [] | reflexivity].
  - rewrite orb_false_iff, IH. split.
    + intros [Ha Hl] x [<-|Hx]; auto.
    + intros H. split; [apply H; now left | intros x Hx; apply H; now right].
Qed.


(** ** [add_product] *)

(** The loop over the columns fails only on a number or an option. *)
Lemma dynamic_values_error (info : list (string * col_info)) (f : form)
    (cols : list string) (e : response) :
  dynamic_values info f cols = inl e ->
  exists col, e = InvalidNumericValue col \/ e = InvalidOption col.
Proof.
  induction cols as [|c cols IH]; [discriminate|].
  cbn [dynamic_values]. intros H.
  repeat (destruct_match_in H; try discriminate);
    try (apply IH; assumption);
    inversion H; subst.
  repeat (destruct_match_in Heqs; try discriminate); inversion Heqs; eauto.
Qed.

(** What a successful [add_product] did. *)
Lemma add_product_added (f : form) (now : string) (st st' : store) :
  add_product foreign_keys rowid_of_value f now st = (st', ProductAdded) ->
  exists cells max_user_id price dyn st1 product_id,
    select_column "user_product_id" st = Some cells
    /\ max_user_id_of (Sql.max_val cells) = Some max_user_id
    /\ Py.truthy (Py.strip (form_get_default f "name" EmptyString)) = true
    /\ Py.float_of_string (Py.strip (form_get_default f "price" EmptyString))
       = Some price
    /\ dynamic_values
         (dynamic_columns_info add_product_options (stock_columns st)) f
         (Sql.table_info st) = inr dyn
    /\ insert_product rowid_of_value
         (("user_product_id", VInt (max_user_id + 1))
          :: ("name", VText (Py.strip (form_get_default f "name" EmptyString)))
          :: ("price", Sql.bind_float price) :: dyn) st = Done (st1, product_id)
    /\ insert_inventory foreign_keys product_id 0 EmptyString now st1 = Done st'.
Proof.
  unfold add_product. cbn [connect working]. intros H.
  repeat (destruct_match_in H; try discriminate).
  - inversion H; subst. apply dynamic_values_error in Heqs.
    destruct Heqs as [col [?|?]]; discriminate.
  - apply dml_done in Heqe. destruct Heqe as (w & Hw & ->).
    apply dml__done in Heqe0. destruct Heqe0 as (w2 & Hw2 & ->).
    cbn [connect working committed] in *.
    inversion H; subst st'; clear H.
    apply negb_false_iff in Heqb.
    exists l, z, f0, l0, w, z0. repeat split; assumption.
Qed.

(** A request that does not answer [ProductAdded] leaves the store as it
    was. *)
Lemma add_product_failed (f : form) (now : string) (st st' : store) (r : response) :
  add_product foreign_keys rowid_of_value f now st = (st', r) ->
  r <> ProductAdded -> st' = st.
Proof.
  unfold add_product. cbn [connect working]. intros H Hr.
  repeat (destruct_match_in H; try discriminate);
    try (inversion H; subst; reflexivity).
  - apply dml_done in Heqe. destruct Heqe as (w & Hw & ->).
    inversion H; subst. congruence.
  - apply dml_done in Heqe. destruct Heqe as (w & Hw & ->).
    inversion H; subst. reflexivity.
  - apply dml_done in Heqe. destruct Heqe as (w & Hw & ->).
    inversion H; subst. reflexivity.
  - apply dml_done in Heqe. destruct Heqe as (w & Hw & ->).
    inversion H; subst. reflexivity.
Qed.

Lemma insert_product_done (a : list (string * sqlval)) (st st1 : store) (id : Z) :
  insert_product rowid_of_value a st = Done (st1, id) ->
  pk_name st1 = pk_name st
  /\ columns st1 = columns st
  /\ products st1
     = (products st
        ++ [mkProduct id
              (map (fun c => match Sql.assigned (c_name c) a with
                             | Some v => v
                             | None => c_default c
                             end) (columns st))])%list
  /\ inventory st1 = inventory st
  /\ inventory_seq st1 = inventory_seq st
  /\ stock_columns st1 = stock_columns st
  /\ visibility st1 = visibility st.
Proof.
  unfold insert_product. intros H.
  repeat (destruct_match_in H; try discriminate);
    inversion H; subst; cbn; repeat split; reflexivity.
Qed.

Lemma insert_inventory_done
    (product_id quantity : Z) (location now : string) (st st' : store) :
  insert_inventory foreign_keys product_id quantity location now st = Done st' ->
  existsb (same_slot product_id location) (inventory st) = false
  /\ exists id,
       st' = with_inventory
               (inventory st ++ [mkInv id product_id quantity location now])%list
               id st.
Proof.
  unfold insert_inventory. intros H.
  repeat (destruct_match_in H; try discriminate).
  apply orb_false_iff in Heqb0. destruct Heqb0 as [Hslot _].
  inversion H. split; [assumption | eexists; reflexivity].
Qed.

Lemma filter_none {A : Type} (p : A -> bool) (l : list A) :
  existsb p l = false -> filter p l = [].
Proof.
  induction l as [|a l IH]; simpl; [reflexivity|].
  intros H. apply orb_false_iff in H. destruct H as [Ha Hl].
  rewrite Ha. now apply IH.
Qed.

(** C5. [add_product] is atomic over its two writes. A request that answers
    [ProductAdded] has committed the new product row together with one
    inventory row for it, at the empty location with quantity 0, which is
    the only row of the product at that location; a request with any other
    answer, a failure of the second write included, leaves the committed
    store exactly as it was: no product row and no inventory row stays. *)
Theorem create_product_is_atomic :
  forall (f : form) (now : string) (st st' : store) (r : response),
    add_product foreign_keys rowid_of_value f now st = (st', r) ->
    (r = ProductAdded ->
     exists row entry,
       products st' = (products st ++ [row])%list
       /\ inventory st' = (inventory st ++ [entry])%list
       /\ i_product_id entry = p_rowid row
       /\ i_location entry = EmptyString
       /\ i_quantity entry = 0%Z
       /\ entries_at (p_rowid row) EmptyString st' = [entry])
    /\ (r <> ProductAdded -> st' = st).
Proof.
  intros f now st st' r H. split.
  - intros ->. apply add_product_added in H.
    destruct H as (cells & m & price & dyn & st1 & pid & _ & _ & _ & _ & _ & Hp & Hi).
    apply insert_product_done in Hp.
    destruct Hp as (_ & _ & Hprod & Hinv & _).
    apply insert_inventory_done in Hi. destruct Hi as (Hfree & id & ->).
    eexists. exists (mkInv id pid 0 EmptyString now).
    unfold entries_at. cbn [with_inventory products inventory].
    rewrite Hprod, Hinv. cbn [p_rowid i_product_id i_location i_quantity].
    repeat split; try reflexivity.
    rewrite filter_app. rewrite Hinv in Hfree. cbn [p_rowid].
    rewrite (filter_none _ _ Hfree).
    cbn. unfold same_slot. cbn. now rewrite Z.eqb_refl.
  - intros Hr. eapply add_product_failed; eassumption.
Qed.

(** ** Display identifiers *)

Lemma max_val_ints_from (ids : list Z) (a : Z) :
  fold_left (fun acc v => match Sql.val_cmp acc v with Lt => v | _ => acc end)
            (map VInt ids) (VInt a)
  = VInt (fold_left Z.max ids a).
Proof.
  revert a. induction ids as [|b ids IH]; intros a; [reflexivity|].
  cbn [map fold_left Sql.val_cmp].
  destruct (Z.compare_spec a b) as [->|Hlt|Hgt].
  - rewrite Z.max_id. apply IH.
  - rewrite Z.max_r by lia. apply IH.
  - rewrite Z.max_l by lia. apply IH.
Qed.

Lemma max_val_ints (ids : list Z) :
  Sql.max_val (map VInt ids)
  = match ids with
    | [] => VNull
    | i :: r => VInt (fold_left Z.max r i)
    end.
Proof.
  destruct ids as [|i r]; [reflexivity|].
  unfold Sql.max_val. cbn [map fold_left Sql.val_cmp]. apply max_val_ints_from.
Qed.

Lemma next_display_id_spec (ids : list Z) (m : Z) :
  max_user_id_of (Sql.max_val (map VInt ids)) = Some m ->
  (m + 1)%Z = next_display_id ids.
Proof.
  rewrite max_val_ints. destruct ids as [|i r]; cbn; intros H; inversion H; reflexivity.
Qed.

Lemma fold_max_ge (r : list Z) (a : Z) :
  (a <= fold_left Z.max r a)%Z /\ Forall (fun i => (i <= fold_left Z.max r a)%Z) r.
Proof.
  revert a. induction r as [|b r IH]; intros a; cbn [fold_left].
  - split; [lia | constructor].
  - destruct (IH (Z.max a b)) as [H1 H2]. split; [lia|].
    constructor; [lia | assumption].
Qed.

Lemma next_display_id_exceeds (ids : list Z) : exceeds_all (next_display_id ids) ids.
Proof.
  unfold exceeds_all. destruct ids as [|i r]; [constructor|].
  cbn [next_display_id]. destruct (fold_max_ge r i) as [H1 H2].
  constructor; [lia|]. eapply Forall_impl; [|exact H2]. cbn. intros; lia.
Qed.

Lemma column_index_nth (name : string) (cols : list column) (i : nat) :
  Sql.column_index name cols = Some i ->
  exists c, nth_error cols i = Some c /\ Sql.name_eqb name (c_name c) = true.
Proof.
  revert i. induction cols as [|c cols IH]; intros i; cbn [Sql.column_index];
    [discriminate|].
  destruct (Sql.name_eqb name (c_name c)) eqn:E.
  - intros H. inversion H. exists c. split; [reflexivity | assumption].
  - destruct (Sql.column_index name cols) as [j|]; [|discriminate].
    intros H. inversion H. cbn [nth_error]. now apply IH.
Qed.

Lemma nth_map_of_nth_error {A B : Type} (g : A -> B) (l : list A) (i : nat)
    (a : A) (d : B) :
  nth_error l i = Some a -> nth i (map g l) d = g a.
Proof.
  revert i. induction l as [|x l IH]; intros [|i]; cbn; try discriminate.
  - intros H. now inversion H.
  - apply IH.
Qed.

(** The display identifier a successful [add_product] writes. *)
Lemma add_product_display_id (f : form) (now : string) (st st' : store) (ids : list Z) :
  add_product foreign_keys rowid_of_value f now st = (st', ProductAdded) ->
  Sql.name_eqb "user_product_id" (pk_name st) = false ->
  display_ids st = Some (map VInt ids) ->
  exists row,
    products st' = (products st ++ [row])%list
    /\ cell_of "user_product_id" st' row = Some (VInt (next_display_id ids)).
Proof.
  intros H Hpk Hids. apply add_product_added in H.
  destruct H as (cells & m & price & dyn & st1 & pid & Hsel & Hmax & _ & _ & _ & Hp & Hi).
  unfold display_ids in Hids. rewrite Hsel in Hids. inversion Hids; subst cells.
  apply next_display_id_spec in Hmax.
  apply insert_product_done in Hp.
  destruct Hp as (Hpk1 & Hcols1 & Hprod & _).
  apply insert_inventory_done in Hi. destruct Hi as (_ & id & ->).
  eexists. cbn [with_inventory products]. split; [exact Hprod|].
  unfold cell_of. cbn [with_inventory pk_name columns p_rowid p_cells].
  rewrite Hpk1, Hpk, Hcols1.
  unfold select_column in Hsel. rewrite Hpk in Hsel.
  destruct (Sql.column_index "user_product_id" (columns st)) as [i|] eqn:Hi;
    [|discriminate].
  destruct (column_index_nth _ _ _ Hi) as (c & Hc & Hname).
  cbn [option_map]. rewrite (nth_map_of_nth_error _ _ _ _ _ Hc).
  cbn [Sql.assigned]. rewrite Hname, Hmax. reflexivity.
Qed.

(** C1 (amended). A successful [add_product] gives the new product the
    display identifier [max + 1] over the display identifiers the store
    holds at that moment (1 on a store without products), which lies
    strictly above every display identifier still in the store. Three
    creations on a new store give 1, 2, 3, and after deleting product 2 the
    next creation gives 4. An identifier above the ones ever assigned is
    not promised: the maximum is taken over the products that remain. *)
Theorem display_id_is_current_max_plus_one :
  (forall (f : form) (now : string) (st st' : store) (ids : list Z),
      add_product foreign_keys rowid_of_value f now st = (st', ProductAdded) ->
      Sql.name_eqb "user_product_id" (pk_name st) = false ->
      display_ids st = Some (map VInt ids) ->
      exists row,
        products st' = (products st ++ [row])%list
        /\ cell_of "user_product_id" st' row = Some (VInt (next_display_id ids))
        /\ exceeds_all (next_display_id ids) ids)
  /\ next_display_id [] = 1%Z
  /\ (let step := run foreign_keys column_token rowid_of_value in
      let st3 := step [AddProduct (product_form "a" "1") "t1";
                       AddProduct (product_form "b" "2") "t2";
                       AddProduct (product_form "c" "3") "t3"] init_stock_table in
      display_ids st3 = Some [VInt 1; VInt 2; VInt 3]
      /\ display_ids (step [DeleteProduct 2; AddProduct (product_form "d" "4") "t4"] st3)
         = Some [VInt 1; VInt 3; VInt 4]).
Proof.
  split; [|split; [reflexivity|]].
  - intros f now st st' ids H Hpk Hids.
    destruct (add_product_display_id f now st st' ids H Hpk Hids) as (row & H1 & H2).
    exists row. repeat split; try assumption. apply next_display_id_exceeds.
  - destruct foreign_keys; vm_compute; split; reflexivity.
Qed.

(** ** Price validation *)


(** ** Attribute names *)

Lemma mem_In (x : string) (l : list string) : Py.mem x l = true <-> In x l.
Proof.
  unfold Py.mem. rewrite existsb_exists. split.
  - intros (y & Hy & E). apply String.eqb_eq in E. now subst.
  - intros H. exists x. split; [assumption | apply String.eqb_refl].
Qed.

Lemma mem_not_In (x : string) (l : list string) : Py.mem x l = false <-> ~ In x l.
Proof.
  rewrite <- mem_In. destruct (Py.mem x l); split; congruence.
Qed.

Lemma truthy_false (s : string) : Py.truthy s = false <-> s = EmptyString.
Proof. destruct s; cbn; split; congruence. Qed.

Lemma truthy_true (s : string) : Py.truthy s = true <-> s <> EmptyString.
Proof. destruct s; cbn; split; congruence. Qed.

(** C4 (amended). [add_column] trims [name_raw] and sanitizes it (only
    alphanumerics and spaces are kept, spaces become underscores, the
    result is lowercased). When the sanitized name is empty or one of the
    four reserved names the answer is [InvalidAttributeName]; two spaces
    are such a name. Otherwise, for type select with an empty option list
    the answer is [EmptyOptionSet], whether or not the name is taken: this
    check comes before the duplicate check. Otherwise, when the sanitized
    name equals the lowercased name of a product column the answer is
    [DuplicateAttribute]. In all these cases the store, product schema and
    attribute definitions included, is unchanged. *)
Theorem define_name_checks :
  (forall (user_id : Z) (f : form) (st : store) (raw : string),
      form_get f "new_column" = Some raw ->
      let name := sanitize (Py.strip raw) in
      let column_type := form_get_default f "column_type" "text" in
      let tokens :=
        options_list
          (Py.strip (form_get_default f "options_hidden_input" EmptyString)) in
      (name = EmptyString \/ In name reserved_names ->
       exists why,
         add_column column_token user_id f st = (st, InvalidAttributeName why))
      /\ (name <> EmptyString -> ~ In name reserved_names ->
          column_type = "select" -> tokens = [] ->
          add_column column_token user_id f st = (st, EmptyOptionSet))
      /\ (name <> EmptyString -> ~ In name reserved_names ->
          (column_type = "select" -> tokens <> []) ->
          In name (map Py.lower (Sql.table_info st)) ->
          add_column column_token user_id f st = (st, DuplicateAttribute)))
  /\ (forall (user_id : Z) (st : store),
         add_column column_token user_id
           [("new_column", "  "); ("column_type", "text")] st
         = (st, InvalidAttributeName BlankName)).
Proof.
  split; [|reflexivity].
  intros user_id f st raw Hraw name column_type tokens.
  unfold add_column. rewrite Hraw. cbn [connect close working committed].
  fold name. fold column_type. fold tokens.
  destruct (Py.truthy (Py.strip raw)) eqn:Hstrip; cbn [negb].
  2:{ apply truthy_false in Hstrip.
      assert (Hname : name = EmptyString) by (unfold name; now rewrite Hstrip).
      repeat split; intros; try congruence. eauto. }
  repeat split.
  - intros Hbad.
    assert (Hb : negb (Py.truthy name) || Py.mem name reserved_names = true).
    { apply orb_true_iff. destruct Hbad as [->|Hin]; [now left|].
      right. now apply mem_In. }
    rewrite Hb. eauto.
  - intros Hne Hres Hsel Htok.
    apply truthy_true in Hne. apply mem_not_In in Hres.
    rewrite Hne, Hres, Hsel, Htok. reflexivity.
  - intros Hne Hres Htok Hdup.
    apply truthy_true in Hne. apply mem_not_In in Hres. apply mem_In in Hdup.
    rewrite Hne, Hres. cbn [negb orb].
    destruct (String.eqb column_type "select") eqn:Hsel.
    + apply String.eqb_eq in Hsel. specialize (Htok Hsel).
      destruct tokens as [|t ts]; [congruence|]. now rewrite Hdup.
    + now rewrite Hdup.
Qed.

(** ** [rename_column] *)

(** What a successful [rename_column] did. *)
Lemma rename_column_renamed (user_id : Z) (f : form) (st st' : store) :
  rename_column column_token user_id f st = (st', AttributeRenamed) ->
  exists old st1 st2,
    form_get f "old_column_name" = Some old
    /\ let new := sanitize (Py.strip (form_get_default f "new_column_name" EmptyString)) in
       new <> EmptyString
       /\ ~ In new reserved_names
       /\ alter_rename_column column_token old new st = Done st1
       /\ update_stock_column_name new old st1 = Done st2
       /\ update_visibility_name new old user_id st2 = Done st'.
Proof.
  unfold rename_column. intros H.
  destruct (form_get f "old_column_name") as [old|] eqn:Hold; [|discriminate].
  repeat (destruct_match_in H; try discriminate).
  apply ddl_connect_done in Heqe. destruct Heqe as (st1 & Hst1 & ->).
  apply dml__done in Heqe0. destruct Heqe0 as (st2 & Hst2 & ->).
  apply dml__done in Heqe1. destruct Heqe1 as (st3 & Hst3 & ->).
  cbn [working committed commit close] in *.
  inversion H; subst st'; clear H.
  apply orb_false_iff in Heqb0. destruct Heqb0 as [Hne Hres].
  apply negb_false_iff, truthy_true in Hne. apply mem_not_In in Hres.
  exists old, st1, st2. cbv zeta. repeat split; assumption.
Qed.

Lemma alter_rename_column_done (old new : string) (st st1 : store) :
  alter_rename_column column_token old new st = Done st1 ->
  column_token old = true /\ column_token new = true
  /\ Sql.has_column st old = true /\ Sql.has_column st new = false
  /\ st1 = {| pk_name := if Sql.name_eqb old (pk_name st) then new else pk_name st;
              columns := rename_in old new (columns st);
              products := products st; products_seq := products_seq st;
              inventory := inventory st; inventory_seq := inventory_seq st;
              stock_columns := stock_columns st;
              stock_columns_seq := stock_columns_seq st;
              visibility := visibility st; visibility_seq := visibility_seq st |}.
Proof.
  unfold alter_rename_column. intros H.
  destruct (_ || _) eqn:E; [discriminate|].
  repeat (apply orb_false_iff in E; destruct E as [E ?]).
  repeat match goal with
         | H : negb _ = false |- _ => apply negb_false_iff in H
         end.
  inversion H. repeat split; assumption.
Qed.


Lemma update_stock_column_name_done (new old : string) (st st1 : store) :
  update_stock_column_name new old st = Done st1 ->
  stock_columns st1 = map (rename_def old new) (stock_columns st)
  /\ pk_name st1 = pk_name st /\ columns st1 = columns st
  /\ products st1 = products st /\ inventory st1 = inventory st
  /\ visibility st1 = visibility st.
Proof.
  unfold update_stock_column_name. intros H.
  destruct (_ && _); [discriminate|]. inversion H. cbn. repeat split; reflexivity.
Qed.

Lemma update_visibility_name_done (new old : string) (user_id : Z) (st st1 : store) :
  update_visibility_name new old user_id st = Done st1 ->
  visibility st1 = map (rename_vis old new user_id) (visibility st)
  /\ pk_name st1 = pk_name st /\ columns st1 = columns st
  /\ products st1 = products st /\ inventory st1 = inventory st
  /\ stock_columns st1 = stock_columns st.
Proof.
  unfold update_visibility_name. intros H.
  destruct (_ && _); [discriminate|]. inversion H. cbn. repeat split; reflexivity.
Qed.

Lemma table_info_renamed (old new : string) (st : store) :
  (if Sql.name_eqb old (pk_name st) then new else pk_name st)
  :: map c_name (rename_in old new (columns st))
  = map (rename_name old new) (Sql.table_info st).
Proof.
  unfold Sql.table_info, rename_in, rename_name. cbn [map]. f_equal.
  rewrite !map_map. apply map_ext. intros c.
  destruct (Sql.name_eqb old (c_name c)); reflexivity.
Qed.

(** C3 (amended). A successful rename of [old_name] to the sanitized new
    name renames the product column whose name matches [old_name], renames
    the definition whose [column_name] equals [old_name], and renames the
    visibility preferences whose [column_name] equals [old_name] and whose
    [user_id] is the requesting user's. A preference of another user keeps
    the old name. Products and inventory are untouched. *)
Theorem rename_cascade_is_scoped_to_the_user :
  forall (user_id : Z) (f : form) (st st' : store) (old : string),
    rename_column column_token user_id f st = (st', AttributeRenamed) ->
    form_get f "old_column_name" = Some old ->
    let new := sanitize (Py.strip (form_get_default f "new_column_name" EmptyString)) in
    Sql.table_info st' = map (rename_name old new) (Sql.table_info st)
    /\ stock_columns st' = map (rename_def old new) (stock_columns st)
    /\ visibility st' = map (rename_vis old new user_id) (visibility st)
    /\ (forall v, In v (visibility st) -> v_user_id v <> user_id ->
                  In v (visibility st'))
    /\ products st' = products st
    /\ inventory st' = inventory st.
Proof.
  intros user_id f st st' old H Hold new.
  apply rename_column_renamed in H.
  destruct H as (old' & st1 & st2 & Hold' & Hrest).
  rewrite Hold in Hold'. inversion Hold'; subst old'; clear Hold'.
  cbv zeta in Hrest. fold new in Hrest.
  destruct Hrest as (_ & _ & Halter & Hdef & Hvis).
  apply alter_rename_column_done in Halter.
  destruct Halter as (_ & _ & _ & _ & ->).
  apply update_stock_column_name_done in Hdef.
  destruct Hdef as (Hd1 & Hd2 & Hd3 & Hd4 & Hd5 & Hd6).
  apply update_visibility_name_done in Hvis.
  destruct Hvis as (Hv1 & Hv2 & Hv3 & Hv4 & Hv5 & Hv6).
  cbn [pk_name columns products inventory stock_columns visibility] in *.
  assert (Hvis' : visibility st' = map (rename_vis old new user_id) (visibility st))
    by (now rewrite Hv1, Hd6).
  repeat split.
  - unfold Sql.table_info at 1. rewrite Hv2, Hv3, Hd2, Hd3. apply table_info_renamed.
  - now rewrite Hv6, Hd1.
  - exact Hvis'.
  - intros v Hin Hother. rewrite Hvis'. apply in_map_iff. exists v. split; [|assumption].
    unfold rename_vis. apply Z.eqb_neq in Hother. rewrite Hother.
    now rewrite andb_false_r.
  - now rewrite Hv4, Hd4.
  - now rewrite Hv5, Hd5.
Qed.

(** ** Names as Python and as SQLite compare them *)

Lemma lower_char_fold (c : ascii) : Py.lower_char (Sql.fold_char c) = Py.lower_char c.
Proof. destruct c as [[] [] [] [] [] [] [] []]; reflexivity. Qed.

Lemma lower_char_idem (c : ascii) : Py.lower_char (Py.lower_char c) = Py.lower_char c.
Proof. destruct c as [[] [] [] [] [] [] [] []]; reflexivity. Qed.

Lemma lower_fold (s : string) : Py.lower (Py.smap Sql.fold_char s) = Py.lower s.
Proof.
  unfold Py.lower. induction s as [|c s IH]; cbn; [reflexivity|].
  now rewrite lower_char_fold, IH.
Qed.

Lemma lower_idem (s : string) : Py.lower (Py.lower s) = Py.lower s.
Proof.
  unfold Py.lower. induction s as [|c s IH]; cbn; [reflexivity|].
  now rewrite lower_char_idem, IH.
Qed.

Lemma lower_sanitize (s : string) : Py.lower (sanitize s) = sanitize s.
Proof. unfold sanitize. apply lower_idem. Qed.

(** Names SQLite takes for equal are equal once Python lowercases them. *)
Lemma name_eqb_lower (a b : string) :
  Sql.name_eqb a b = true -> Py.lower a = Py.lower b.
Proof.
  unfold Sql.name_eqb. intros H. apply String.eqb_eq in H.
  rewrite <- (lower_fold a), <- (lower_fold b). now rewrite H.
Qed.

Lemma name_eqb_refl (a : string) : Sql.name_eqb a a = true.
Proof. unfold Sql.name_eqb. apply String.eqb_refl. Qed.

Lemma name_eqb_sym (a b : string) : Sql.name_eqb a b = Sql.name_eqb b a.
Proof. unfold Sql.name_eqb. apply String.eqb_sym. Qed.

Lemma name_eqb_trans (a b c : string) :
  Sql.name_eqb a b = true -> Sql.name_eqb b c = true -> Sql.name_eqb a c = true.
Proof.
  unfold Sql.name_eqb. rewrite !String.eqb_eq. congruence.
Qed.

Lemma has_column_In (st : store) (name : string) :
  In name (Sql.table_info st) -> Sql.has_column st name = true.
Proof.
  intros H. unfold Sql.has_column. apply existsb_exists.
  exists name. split; [assumption | apply name_eqb_refl].
Qed.

(** A lowercased name Python does not find among the lowercased columns is
    not a column for SQLite either. *)
Lemma has_column_lowered (st : store) (name : string) :
  Py.lower name = name ->
  ~ In name (map Py.lower (Sql.table_info st)) ->
  Sql.has_column st name = false.
Proof.
  intros Hlow Hnot. unfold Sql.has_column. apply existsb_false_iff.
  intros c Hc. destruct (Sql.name_eqb name c) eqn:E; [|reflexivity].
  exfalso. apply Hnot. apply name_eqb_lower in E. rewrite Hlow in E.
  rewrite E. now apply in_map.
Qed.

Lemma has_column_after_rename (old new : string) (names : list string) :
  existsb (Sql.name_eqb old) names = true ->
  existsb (Sql.name_eqb new) names = false ->
  existsb (Sql.name_eqb old) (map (rename_name old new) names) = false.
Proof.
  intros Hold Hnew.
  assert (Hne : Sql.name_eqb old new = false).
  { destruct (Sql.name_eqb old new) eqn:E; [|reflexivity].
    apply existsb_exists in Hold. destruct Hold as (c & Hc & Hoc).
    rewrite existsb_false_iff in Hnew. specialize (Hnew c Hc).
    rewrite name_eqb_sym in E.
    now rewrite (name_eqb_trans new old c E Hoc) in Hnew. }
  apply existsb_false_iff. intros c Hc. apply in_map_iff in Hc.
  destruct Hc as (c0 & <- & _). unfold rename_name.
  destruct (Sql.name_eqb old c0) eqn:E; assumption.
Qed.

Lemma map_unchanged {A : Type} (p : A -> bool) (g : A -> A) (l : list A) :
  (forall x, In x l -> p x = false) ->
  map (fun x => if p x then g x else x) l = l.
Proof.
  induction l as [|a l IH]; cbn; [reflexivity|]. intros H.
  rewrite (H a) by now left. f_equal. apply IH. intros x Hx. apply H. now right.
Qed.

Lemma filter_nil_of_false {A : Type} (p : A -> bool) (l : list A) :
  (forall x, In x l -> p x = false) -> filter p l = [].
Proof. intros H. apply filter_none. now apply existsb_false_iff. Qed.

(** A rename whose checks pass and which meets no definition and no
    preference under the old name only renames the column. *)
Lemma rename_column_plain (user_id : Z) (f : form) (st : store) (old : string) :
  form_get f "old_column_name" = Some old ->
  let new := sanitize (Py.strip (form_get_default f "new_column_name" EmptyString)) in
  old <> EmptyString ->
  In old (Sql.table_info st) ->
  new <> EmptyString -> ~ In new reserved_names ->
  ~ In new (map Py.lower (Sql.table_info st)) ->
  column_token old = true -> column_token new = true ->
  (forall d, In d (stock_columns st) -> sc_name d <> old) ->
  (forall v, In v (visibility st) -> v_name v <> old) ->
  rename_column column_token user_id f st
  = ({| pk_name := if Sql.name_eqb old (pk_name st) then new else pk_name st;
        columns := rename_in old new (columns st);
        products := products st; products_seq := products_seq st;
        inventory := inventory st; inventory_seq := inventory_seq st;
        stock_columns := stock_columns st;
        stock_columns_seq := stock_columns_seq st;
        visibility := visibility st; visibility_seq := visibility_seq st |},
     AttributeRenamed).
Proof.
  intros Hold new Holdne Hin Hne Hres Hfree Htok Htok' Hdefs Hvis.
  unfold rename_column. rewrite Hold. fold new.
  assert (Hraw : Py.truthy (Py.strip (form_get_default f "new_column_name" EmptyString)) = true).
  { apply truthy_true. intros E. apply Hne. unfold new. now rewrite E. }
  apply truthy_true in Holdne. rewrite Holdne, Hraw. cbn [negb orb].
  apply truthy_true in Hne. apply mem_not_In in Hres. rewrite Hne, Hres. cbn [negb orb].
  cbn [connect working].
  assert (Hm : Py.mem (Py.lower old) (map Py.lower (Sql.table_info st)) = true)
    by (apply mem_In; now apply in_map).
  rewrite Hm. cbn [negb].
  pose proof Hfree as Hfree'. apply mem_not_In in Hfree'. rewrite Hfree'.
  assert (Halter : alter_rename_column column_token old new st
                   = Done {| pk_name := if Sql.name_eqb old (pk_name st) then new else pk_name st;
                             columns := rename_in old new (columns st);
                             products := products st; products_seq := products_seq st;
                             inventory := inventory st; inventory_seq := inventory_seq st;
                             stock_columns := stock_columns st;
                             stock_columns_seq := stock_columns_seq st;
                             visibility := visibility st;
                             visibility_seq := visibility_seq st |}).
  { unfold alter_rename_column. rewrite Htok, Htok'.
    rewrite (has_column_In st old Hin).
    rewrite (has_column_lowered st new (lower_sanitize _) Hfree). reflexivity. }
  unfold ddl. cbn [connect working in_transaction]. rewrite Halter.
  unfold dml_. cbn [working committed].
  unfold update_stock_column_name. cbn [stock_columns].
  rewrite (filter_nil_of_false (fun r => String.eqb (sc_name r) old) (stock_columns st))
    by (intros d Hd; apply String.eqb_neq; now apply Hdefs).
  cbn [andb]. cbn [working committed].
  unfold update_visibility_name. cbn [visibility].
  rewrite (filter_nil_of_false
             (fun r => String.eqb (v_name r) old && (v_user_id r =? user_id)%Z)
             (visibility st))
    by (intros v Hv; apply andb_false_iff; left; apply String.eqb_neq; now apply Hvis).
  cbn [andb commit close working committed].
  rewrite (map_unchanged (fun r => String.eqb (sc_name r) old)
             (fun r => mkColDef (sc_id r) new (sc_type r) (sc_options r)))
    by (intros d Hd; apply String.eqb_neq; now apply Hdefs).
  rewrite (map_unchanged
             (fun r => String.eqb (v_name r) old && (v_user_id r =? user_id)%Z)
             (fun r => mkVis (v_id r) (v_user_id r) new (v_visible r)))
    by (intros v Hv; apply andb_false_iff; left; apply String.eqb_neq; now apply Hvis).
  reflexivity.
Qed.

(** ** Requests on a table that lost a fixed column *)

Lemma has_column_false (st : store) (name : string) :
  Sql.has_column st name = false ->
  Sql.name_eqb name (pk_name st) = false
  /\ Sql.column_index name (columns st) = None.
Proof.
  unfold Sql.has_column, Sql.table_info. cbn [existsb]. intros H.
  apply orb_false_iff in H. destruct H as [Hpk Hcols]. split; [assumption|].
  induction (columns st) as [|c cols IH]; [reflexivity|].
  cbn [map existsb] in Hcols. apply orb_false_iff in Hcols. destruct Hcols as [Hc Hr].
  cbn [Sql.column_index]. rewrite Hc, (IH Hr). reflexivity.
Qed.

Lemma envanter_listesi_crashes (args : form) (st : store) (name : string) :
  In name reserved_names ->
  Sql.has_column st name = false ->
  envanter_listesi args st = None.
Proof.
  intros Hin Hno. unfold envanter_listesi, select_products.
  assert (E : Sql.has_column st "id" && Sql.has_column st "user_product_id"
              && Sql.has_column st "name" && Sql.has_column st "price" = false).
  { cbn in Hin. destruct Hin as [<-|[<-|[<-|[<-|[]]]]]; rewrite Hno;
      rewrite ?andb_false_r; reflexivity. }
  now rewrite E.
Qed.

Lemma add_product_crashes (f : form) (now : string) (st : store) :
  Sql.has_column st "user_product_id" = false ->
  add_product foreign_keys rowid_of_value f now st = (st, Crashed).
Proof.
  intros H. apply has_column_false in H. destruct H as [Hpk Hidx].
  unfold add_product, select_column. cbn [connect working].
  now rewrite Hpk, Hidx.
Qed.

Lemma insert_product_names (a : list (string * sqlval)) (st st1 : store) (id : Z) :
  insert_product rowid_of_value a st = Done (st1, id) ->
  forall name v, In (name, v) a -> Sql.has_column st name = true.
Proof.
  unfold insert_product. intros H name v Hin.
  destruct (negb (forallb _ a)); [discriminate|].
  destruct (negb (forallb (fun kv => Sql.has_column st (fst kv)) a)) eqn:E;
    [discriminate|].
  apply negb_false_iff in E. rewrite forallb_forall in E. exact (E _ Hin).
Qed.

Lemma update_product_row_names (a : list (string * sqlval)) (id : Z)
    (st st1 : store) (n : nat) :
  update_product_row a id st = Done (st1, n) ->
  forall name v, In (name, v) a -> Sql.has_column st name = true.
Proof.
  unfold update_product_row. intros H name v Hin.
  destruct (negb (_ && _)); [discriminate|].
  destruct (negb (forallb (fun kv => Sql.has_column st (fst kv)) a && _)) eqn:E;
    [discriminate|].
  apply negb_false_iff, andb_true_iff in E. destruct E as [E _].
  rewrite forallb_forall in E. exact (E _ Hin).
Qed.

Lemma add_product_needs_name_and_price (f : form) (now : string) (st : store) :
  Sql.has_column st "name" = false \/ Sql.has_column st "price" = false ->
  snd (add_product foreign_keys rowid_of_value f now st) <> ProductAdded.
Proof.
  intros Hno Hadd.
  destruct (add_product foreign_keys rowid_of_value f now st) as [st' r] eqn:E.
  cbn in Hadd. subst r. apply add_product_added in E.
  destruct E as (cells & m & price & dyn & st1 & pid & _ & _ & _ & _ & _ & Hp & _).
  pose proof (insert_product_names _ _ _ _ Hp) as Hnames.
  destruct Hno as [Hno|Hno].
  - rewrite (Hnames "name" _ (or_intror (or_introl eq_refl))) in Hno. discriminate.
  - rewrite (Hnames "price" _ (or_intror (or_intror (or_introl eq_refl)))) in Hno.
    discriminate.
Qed.

Lemma update_product_needs_name_and_price (product_id : Z) (f : form) (st : store) :
  Sql.has_column st "name" = false \/ Sql.has_column st "price" = false ->
  snd (update_product product_id f st) <> ProductUpdated.
Proof.
  intros Hno. unfold update_product. cbn [connect working].
  repeat match goal with
         | |- context [match ?x with _ => _ end] => destruct x eqn:?
         | |- context [if ?x then _ else _] => destruct x eqn:?
         end; cbn; try discriminate.
  - apply dynamic_values_error in Heqs. destruct Heqs as [col [->| ->]]; discriminate.
  - intros _. apply dml_done in Heqe. destruct Heqe as (w & Hw & _).
    cbn [connect working] in Hw.
    pose proof (update_product_row_names _ _ _ _ _ Hw) as Hnames.
    destruct Hno as [Hno|Hno].
    + rewrite (Hnames "name" _ (or_introl eq_refl)) in Hno. discriminate.
    + rewrite (Hnames "price" _ (or_intror (or_introl eq_refl))) in Hno. discriminate.
Qed.

Lemma delete_product_needs_id (product_id : Z) (st : store) :
  Sql.has_column st "id" = false ->
  delete_product foreign_keys product_id st = (st, UnexpectedError).
Proof.
  intros H. apply has_column_false in H. destruct H as [Hpk _].
  unfold delete_product, dml, delete_product_row. cbn [connect working close committed].
  destruct (negb (Sql.fits_int64 product_id)); [reflexivity|].
  now rewrite Hpk.
Qed.

(** C10. [rename_column] checks only the new name against the reserved
    names; the old name only has to be a product column. So for each of the
    four reserved columns of a store and every new name that sanitizes to a
    name that is not empty, not reserved, not a column yet and a word SQLite
    takes as a column name, the rename answers [AttributeRenamed]: the
    column carries the new name, no column of the old name is left, no
    definition and no visibility preference changes (none exists under a
    reserved name), and the requests that name the column in their SQL
    meet a table without it: the inventory listing ends in an uncaught
    error; without [user_product_id] every [add_product] does; without
    [name] or [price] no [add_product] and no [update_product] succeeds;
    without [id] every [delete_product] fails. *)
Theorem reserved_column_can_be_renamed :
  forall (user_id : Z) (f : form) (st : store) (old : string),
    In old reserved_names ->
    form_get f "old_column_name" = Some old ->
    let new := sanitize (Py.strip (form_get_default f "new_column_name" EmptyString)) in
    In old (Sql.table_info st) ->
    new <> EmptyString -> ~ In new reserved_names ->
    ~ In new (map Py.lower (Sql.table_info st)) ->
    column_token old = true -> column_token new = true ->
    (forall d, In d (stock_columns st) -> sc_name d <> old) ->
    (forall v, In v (visibility st) -> v_name v <> old) ->
    exists st',
      rename_column column_token user_id f st = (st', AttributeRenamed)
      /\ Sql.table_info st' = map (rename_name old new) (Sql.table_info st)
      /\ In new (Sql.table_info st')
      /\ Sql.has_column st' old = false
      /\ stock_columns st' = stock_columns st
      /\ visibility st' = visibility st
      /\ (forall args, envanter_listesi args st' = None)
      /\ (old = "user_product_id" ->
          forall f' now,
            add_product foreign_keys rowid_of_value f' now st' = (st', Crashed))
      /\ (old = "name" \/ old = "price" ->
          (forall f' now,
              snd (add_product foreign_keys rowid_of_value f' now st') <> ProductAdded)
          /\ (forall id f', snd (update_product id f' st') <> ProductUpdated))
      /\ (old = "id" ->
          forall id, delete_product foreign_keys id st' = (st', UnexpectedError)).
Proof.
  intros user_id f st old Hres Hold new Hin Hne Hnres Hfree Htok Htok' Hdefs Hvis.
  assert (Holdne : old <> EmptyString).
  { cbn in Hres. destruct Hres as [<-|[<-|[<-|[<-|[]]]]]; discriminate. }
  eexists. split.
  { apply (rename_column_plain user_id f st old Hold Holdne Hin Hne Hnres Hfree
             Htok Htok' Hdefs Hvis). }
  fold new.
  set (st' := {| pk_name := if Sql.name_eqb old (pk_name st) then new else pk_name st;
                 columns := rename_in old new (columns st);
                 products := products st; products_seq := products_seq st;
                 inventory := inventory st; inventory_seq := inventory_seq st;
                 stock_columns := stock_columns st;
                 stock_columns_seq := stock_columns_seq st;
                 visibility := visibility st; visibility_seq := visibility_seq st |}).
  assert (Hinfo : Sql.table_info st' = map (rename_name old new) (Sql.table_info st))
    by apply table_info_renamed.
  assert (Hgone : Sql.has_column st' old = false).
  { unfold Sql.has_column. rewrite Hinfo. apply has_column_after_rename.
    - apply (has_column_In st old Hin).
    - apply (has_column_lowered st new (lower_sanitize _) Hfree). }
  split; [exact Hinfo|]. split.
  { rewrite Hinfo. apply in_map_iff. exists old. split; [|assumption].
    unfold rename_name. now rewrite name_eqb_refl. }
  split; [exact Hgone|]. split; [reflexivity|]. split; [reflexivity|].
  split; [intros args; apply (envanter_listesi_crashes args st' old Hres Hgone)|].
  split; [intros ->; intros; now apply add_product_crashes|].
  split.
  - intros Hnp.
    assert (H2 : Sql.has_column st' "name" = false \/ Sql.has_column st' "price" = false)
      by (destruct Hnp as [<-|<-]; [left|right]; exact Hgone).
    split; intros.
    + now apply add_product_needs_name_and_price.
    + now apply update_product_needs_name_and_price.
  - intros ->. intros. now apply delete_product_needs_id.
Qed.

(** ** The inventory listing *)

Lemma In_insert_by {A : Type} (key : A -> sqlval) (x y : A) (l : list A) :
  In x (Sql.insert_by key y l) <-> x = y \/ In x l.
Proof using.
  clear foreign_keys column_token rowid_of_value.
  induction l as [|z l IH]; cbn.
  - intuition congruence.
  - destruct (Sql.val_cmp (key y) (key z)); cbn; rewrite ?IH; intuition congruence.
Qed.

Lemma In_order_by {A : Type} (key : A -> sqlval) (x : A) (l : list A) :
  In x (Sql.order_by key l) <-> In x l.
Proof using.
  clear foreign_keys column_token rowid_of_value.
  unfold Sql.order_by. induction l as [|z l IH]; cbn; [tauto|].
  rewrite In_insert_by, IH. intuition congruence.
Qed.

Lemma order_by_nil_iff {A : Type} (key : A -> sqlval) (l : list A) :
  Sql.order_by key l = [] <-> l = [].
Proof using.
  clear foreign_keys column_token rowid_of_value.
  split; [|intros ->; reflexivity].
  destruct l as [|z l]; [reflexivity|]. intros H.
  assert (Hin : In z (Sql.order_by key (z :: l))) by (apply In_order_by; now left).
  rewrite H in Hin. destruct Hin.
Qed.






(** ** Properties kept along a connection *)

Section Kept.
Variable P : store -> Prop.

Lemma conn_ok_connect (st : store) : P st -> conn_ok P (connect st).
Proof. intros H. split; exact H. Qed.

Lemma conn_ok_ddl (stmt : store -> exec store) (db db' : conn) :
  preserves_ P stmt -> conn_ok P db -> ddl stmt db = Done db' -> conn_ok P db'.
Proof.
  intros Hs [Hc Hw] H. unfold ddl in H.
  destruct (stmt (working db)) as [w| | |] eqn:E; try discriminate.
  pose proof (Hs _ _ Hw E) as Hw'.
  destruct (in_transaction db); inversion H; split; assumption.
Qed.

Lemma conn_ok_dml_ (stmt : store -> exec store) (db db' : conn) :
  preserves_ P stmt -> conn_ok P db -> dml_ stmt db = Done db' -> conn_ok P db'.
Proof.
  intros Hs [Hc Hw] H. unfold dml_ in H.
  destruct (stmt (working db)) as [w| | |] eqn:E; try discriminate.
  inversion H. split; [assumption | exact (Hs _ _ Hw E)].
Qed.

Lemma conn_ok_dml {A : Type} (stmt : store -> exec (store * A)) (db db' : conn) (a : A) :
  preserves P stmt -> conn_ok P db -> dml stmt db = Done (db', a) -> conn_ok P db'.
Proof.
  intros Hs [Hc Hw] H. unfold dml in H.
  destruct (stmt (working db)) as [[w a']| | |] eqn:E; try discriminate.
  inversion H; subst. split; [assumption | exact (Hs _ _ _ Hw E)].
Qed.

Lemma conn_ok_commit (db : conn) : conn_ok P db -> conn_ok P (commit db).
Proof. intros [Hc Hw]. split; exact Hw. Qed.

Lemma conn_ok_rollback (db : conn) : conn_ok P db -> conn_ok P (rollback db).
Proof. intros [Hc Hw]. split; exact Hc. Qed.

Lemma conn_ok_close (db : conn) : conn_ok P db -> P (close db).
Proof. intros [Hc Hw]. exact Hc. Qed.

End Kept.

(** ** One inventory row per product and location *)

Lemma same_slot_iff (product_id : Z) (location : string) (r : inv_row) :
  same_slot product_id location r = true <-> slot r = (product_id, location).
Proof.
  unfold same_slot, slot. rewrite andb_true_iff, Z.eqb_eq, String.eqb_eq.
  split; [intros [-> ->]; reflexivity | intros H; inversion H; auto].
Qed.

Lemma NoDup_map_filter {A B : Type} (k : A -> B) (p : A -> bool) (l : list A) :
  NoDup (map k l) -> NoDup (map k (filter p l)).
Proof.
  induction l as [|a l IH]; cbn; [auto|]. intros H. inversion H; subst.
  destruct (p a); cbn; [|auto]. constructor; [|auto].
  intros Hin. apply in_map_iff in Hin. destruct Hin as (x & Hx & Hin).
  apply filter_In in Hin. destruct Hin as [Hin _].
  apply H2. rewrite <- Hx. now apply in_map.
Qed.

Lemma NoDup_map_snoc {A B : Type} (k : A -> B) (l : list A) (a : A) :
  NoDup (map k l) -> ~ In (k a) (map k l) -> NoDup (map k (l ++ [a])).
Proof.
  intros Hl Ha. rewrite map_app. cbn.
  apply NoDup_app; [assumption | constructor; [intros [] | constructor] |].
  intros x Hx [<-|[]]. contradiction.
Qed.

Lemma slot_free (product_id : Z) (location : string) (l : list inv_row) :
  existsb (same_slot product_id location) l = false ->
  ~ In (product_id, location) (map slot l).
Proof.
  intros H Hin. apply in_map_iff in Hin. destruct Hin as (r & Hr & Hin).
  rewrite existsb_false_iff in H. specialize (H r Hin).
  apply same_slot_iff in Hr. congruence.
Qed.

Lemma slot_free_filter (product_id : Z) (location : string) (l : list inv_row) :
  ~ In (product_id, location)
       (map slot (filter (fun r => negb (same_slot product_id location r)) l)).
Proof.
  intros Hin. apply in_map_iff in Hin. destruct Hin as (r & Hr & Hin).
  apply filter_In in Hin. destruct Hin as [_ Hneg].
  apply same_slot_iff in Hr. rewrite Hr in Hneg. discriminate.
Qed.

Lemma NoDup_after_update (hit : inv_row -> bool) (upd : inv_row -> inv_row)
    (key : Z * string) (l : list inv_row) :
  NoDup (map slot l) ->
  List.length (filter hit l) <= 1 ->
  (forall r, In r l -> hit r = false -> slot r <> key) ->
  (forall r, hit r = true -> slot (upd r) = key) ->
  NoDup (map slot (map (fun r => if hit r then upd r else r) l)).
Proof.
  intros Hnd Hone Hfree Hupd.
  induction l as [|a l IH]; [constructor|].
  cbn [map] in *. inversion Hnd as [|? ? Ha Hl]; subst.
  destruct (hit a) eqn:Hhit.
  - cbn [filter] in Hone. rewrite Hhit in Hone. cbn in Hone.
    assert (Hnil : filter hit l = []) by (destruct (filter hit l); [reflexivity | cbn in Hone; lia]).
    assert (Hnone : forall r, In r l -> hit r = false).
    { intros r Hr. destruct (hit r) eqn:E; [|reflexivity].
      assert (Hin : In r (filter hit l)) by (apply filter_In; auto).
      rewrite Hnil in Hin. destruct Hin. }
    rewrite (map_unchanged hit upd l Hnone).
    constructor; [|assumption]. rewrite (Hupd a Hhit).
    intros Hin. apply in_map_iff in Hin. destruct Hin as (r & Hr & Hin).
    apply (Hfree r (or_intror Hin) (Hnone r Hin) Hr).
  - cbn [filter] in Hone. rewrite Hhit in Hone.
    constructor.
    + intros Hin. apply in_map_iff in Hin. destruct Hin as (r' & Hr' & Hin).
      apply in_map_iff in Hin. destruct Hin as (r & Hr & Hin). subst r'.
      destruct (hit r) eqn:E.
      * rewrite (Hupd r E) in Hr'.
        apply (Hfree a (or_introl eq_refl) Hhit). now symmetry.
      * apply Ha. rewrite <- Hr'. now apply in_map.
    + apply IH; [assumption | assumption |].
      intros r Hr. apply Hfree. now right.
Qed.

Lemma update_inventory_row_unique
    (quantity : Z) (location now : string) (inventory_id product_id : Z) :
  preserves inventory_unique
    (update_inventory_row quantity location now inventory_id product_id).
Proof.
  intros st st' n Hu H. unfold update_inventory_row in H.
  destruct (negb _); [discriminate|].
  set (hit := fun r => (i_id r =? inventory_id)%Z && (i_product_id r =? product_id)%Z) in *.
  destruct (match filter hit (inventory st) with [] => false | _ => true end
            && _) eqn:G; [discriminate|].
  inversion H; subst st' n; clear H.
  unfold inventory_unique in *. cbn [with_inventory inventory].
  destruct (filter hit (inventory st)) as [|h hs] eqn:Hhits.
  - rewrite (map_unchanged hit); [assumption|].
    intros r Hr. destruct (hit r) eqn:E; [|reflexivity].
    assert (Hin : In r (filter hit (inventory st))) by (apply filter_In; auto).
    rewrite Hhits in Hin. destruct Hin.
  - cbn [andb] in G. apply orb_false_iff in G. destruct G as [Hlen Hother].
    apply (NoDup_after_update hit _ (product_id, location)); [assumption| | |].
    + rewrite Hhits. apply Nat.ltb_ge in Hlen. exact Hlen.
    + intros r Hr Hnot Hslot. rewrite existsb_false_iff in Hother.
      specialize (Hother r Hr). cbv beta in Hother. fold (hit r) in Hother.
      rewrite Hnot in Hother. cbn [negb andb] in Hother.
      apply same_slot_iff in Hslot. congruence.
    + intros r Hr. unfold hit in Hr. apply andb_true_iff in Hr.
      destruct Hr as [_ Hp]. apply Z.eqb_eq in Hp. unfold slot. cbn. now rewrite Hp.
Qed.

Lemma insert_inventory_unique (product_id quantity : Z) (location now : string) :
  preserves_ inventory_unique
    (insert_inventory foreign_keys product_id quantity location now).
Proof.
  intros st st' Hu H. apply insert_inventory_done in H.
  destruct H as (Hfree & id & ->). unfold inventory_unique in *.
  cbn [with_inventory inventory]. apply NoDup_map_snoc; [assumption|].
  exact (slot_free _ _ _ Hfree).
Qed.

Lemma insert_or_replace_inventory_unique (product_id quantity : Z) (location now : string) :
  preserves_ inventory_unique
    (insert_or_replace_inventory foreign_keys product_id quantity location now).
Proof.
  intros st st' Hu H. unfold insert_or_replace_inventory in H.
  repeat (destruct_match_in H; try discriminate). inversion H.
  unfold inventory_unique in *. cbn [with_inventory inventory].
  apply NoDup_map_snoc; [now apply NoDup_map_filter | apply slot_free_filter].
Qed.

Lemma delete_inventory_row_unique (inventory_id : Z) :
  preserves_ inventory_unique (delete_inventory_row inventory_id).
Proof.
  intros st st' Hu H. unfold delete_inventory_row in H.
  destruct (negb _); [discriminate|]. inversion H.
  unfold inventory_unique in *. cbn [with_inventory inventory].
  now apply NoDup_map_filter.
Qed.

Lemma delete_product_row_unique (product_id : Z) :
  preserves inventory_unique (delete_product_row foreign_keys product_id).
Proof.
  intros st st' n Hu H. unfold delete_product_row in H.
  repeat (destruct_match_in H; try discriminate); inversion H.
  all: unfold inventory_unique in *; cbn [inventory];
    first [assumption | now apply NoDup_map_filter].
Qed.

(** The statements on the other tables leave [inventory] alone. *)
Ltac same_inventory H :=
  repeat (destruct_match_in H; try discriminate);
  inversion H; subst; unfold inventory_unique in *; cbn [inventory]; assumption.

Lemma alter_add_column_unique (name : string) :
  preserves_ inventory_unique (alter_add_column column_token name).
Proof. intros st st' Hu H. unfold alter_add_column in H. same_inventory H. Qed.

Lemma alter_rename_column_unique (old new : string) :
  preserves_ inventory_unique (alter_rename_column column_token old new).
Proof. intros st st' Hu H. unfold alter_rename_column in H. same_inventory H. Qed.

Lemma insert_or_ignore_stock_column_unique (name type : string) (opts : option string) :
  preserves_ inventory_unique
    (fun w => Done (insert_or_ignore_stock_column name type opts w)).
Proof.
  intros st st' Hu H. unfold insert_or_ignore_stock_column in H. same_inventory H.
Qed.

Lemma insert_or_replace_visibility_unique (user_id : Z) (name : string) (b : bool) :
  preserves_ inventory_unique (insert_or_replace_visibility user_id name b).
Proof.
  intros st st' Hu H. unfold insert_or_replace_visibility in H. same_inventory H.
Qed.

Lemma update_stock_column_name_unique (new old : string) :
  preserves_ inventory_unique (update_stock_column_name new old).
Proof.
  intros st st' Hu H. unfold update_stock_column_name in H.
  destruct (_ && _); [discriminate|]. inversion H.
  unfold inventory_unique in *. cbn [inventory]. assumption.
Qed.

Lemma update_visibility_name_unique (new old : string) (user_id : Z) :
  preserves_ inventory_unique (update_visibility_name new old user_id).
Proof.
  intros st st' Hu H. unfold update_visibility_name in H.
  destruct (_ && _); [discriminate|]. inversion H.
  unfold inventory_unique in *. cbn [inventory]. assumption.
Qed.

Lemma update_stock_column_options_unique (opts name : string) :
  preserves_ inventory_unique
    (fun w => Done (update_stock_column_options opts name w)).
Proof. intros st st' Hu H. inversion H. exact Hu. Qed.

Lemma insert_product_unique (a : list (string * sqlval)) :
  preserves inventory_unique (insert_product rowid_of_value a).
Proof.
  intros st st' id Hu H. apply insert_product_done in H.
  destruct H as (_ & _ & _ & Hinv & _). unfold inventory_unique in *. now rewrite Hinv.
Qed.

Lemma update_product_row_unique (a : list (string * sqlval)) (id : Z) :
  preserves inventory_unique (update_product_row a id).
Proof.
  intros st st' n Hu H. unfold update_product_row in H.
  repeat (destruct_match_in H; try discriminate). inversion H.
  unfold inventory_unique in *. cbn [inventory]. assumption.
Qed.

Create HintDb unique_db.
#[local] Hint Resolve update_inventory_row_unique insert_inventory_unique
  insert_or_replace_inventory_unique delete_inventory_row_unique
  delete_product_row_unique alter_add_column_unique alter_rename_column_unique
  insert_or_ignore_stock_column_unique insert_or_replace_visibility_unique
  update_stock_column_name_unique update_visibility_name_unique
  update_stock_column_options_unique insert_product_unique
  update_product_row_unique : unique_db.

Ltac destruct_match_goal :=
  match goal with
  | |- context [match ?x with _ => _ end] => destruct x eqn:?
  | |- context [if ?x then _ else _] => destruct x eqn:?
  end.

(** Follows a connection back to [connect], one statement at a time. *)
Ltac conn_chain :=
  repeat match goal with
         | |- inventory_unique (close _) => apply conn_ok_close
         | |- conn_ok _ (commit _) => apply conn_ok_commit
         | |- conn_ok _ (rollback _) => apply conn_ok_rollback
         | |- conn_ok _ (connect _) => apply conn_ok_connect; assumption
         | H : ddl ?s ?db = Done ?db' |- conn_ok _ ?db' =>
             apply (conn_ok_ddl _ s db db'); [auto with unique_db | | exact H]
         | H : dml_ ?s ?db = Done ?db' |- conn_ok _ ?db' =>
             apply (conn_ok_dml_ _ s db db'); [auto with unique_db | | exact H]
         | H : dml ?s ?db = Done (?db', ?a) |- conn_ok _ ?db' =>
             apply (conn_ok_dml _ s db db' a); [auto with unique_db | | exact H]
         end.

Ltac handler_keeps :=
  cbv zeta;
  repeat first [destruct_match_goal | progress cbn [fst] | progress conn_chain].

Lemma add_column_unique (user_id : Z) (f : form) (st : store) :
  inventory_unique st ->
  inventory_unique (fst (add_column column_token user_id f st)).
Proof. intros Hu. unfold add_column. handler_keeps. Qed.

Lemma rename_column_unique (user_id : Z) (f : form) (st : store) :
  inventory_unique st ->
  inventory_unique (fst (rename_column column_token user_id f st)).
Proof. intros Hu. unfold rename_column. handler_keeps. Qed.

Lemma update_column_options_unique (f : form) (st : store) :
  inventory_unique st -> inventory_unique (fst (update_column_options f st)).
Proof. intros Hu. unfold update_column_options. handler_keeps. Qed.

Lemma toggle_column_visibility_unique (user_id : Z) (f : form) (st : store) :
  inventory_unique st ->
  inventory_unique (fst (toggle_column_visibility user_id f st)).
Proof. intros Hu. unfold toggle_column_visibility. handler_keeps. Qed.

Lemma add_product_unique (f : form) (now : string) (st : store) :
  inventory_unique st ->
  inventory_unique (fst (add_product foreign_keys rowid_of_value f now st)).
Proof. intros Hu. unfold add_product. handler_keeps. Qed.

Lemma update_product_unique (product_id : Z) (f : form) (st : store) :
  inventory_unique st -> inventory_unique (fst (update_product product_id f st)).
Proof. intros Hu. unfold update_product. handler_keeps. Qed.

Lemma delete_product_unique (product_id : Z) (st : store) :
  inventory_unique st ->
  inventory_unique (fst (delete_product foreign_keys product_id st)).
Proof. intros Hu. unfold delete_product. handler_keeps. Qed.

Lemma update_inventory_unique (f : form) (now : string) (st : store) :
  inventory_unique st ->
  inventory_unique (fst (update_inventory foreign_keys f now st)).
Proof. intros Hu. unfold update_inventory. handler_keeps. Qed.

Lemma delete_inventory_entry_unique (inventory_id : Z) (st : store) :
  inventory_unique st ->
  inventory_unique (fst (delete_inventory_entry inventory_id st)).
Proof. intros Hu. unfold delete_inventory_entry. handler_keeps. Qed.

(** Every request keeps the inventory unique per product and location. *)
Lemma handle_unique (r : request) (st : store) :
  inventory_unique st ->
  inventory_unique (fst (handle foreign_keys column_token rowid_of_value r st)).
Proof.
  destruct r; cbn [handle];
    auto using add_column_unique, rename_column_unique, update_column_options_unique,
      toggle_column_visibility_unique, add_product_unique, update_product_unique,
      delete_product_unique, update_inventory_unique, delete_inventory_entry_unique.
Qed.

Lemma run_unique (rs : list request) (st : store) :
  inventory_unique st ->
  inventory_unique (run foreign_keys column_token rowid_of_value rs st).
Proof.
  revert st. induction rs as [|r rs IH]; intros st Hu; [exact Hu|].
  unfold run. cbn [fold_left]. apply IH. now apply handle_unique.
Qed.

(** What a successful [update_inventory] without [inventory_id] did. *)
Lemma update_inventory_upserted (f : form) (now : string) (st st' : store) :
  update_inventory foreign_keys f now st = (st', InventoryUpdated) ->
  form_get f "inventory_id" = None ->
  exists product_id location quantity,
    upsert_key f = Some (product_id, location)
    /\ upsert_quantity f = Some quantity
    /\ (0 <= quantity)%Z
    /\ insert_or_replace_inventory foreign_keys product_id quantity location now st
       = Done st'.
Proof.
  unfold update_inventory, upsert_key, upsert_quantity. intros H Hid.
  rewrite Hid in H.
  repeat (destruct_match_in H; try discriminate).
  apply dml__done in Heqe. destruct Heqe as (w & Hw & ->).
  cbn [connect working committed commit close] in *.
  inversion H; subst st'; clear H.
  apply Z.ltb_ge in Heqb0.
  eexists _, _, _. repeat split; try reflexivity; try assumption.
Qed.

Lemma insert_or_replace_inventory_entries
    (product_id quantity : Z) (location now : string) (st st' : store) :
  insert_or_replace_inventory foreign_keys product_id quantity location now st
  = Done st' ->
  exists r, entries_at product_id location st' = [r]
            /\ i_quantity r = quantity /\ i_last_updated r = now.
Proof.
  unfold insert_or_replace_inventory. intros H.
  repeat (destruct_match_in H; try discriminate). inversion H.
  unfold entries_at. cbn [with_inventory inventory].
  eexists. rewrite filter_app.
  rewrite (filter_nil_of_false (same_slot product_id location)
             (filter (fun r => negb (same_slot product_id location r)) (inventory st))).
  - cbn [filter app]. unfold same_slot at 1. cbn [i_product_id i_location].
    rewrite Z.eqb_refl, String.eqb_refl. cbn. repeat split; reflexivity.
  - intros r Hr. apply filter_In in Hr. destruct Hr as [_ Hr].
    now apply negb_true_iff in Hr.
Qed.

Lemma NoDup_map_filter_length {A B : Type} (k : A -> B) (p : A -> bool) (b : B)
    (l : list A) :
  NoDup (map k l) -> (forall a, p a = true -> k a = b) ->
  List.length (filter p l) <= 1.
Proof.
  intros Hnd Hp. induction l as [|a l IH]; cbn; [lia|].
  inversion Hnd as [|? ? Ha Hl]; subst.
  destruct (p a) eqn:E; [|auto]. cbn.
  rewrite (filter_nil_of_false p l); [cbn; lia|].
  intros x Hx. destruct (p x) eqn:Ex; [|reflexivity].
  exfalso. apply Ha. rewrite (Hp a E), <- (Hp x Ex). now apply in_map.
Qed.

(** C2. In every store requests can produce from a new store file the
    inventory holds at most one row per product and location, the empty
    location like any other; and two successful [update_inventory]
    requests without [inventory_id] for the same product and location
    leave exactly one row for the pair, with the quantity of the second
    request. *)
Theorem inventory_one_entry_per_location :
  (forall st, reachable foreign_keys column_token rowid_of_value st ->
              inventory_unique st
              /\ forall product_id location,
                   List.length (entries_at product_id location st) <= 1)
  /\ (forall (f1 f2 : form) (now1 now2 : string) (st st1 st2 : store)
             (product_id : Z) (location : string) (quantity2 : Z),
         update_inventory foreign_keys f1 now1 st = (st1, InventoryUpdated) ->
         update_inventory foreign_keys f2 now2 st1 = (st2, InventoryUpdated) ->
         form_get f1 "inventory_id" = None ->
         form_get f2 "inventory_id" = None ->
         upsert_key f1 = Some (product_id, location) ->
         upsert_key f2 = Some (product_id, location) ->
         upsert_quantity f2 = Some quantity2 ->
         exists r, entries_at product_id location st2 = [r]
                   /\ i_quantity r = quantity2)
  /\ (let step := run foreign_keys column_token rowid_of_value in
      let st := step [AddProduct (product_form "Widget" "9.99") "t0";
                      UpdateInventory (upsert_form "1" "A" "5") "t1";
                      UpdateInventory (upsert_form "1" "A" "7") "t2"]
                     init_stock_table in
      map (fun r => (i_location r, i_quantity r)) (inventory st)
      = [(EmptyString, 0%Z); ("A", 7%Z)]).
Proof.
  split; [|split].
  - intros st [rs ->].
    assert (Hu : inventory_unique
                   (run foreign_keys column_token rowid_of_value rs init_stock_table)).
    { apply run_unique. unfold inventory_unique. cbn. constructor. }
    split; [exact Hu|]. intros pid loc. unfold entries_at.
    apply (NoDup_map_filter_length slot _ (pid, loc)); [exact Hu|].
    intros r Hr. now apply same_slot_iff.
  - intros f1 f2 now1 now2 st st1 st2 pid loc q2 _ H2 _ Hid2 _ Hk2 Hq2.
    apply update_inventory_upserted in H2; [|assumption].
    destruct H2 as (pid' & loc' & q' & Hk & Hq & _ & Hins).
    rewrite Hk2 in Hk. inversion Hk; subst pid' loc'.
    rewrite Hq2 in Hq. inversion Hq; subst q'.
    apply insert_or_replace_inventory_entries in Hins.
    destruct Hins as (r & Hr & Hqr & _). eauto.
  - destruct foreign_keys; vm_compute; reflexivity.
Qed.

(** ** [json.loads] never runs out of fuel *)

Lemma length_lstrip_by (p : ascii -> bool) (s : string) :
  String.length (Py.lstrip_by p s) <= String.length s.
Proof.
  induction s as [|c s IH]; cbn; [lia|]. destruct (p c); cbn; lia.
Qed.

Lemma length_skip_ws (s : string) :
  String.length (Json.skip_ws s) <= String.length s.
Proof. apply length_lstrip_by. Qed.

Lemma cons_code_inv (n : N) (r : option (list N * string)) (cs : list N) (rest : string) :
  Json.cons_code n r = Some (cs, rest) ->
  exists cs', r = Some (cs', rest).
Proof.
  destruct r as [[cs' rest']|]; cbn; [|discriminate].
  intros H. inversion H. eauto.
Qed.

Lemma length_scanstring (s : string) :
  forall cs rest, Json.scanstring s = Some (cs, rest) ->
                  String.length rest < String.length s.
Proof.
  remember (String.length s) as n eqn:Hn.
  revert s Hn. induction n as [n IH] using lt_wf_ind. intros s Hn cs rest H.
  destruct s as [|c r]; [discriminate|]. cbn [Json.scanstring] in H.
  cbn [String.length] in Hn.
  assert (Hstep : forall t cs', String.length t < n ->
                    Json.scanstring t = Some (cs', rest) ->
                    String.length rest < n).
  { intros t cs' Ht Hs. pose proof (IH _ Ht t eq_refl _ _ Hs). lia. }
  repeat (destruct_match_in H; try discriminate);
    try (inversion H; subst; cbn; lia);
    apply cons_code_inv in H; destruct H as (cs' & H);
    (eapply Hstep; [|exact H]); subst; cbn [String.length]; lia.
Qed.

Lemma length_strip_prefix (p s r : string) :
  Json.strip_prefix p s = Some r ->
  String.length s = String.length p + String.length r.
Proof.
  revert s. induction p as [|a p IH]; intros s; cbn.
  - intros H. now inversion H.
  - destruct s as [|b s]; [discriminate|]. destruct (Ascii.eqb a b); [|discriminate].
    intros H. cbn. now rewrite (IH _ H).
Qed.

Lemma length_span_digits (s ds rest : string) :
  Json.span_digits s = (ds, rest) -> String.length rest <= String.length s.
Proof.
  revert ds rest. induction s as [|c s IH]; intros ds rest; cbn.
  - intros H. inversion H. cbn. lia.
  - destruct (Py.is_digit c).
    + destruct (Json.span_digits s) as [ds' rest'] eqn:E. intros H. inversion H; subst.
      specialize (IH _ _ eq_refl). lia.
    + intros H. inversion H. cbn. lia.
Qed.

Lemma length_number_int (s lit rest : string) :
  Json.number_int s = Some (lit, rest) -> String.length rest < String.length s.
Proof.
  assert (Hbody : forall b l r, match b with
                    | String c r0 =>
                        if Ascii.eqb c "0" then Some (l ++ "0", r0)
                        else if Py.between 49 57 c then
                          let (ds, rest0) := Json.span_digits r0 in
                          Some (l ++ String c ds, rest0)
                        else None
                    | EmptyString => None
                    end = Some (lit, r) ->
                    String.length r < String.length b).
  { intros b l r H. destruct b as [|c r0]; [discriminate|].
    destruct (Ascii.eqb c "0"); [inversion H; subst; cbn; lia|].
    destruct (Py.between 49 57 c); [|discriminate].
    destruct (Json.span_digits r0) as [ds rest0] eqn:E.
    inversion H; subst. apply length_span_digits in E. cbn. lia. }
  unfold Json.number_int. intros H.
  destruct s as [|c r]; [discriminate|].
  destruct (Ascii.eqb c "-").
  - apply Hbody in H. cbn [String.length]. lia.
  - apply (Hbody (String c r) EmptyString rest H).
Qed.

Lemma length_number_frac (s lit rest : string) :
  Json.number_frac s = (lit, rest) -> String.length rest <= String.length s.
Proof.
  unfold Json.number_frac. intros H.
  repeat (destruct_match_in H; try discriminate);
    inversion H; subst; cbn [String.length];
    try match goal with
        | E : Json.span_digits _ = _ |- _ => apply length_span_digits in E
        end; cbn [String.length] in *; lia.
Qed.

Lemma length_number_exp (s lit rest : string) :
  Json.number_exp s = (lit, rest) -> String.length rest <= String.length s.
Proof.
  unfold Json.number_exp. intros H.
  destruct s as [|c r]; [inversion H; subst; cbn; lia|].
  destruct (_ || _); [|inversion H; subst; cbn; lia].
  assert (Hbody : forall sg body,
             String.length body <= String.length r ->
             (let (ds, rest0) := Json.span_digits body in
              match ds with
              | EmptyString => (EmptyString, String c r)
              | String _ _ => (String c (sg ++ ds), rest0)
              end) = (lit, rest) ->
             String.length rest <= String.length (String c r)).
  { intros sg body Hlen Hm.
    destruct (Json.span_digits body) as [ds rest0] eqn:E.
    apply length_span_digits in E.
    destruct ds; inversion Hm; subst; cbn [String.length] in *; lia. }
  destruct r as [|d r'].
  - apply (Hbody EmptyString EmptyString); [cbn; lia | exact H].
  - destruct (_ || _).
    + apply (Hbody (String d EmptyString) r'); [cbn; lia | exact H].
    + apply (Hbody EmptyString (String d r')); [cbn; lia | exact H].
Qed.

Lemma length_match_number (s lit rest : string) :
  Json.match_number s = Some (lit, rest) -> String.length rest < String.length s.
Proof.
  unfold Json.match_number. intros H.
  destruct (Json.number_int s) as [[ip r1]|] eqn:E1; [|discriminate].
  destruct (Json.number_frac r1) as [fp r2] eqn:E2.
  destruct (Json.number_exp r2) as [ep r3] eqn:E3.
  inversion H; subst.
  apply length_number_int in E1. apply length_number_frac in E2.
  apply length_number_exp in E3. lia.
Qed.

Lemma scan_scalar_progress (s : string) (v : Json.value) (rest : string) :
  Json.scan_scalar s = Json.Ok v rest -> String.length rest < String.length s.
Proof.
  unfold Json.scan_scalar. intros H.
  repeat (destruct_match_in H; try discriminate); inversion H; subst;
    try match goal with
        | E : Json.strip_prefix _ _ = Some _ |- _ =>
            apply length_strip_prefix in E; cbn [String.length] in E; lia
        end.
  now apply length_match_number in Heqo2.
Qed.

Lemma scan_scalar_fuel (s : string) : Json.scan_scalar s <> Json.Fuel.
Proof.
  unfold Json.scan_scalar.
  repeat destruct_match_goal; discriminate.
Qed.

Lemma skip_ws_cons (s : string) (c : ascii) (r : string) :
  Json.skip_ws s = String c r -> String.length r < String.length s.
Proof.
  intros H. pose proof (length_skip_ws s) as L. rewrite H in L. cbn in L. lia.
Qed.

(** Every successful scan consumes at least one character. *)
Lemma scan_progress (n : nat) :
  forall s,
    (forall v r, Json.scan_once n s = Json.Ok v r ->
                 String.length r < String.length s)
    /\ (forall vs r, Json.array_loop n s = Json.Ok vs r ->
                     String.length r < String.length s)
    /\ (forall ps r, Json.object_loop n s = Json.Ok ps r ->
                     String.length r < String.length s).
Proof.
  induction n as [|n IH]; intros s; [repeat split; intros; discriminate|].
  assert (IHscan : forall t v r, Json.scan_once n t = Json.Ok v r ->
                                 String.length r < String.length t)
    by (intros t; apply (IH t)).
  assert (IHarr : forall t vs r, Json.array_loop n t = Json.Ok vs r ->
                                 String.length r < String.length t)
    by (intros t; apply (IH t)).
  assert (IHobj : forall t ps r, Json.object_loop n t = Json.Ok ps r ->
                                 String.length r < String.length t)
    by (intros t; apply (IH t)).
  clear IH. split; [|split].
  - intros v r H. cbn [Json.scan_once] in H.
    destruct s as [|c s']; [discriminate|]. cbn [String.length].
    destruct (Ascii.eqb c Py.dquote).
    { destruct (Json.scanstring s') as [[cs rest]|] eqn:E; [|discriminate].
      inversion H; subst. apply length_scanstring in E. lia. }
    destruct (Ascii.eqb c "{").
    { destruct (Json.skip_ws s') as [|d r'] eqn:E; [discriminate|].
      apply skip_ws_cons in E.
      destruct (Ascii.eqb d "}"); [inversion H; subst; lia|].
      destruct (Ascii.eqb d Py.dquote); [|discriminate].
      destruct (Json.object_loop n r') as [ps rest| |] eqn:E2; try discriminate.
      inversion H; subst. apply IHobj in E2. lia. }
    destruct (Ascii.eqb c "[").
    { destruct (Json.skip_ws s') as [|d r'] eqn:E; [discriminate|].
      pose proof (length_skip_ws s') as L. rewrite E in L.
      destruct (Ascii.eqb d "]"); [inversion H; subst; cbn in L; lia|].
      destruct (Json.array_loop n (String d r')) as [vs rest| |] eqn:E2; try discriminate.
      inversion H; subst. apply IHarr in E2. lia. }
    apply scan_scalar_progress in H. cbn [String.length] in H. exact H.
  - intros vs r H. cbn [Json.array_loop] in H.
    destruct (Json.scan_once n s) as [v rest| |] eqn:E; try discriminate.
    apply IHscan in E.
    destruct (Json.skip_ws rest) as [|c r1] eqn:E1; [discriminate|].
    apply skip_ws_cons in E1.
    destruct (Ascii.eqb c "]"); [inversion H; subst; lia|].
    destruct (Ascii.eqb c ","); [|discriminate].
    destruct (Json.array_loop n (Json.skip_ws r1)) as [vs' rest'| |] eqn:E2;
      try discriminate.
    inversion H; subst. apply IHarr in E2.
    pose proof (length_skip_ws r1). lia.
  - intros ps r H. cbn [Json.object_loop] in H.
    destruct (Json.scanstring s) as [[key rest]|] eqn:E; [|discriminate].
    apply length_scanstring in E.
    destruct (Json.skip_ws rest) as [|c r1] eqn:E1; [discriminate|].
    apply skip_ws_cons in E1.
    destruct (Ascii.eqb c ":"); [|discriminate].
    destruct (Json.scan_once n (Json.skip_ws r1)) as [v rest1| |] eqn:E2;
      try discriminate.
    apply IHscan in E2. pose proof (length_skip_ws r1).
    destruct (Json.skip_ws rest1) as [|d r2] eqn:E3; [discriminate|].
    apply skip_ws_cons in E3.
    destruct (Ascii.eqb d "}"); [inversion H; subst; lia|].
    destruct (Ascii.eqb d ","); [|discriminate].
    destruct (Json.skip_ws r2) as [|q r3] eqn:E4; [discriminate|].
    apply skip_ws_cons in E4.
    destruct (Ascii.eqb q Py.dquote); [|discriminate].
    destruct (Json.object_loop n r3) as [ps' rest'| |] eqn:E5; try discriminate.
    inversion H; subst. apply IHobj in E5. lia.
Qed.

(** With the fuel [loads] supplies no scan runs out of it. *)
Lemma scan_fuel (n : nat) :
  forall s,
    (2 * String.length s + 1 <= n -> Json.scan_once n s <> Json.Fuel)
    /\ (2 * String.length s + 2 <= n -> Json.array_loop n s <> Json.Fuel)
    /\ (2 * String.length s + 1 <= n -> Json.object_loop n s <> Json.Fuel).
Proof.
  induction n as [|n IH]; intros s; [repeat split; intros; lia|].
  assert (IHscan : forall t, 2 * String.length t + 1 <= n ->
                             Json.scan_once n t <> Json.Fuel)
    by (intros t; apply (IH t)).
  assert (IHarr : forall t, 2 * String.length t + 2 <= n ->
                            Json.array_loop n t <> Json.Fuel)
    by (intros t; apply (IH t)).
  assert (IHobj : forall t, 2 * String.length t + 1 <= n ->
                            Json.object_loop n t <> Json.Fuel)
    by (intros t; apply (IH t)).
  clear IH. split; [|split].
  - intros Hn. cbn [Json.scan_once].
    destruct s as [|c s']; [discriminate|]. cbn [String.length] in Hn.
    destruct (Ascii.eqb c Py.dquote).
    { destruct (Json.scanstring s') as [[cs rest]|]; discriminate. }
    destruct (Ascii.eqb c "{").
    { destruct (Json.skip_ws s') as [|d r'] eqn:E; [discriminate|].
      apply skip_ws_cons in E.
      destruct (Ascii.eqb d "}"); [discriminate|].
      destruct (Ascii.eqb d Py.dquote); [|discriminate].
      destruct (Json.object_loop n r') as [ps rest| |] eqn:E2; try discriminate.
      exfalso. apply (IHobj r'); [lia | exact E2]. }
    destruct (Ascii.eqb c "[").
    { destruct (Json.skip_ws s') as [|d r'] eqn:E; [discriminate|].
      pose proof (length_skip_ws s') as L. rewrite E in L.
      destruct (Ascii.eqb d "]"); [discriminate|].
      destruct (Json.array_loop n (String d r')) as [vs rest| |] eqn:E2; try discriminate.
      exfalso. apply (IHarr (String d r')); [lia | exact E2]. }
    apply scan_scalar_fuel.
  - intros Hn. cbn [Json.array_loop].
    destruct (Json.scan_once n s) as [v rest| |] eqn:E; try discriminate.
    2:{ exfalso. apply (IHscan s); [lia | exact E]. }
    apply (scan_progress n s) in E.
    destruct (Json.skip_ws rest) as [|c r1] eqn:E1; [discriminate|].
    apply skip_ws_cons in E1.
    destruct (Ascii.eqb c "]"); [discriminate|].
    destruct (Ascii.eqb c ","); [|discriminate].
    destruct (Json.array_loop n (Json.skip_ws r1)) as [vs' rest'| |] eqn:E2;
      try discriminate.
    exfalso. pose proof (length_skip_ws r1).
    apply (IHarr (Json.skip_ws r1)); [lia | exact E2].
  - intros Hn. cbn [Json.object_loop].
    destruct (Json.scanstring s) as [[key rest]|] eqn:E; [|discriminate].
    apply length_scanstring in E.
    destruct (Json.skip_ws rest) as [|c r1] eqn:E1; [discriminate|].
    apply skip_ws_cons in E1.
    destruct (Ascii.eqb c ":"); [|discriminate].
    pose proof (length_skip_ws r1).
    destruct (Json.scan_once n (Json.skip_ws r1)) as [v rest1| |] eqn:E2;
      try discriminate.
    2:{ exfalso. apply (IHscan (Json.skip_ws r1)); [lia | exact E2]. }
    apply (scan_progress n _) in E2.
    destruct (Json.skip_ws rest1) as [|d r2] eqn:E3; [discriminate|].
    apply skip_ws_cons in E3.
    destruct (Ascii.eqb d "}"); [discriminate|].
    destruct (Ascii.eqb d ","); [|discriminate].
    destruct (Json.skip_ws r2) as [|q r3] eqn:E4; [discriminate|].
    apply skip_ws_cons in E4.
    destruct (Ascii.eqb q Py.dquote); [|discriminate].
    destruct (Json.object_loop n r3) as [ps' rest'| |] eqn:E5; try discriminate.
    exfalso. apply (IHobj r3); [lia | exact E5].
Qed.

(** [json.loads] is total: it gives a document or raises
    [JSONDecodeError], for every text. *)
Lemma decode_total (s : string) : Json.decode s <> Json.Fuel.
Proof.
  unfold Json.decode.
  destruct (Json.scan_once (Json.fuel_for s) (Json.skip_ws s)) as [v rest| |] eqn:E.
  - destruct (Json.skip_ws rest); discriminate.
  - discriminate.
  - exfalso.
    destruct (scan_fuel (Json.fuel_for s) (Json.skip_ws s)) as [Hscan _].
    apply Hscan; [|exact E].
    unfold Json.fuel_for. pose proof (length_skip_ws s). lia.
Qed.

Lemma loads_none_is_error (s : string) :
  Json.loads s = None <-> Json.decode s = Json.Err.
Proof.
  unfold Json.loads. pose proof (decode_total s).
  destruct (Json.decode s); split; congruence.
Qed.

(** ** The two stages of the option decoding *)

(** In [stok_listesi] the decoding is the two-stage decoding of the
    specification on the trimmed stored text, for every stored text. *)
Lemma stok_listesi_options_two_stage (raw : string) :
  (forall l, Json.loads (Py.strip raw) = Some (Json.JArr l) ->
             stok_listesi_options (Some raw) = l)
  /\ (Json.loads (Py.strip raw) = None ->
      stok_listesi_options (Some raw)
      = map Json.of_string (spec_lenient_scan (Py.strip raw))).
Proof.
  unfold stok_listesi_options, spec_lenient_scan.
  destruct (Py.truthy raw) eqn:Hraw.
  - split.
    + intros l H. now rewrite H.
    + intros H. rewrite H.
      destruct (Py.truthy (strip_brackets (Py.strip raw))) eqn:Hc; [reflexivity|].
      apply truthy_false in Hc. rewrite Hc. reflexivity.
  - apply truthy_false in Hraw. subst raw. split.
    + intros l H. discriminate.
    + intros _. reflexivity.
Qed.

(** C9. The stored text [x,''] is not a JSON document, so the lenient scan
    reads it. Its second token becomes empty once the quotes are trimmed:
    the scan of the specification and the decoding of [stok_listesi] drop
    it, the decoding of [add_product] and [update_product] (and of
    [export_excel]) keeps it as an empty option, because there a token is
    tested before it is cleaned. *)
Theorem add_product_options_keep_emptied_tokens :
  Json.loads "x,''" = None
  /\ spec_lenient_scan "x,''" = ["x"]
  /\ stok_listesi_options (Some "x,''") = [Json.of_string "x"]
  /\ add_product_options (Some "x,''") = [Json.of_string "x"; Json.of_string EmptyString]
  /\ export_excel_options (Some "x,''")
     = [Json.of_string "x"; Json.of_string EmptyString].
Proof. repeat split; reflexivity. Qed.


(** ** What each statement leaves alone *)

Lemma alter_add_column_frame (name : string) (st st1 : store) :
  alter_add_column column_token name st = Done st1 ->
  Sql.table_info st1 = (Sql.table_info st ++ [name])%list
  /\ map p_rowid (products st1) = map p_rowid (products st)
  /\ products_seq st1 = products_seq st
  /\ inventory st1 = inventory st
  /\ stock_columns st1 = stock_columns st
  /\ visibility st1 = visibility st.
Proof.
  unfold alter_add_column. destruct (_ || _); [discriminate|].
  intros H. inversion H. unfold Sql.table_info. cbn.
  rewrite map_app, map_map. cbn. repeat split; try reflexivity.
Qed.

Lemma alter_rename_column_frame (old new : string) (st st1 : store) :
  alter_rename_column column_token old new st = Done st1 ->
  Sql.table_info st1 = map (rename_name old new) (Sql.table_info st)
  /\ products st1 = products st
  /\ products_seq st1 = products_seq st
  /\ inventory st1 = inventory st
  /\ stock_columns st1 = stock_columns st
  /\ visibility st1 = visibility st.
Proof.
  intros H. apply alter_rename_column_done in H.
  destruct H as (_ & _ & _ & _ & ->). cbn [products products_seq inventory stock_columns visibility].
  split; [apply table_info_renamed | repeat split; reflexivity].
Qed.

Lemma insert_or_ignore_stock_column_frame (name type : string) (opts : option string)
    (st : store) :
  let st1 := insert_or_ignore_stock_column name type opts st in
  Sql.table_info st1 = Sql.table_info st
  /\ products st1 = products st
  /\ products_seq st1 = products_seq st
  /\ inventory st1 = inventory st
  /\ visibility st1 = visibility st.
Proof.
  unfold insert_or_ignore_stock_column. destruct (existsb _ _); cbn; repeat split; reflexivity.
Qed.

Lemma insert_or_replace_visibility_frame (user_id : Z) (name : string) (b : bool)
    (st st1 : store) :
  insert_or_replace_visibility user_id name b st = Done st1 ->
  Sql.table_info st1 = Sql.table_info st
  /\ products st1 = products st
  /\ products_seq st1 = products_seq st
  /\ inventory st1 = inventory st
  /\ stock_columns st1 = stock_columns st.
Proof.
  unfold insert_or_replace_visibility. destruct (negb _); [discriminate|].
  intros H. inversion H. cbn. repeat split; reflexivity.
Qed.

Lemma update_stock_column_name_frame (new old : string) (st st1 : store) :
  update_stock_column_name new old st = Done st1 ->
  Sql.table_info st1 = Sql.table_info st
  /\ products st1 = products st
  /\ products_seq st1 = products_seq st
  /\ inventory st1 = inventory st
  /\ visibility st1 = visibility st.
Proof.
  unfold update_stock_column_name. destruct (_ && _); [discriminate|].
  intros H. inversion H. cbn. repeat split; reflexivity.
Qed.

Lemma update_visibility_name_frame (new old : string) (user_id : Z) (st st1 : store) :
  update_visibility_name new old user_id st = Done st1 ->
  Sql.table_info st1 = Sql.table_info st
  /\ products st1 = products st
  /\ products_seq st1 = products_seq st
  /\ inventory st1 = inventory st
  /\ stock_columns st1 = stock_columns st.
Proof.
  unfold update_visibility_name. destruct (_ && _); [discriminate|].
  intros H. inversion H. cbn. repeat split; reflexivity.
Qed.

Lemma update_stock_column_options_frame (opts name : string) (st : store) :
  let st1 := update_stock_column_options opts name st in
  Sql.table_info st1 = Sql.table_info st
  /\ products st1 = products st
  /\ products_seq st1 = products_seq st
  /\ inventory st1 = inventory st
  /\ visibility st1 = visibility st.
Proof. cbn. repeat split; reflexivity. Qed.

Lemma insert_product_frame (a : list (string * sqlval)) (st st1 : store) (id : Z) :
  insert_product rowid_of_value a st = Done (st1, id) ->
  Sql.table_info st1 = Sql.table_info st
  /\ inventory st1 = inventory st
  /\ stock_columns st1 = stock_columns st
  /\ visibility st1 = visibility st.
Proof.
  intros H. apply insert_product_done in H.
  destruct H as (Hpk & Hcols & _ & Hinv & _ & Hsc & Hvis).
  unfold Sql.table_info. rewrite Hpk, Hcols. repeat split; assumption.
Qed.

Lemma update_product_row_frame (a : list (string * sqlval)) (id : Z)
    (st st1 : store) (n : nat) :
  update_product_row a id st = Done (st1, n) ->
  Sql.table_info st1 = Sql.table_info st
  /\ map p_rowid (products st1) = map p_rowid (products st)
  /\ products_seq st1 = products_seq st
  /\ inventory st1 = inventory st
  /\ stock_columns st1 = stock_columns st
  /\ visibility st1 = visibility st.
Proof.
  unfold update_product_row. intros H.
  repeat (destruct_match_in H; try discriminate). inversion H. cbn.
  repeat split; try reflexivity.
  rewrite map_map. apply map_ext. intros p. destruct (p_rowid p =? id)%Z; reflexivity.
Qed.

Lemma delete_product_row_frame (id : Z) (st st1 : store) (n : nat) :
  delete_product_row foreign_keys id st = Done (st1, n) ->
  Sql.table_info st1 = Sql.table_info st
  /\ products st1 = filter (fun p => negb (p_rowid p =? id)%Z) (products st)
  /\ products_seq st1 = products_seq st
  /\ n = List.length (filter (fun p => (p_rowid p =? id)%Z) (products st))
  /\ inventory st1
     = (if foreign_keys && (0 <? n)%nat
        then filter (fun r => negb (i_product_id r =? id)%Z) (inventory st)
        else inventory st)
  /\ stock_columns st1 = stock_columns st
  /\ visibility st1 = visibility st.
Proof.
  unfold delete_product_row. intros H.
  destruct (negb (Sql.fits_int64 id)); [discriminate|].
  destruct (negb (Sql.name_eqb "id" (pk_name st))); [discriminate|].
  inversion H. cbn. repeat split; reflexivity.
Qed.

Lemma with_inventory_frame (rows : list inv_row) (seq : Z) (st : store) :
  Sql.table_info (with_inventory rows seq st) = Sql.table_info st
  /\ products (with_inventory rows seq st) = products st
  /\ products_seq (with_inventory rows seq st) = products_seq st
  /\ stock_columns (with_inventory rows seq st) = stock_columns st
  /\ visibility (with_inventory rows seq st) = visibility st.
Proof. cbn. repeat split; reflexivity. Qed.

Lemma insert_or_replace_inventory_done
    (product_id quantity : Z) (location now : string) (st st' : store) :
  insert_or_replace_inventory foreign_keys product_id quantity location now st
  = Done st' ->
  exists id,
    st' = with_inventory
            (filter (fun r => negb (same_slot product_id location r)) (inventory st)
             ++ [mkInv id product_id quantity location now])%list id st.
Proof.
  unfold insert_or_replace_inventory. intros H.
  repeat (destruct_match_in H; try discriminate). inversion H. eauto.
Qed.

Lemma update_inventory_row_done
    (quantity : Z) (location now : string) (inventory_id product_id : Z)
    (st st' : store) (n : nat) :
  update_inventory_row quantity location now inventory_id product_id st
  = Done (st', n) ->
  let hit := fun r => (i_id r =? inventory_id)%Z && (i_product_id r =? product_id)%Z in
  n = List.length (filter hit (inventory st))
  /\ st' = with_inventory
             (map (fun r => if hit r
                            then mkInv (i_id r) (i_product_id r) quantity location now
                            else r) (inventory st))
             (inventory_seq st) st.
Proof.
  unfold update_inventory_row. intros H.
  destruct (negb _); [discriminate|].
  destruct (_ && _); [discriminate|]. inversion H. split; reflexivity.
Qed.

Lemma delete_inventory_row_done (inventory_id : Z) (st st' : store) :
  delete_inventory_row inventory_id st = Done st' ->
  st' = with_inventory
          (filter (fun r => negb (i_id r =? inventory_id)%Z) (inventory st))
          (inventory_seq st) st.
Proof.
  unfold delete_inventory_row. destruct (negb _); [discriminate|].
  intros H. now inversion H.
Qed.

(** ** Invariants of the reachable stores *)

(** Follows a connection back to [connect]; [tac] shows that a statement
    keeps the property. *)
Ltac conn_chain_by tac :=
  repeat match goal with
         | |- conn_ok _ (commit _) => apply conn_ok_commit
         | |- conn_ok _ (rollback _) => apply conn_ok_rollback
         | |- conn_ok _ (connect _) => apply conn_ok_connect; assumption
         | H : ddl ?s ?db = Done ?db' |- conn_ok _ ?db' =>
             apply (conn_ok_ddl _ s db db'); [tac | | exact H]
         | H : dml_ ?s ?db = Done ?db' |- conn_ok _ ?db' =>
             apply (conn_ok_dml_ _ s db db'); [tac | | exact H]
         | H : dml ?s ?db = Done (?db', ?a) |- conn_ok _ ?db' =>
             apply (conn_ok_dml _ s db db' a); [tac | | exact H]
         | |- _ (close _) => apply conn_ok_close
         end.

Ltac keeps_by tac :=
  cbv zeta;
  repeat first [destruct_match_goal | progress cbn [fst] | progress conn_chain_by tac].

(** A property kept by every handler holds in every reachable store. *)
Lemma reachable_ind (P : store -> Prop) :
  P init_stock_table ->
  (forall r st, P st ->
                P (fst (handle foreign_keys column_token rowid_of_value r st))) ->
  forall st, reachable foreign_keys column_token rowid_of_value st -> P st.
Proof.
  intros Hinit Hstep st [rs ->]. revert Hinit. generalize init_stock_table.
  induction rs as [|r rs IH]; intros st0 H0; [exact H0|].
  unfold run. cbn [fold_left]. apply IH. now apply Hstep.
Qed.

(** *** Quantities *)

Section InventoryOnly.
Variable Q : list inv_row -> Prop.

Lemma on_inventory_same (st st' : store) :
  inventory st' = inventory st -> on_inventory Q st -> on_inventory Q st'.
Proof. unfold on_inventory. now intros ->. Qed.

Lemma on_inventory_alter_add_column (name : string) :
  preserves_ (on_inventory Q) (alter_add_column column_token name).
Proof.
  intros st st' HQ H. apply alter_add_column_frame in H.
  eapply on_inventory_same; [|exact HQ]. tauto.
Qed.

Lemma on_inventory_alter_rename_column (old new : string) :
  preserves_ (on_inventory Q) (alter_rename_column column_token old new).
Proof.
  intros st st' HQ H. apply alter_rename_column_frame in H.
  eapply on_inventory_same; [|exact HQ]. tauto.
Qed.

Lemma on_inventory_insert_or_ignore (name type : string) (opts : option string) :
  preserves_ (on_inventory Q)
    (fun w => Done (insert_or_ignore_stock_column name type opts w)).
Proof.
  intros st st' HQ H. inversion H.
  eapply on_inventory_same; [|exact HQ].
  apply (insert_or_ignore_stock_column_frame name type opts st).
Qed.

Lemma on_inventory_insert_or_replace_visibility (user_id : Z) (name : string) (b : bool) :
  preserves_ (on_inventory Q) (insert_or_replace_visibility user_id name b).
Proof.
  intros st st' HQ H. apply insert_or_replace_visibility_frame in H.
  eapply on_inventory_same; [|exact HQ]. tauto.
Qed.

Lemma on_inventory_update_stock_column_name (new old : string) :
  preserves_ (on_inventory Q) (update_stock_column_name new old).
Proof.
  intros st st' HQ H. apply update_stock_column_name_frame in H.
  eapply on_inventory_same; [|exact HQ]. tauto.
Qed.

Lemma on_inventory_update_visibility_name (new old : string) (user_id : Z) :
  preserves_ (on_inventory Q) (update_visibility_name new old user_id).
Proof.
  intros st st' HQ H. apply update_visibility_name_frame in H.
  eapply on_inventory_same; [|exact HQ]. tauto.
Qed.

Lemma on_inventory_update_stock_column_options (opts name : string) :
  preserves_ (on_inventory Q)
    (fun w => Done (update_stock_column_options opts name w)).
Proof. intros st st' HQ H. inversion H. exact HQ. Qed.

Lemma on_inventory_insert_product (a : list (string * sqlval)) :
  preserves (on_inventory Q) (insert_product rowid_of_value a).
Proof.
  intros st st' id HQ H. apply insert_product_frame in H.
  eapply on_inventory_same; [|exact HQ]. tauto.
Qed.

Lemma on_inventory_update_product_row (a : list (string * sqlval)) (id : Z) :
  preserves (on_inventory Q) (update_product_row a id).
Proof.
  intros st st' n HQ H. apply update_product_row_frame in H.
  eapply on_inventory_same; [|exact HQ]. tauto.
Qed.

End InventoryOnly.

Lemma quantities_filter (p : inv_row -> bool) (l : list inv_row) :
  Forall (fun r => (0 <= i_quantity r)%Z) l ->
  Forall (fun r => (0 <= i_quantity r)%Z) (filter p l).
Proof.
  intros H. apply Forall_forall. intros r Hr. apply filter_In in Hr.
  rewrite Forall_forall in H. now apply H.
Qed.

Lemma quantities_delete_product_row (id : Z) :
  preserves quantities_ok (delete_product_row foreign_keys id).
Proof.
  intros st st' n HQ H. apply delete_product_row_frame in H.
  destruct H as (_ & _ & _ & _ & Hinv & _).
  unfold quantities_ok, on_inventory in *. rewrite Hinv.
  destruct (_ && _); [now apply quantities_filter | assumption].
Qed.

Lemma quantities_insert_inventory (product_id quantity : Z) (location now : string) :
  (0 <= quantity)%Z ->
  preserves_ quantities_ok
    (insert_inventory foreign_keys product_id quantity location now).
Proof.
  intros Hq st st' HQ H. apply insert_inventory_done in H.
  destruct H as (_ & id & ->). unfold quantities_ok, on_inventory in *.
  cbn [with_inventory inventory]. apply Forall_app. split; [assumption|].
  constructor; [exact Hq | constructor].
Qed.

Lemma quantities_insert_or_replace (product_id quantity : Z) (location now : string) :
  (quantity <? 0)%Z = false ->
  preserves_ quantities_ok
    (insert_or_replace_inventory foreign_keys product_id quantity location now).
Proof.
  intros Hq st st' HQ H. apply insert_or_replace_inventory_done in H.
  destruct H as (id & ->). unfold quantities_ok, on_inventory in *.
  cbn [with_inventory inventory]. apply Forall_app.
  split; [now apply quantities_filter|].
  constructor; [cbn; lia | constructor].
Qed.

Lemma quantities_update_inventory_row
    (quantity : Z) (location now : string) (inventory_id product_id : Z) :
  (quantity <? 0)%Z = false ->
  preserves quantities_ok
    (update_inventory_row quantity location now inventory_id product_id).
Proof.
  intros Hq st st' n HQ H. apply update_inventory_row_done in H.
  destruct H as (_ & ->). unfold quantities_ok, on_inventory in *.
  cbn [with_inventory inventory]. apply Forall_forall. intros r Hr.
  apply in_map_iff in Hr. destruct Hr as (r0 & <- & Hr0).
  rewrite Forall_forall in HQ.
  destruct (_ && _); [cbn; lia | now apply HQ].
Qed.

Lemma quantities_delete_inventory_row (inventory_id : Z) :
  preserves_ quantities_ok (delete_inventory_row inventory_id).
Proof.
  intros st st' HQ H. apply delete_inventory_row_done in H. subst st'.
  unfold quantities_ok, on_inventory in *. cbn [with_inventory inventory].
  now apply quantities_filter.
Qed.

Ltac quantities_tac :=
  first [ apply on_inventory_alter_add_column
        | apply on_inventory_alter_rename_column
        | apply on_inventory_insert_or_ignore
        | apply on_inventory_insert_or_replace_visibility
        | apply on_inventory_update_stock_column_name
        | apply on_inventory_update_visibility_name
        | apply on_inventory_update_stock_column_options
        | apply on_inventory_insert_product
        | apply on_inventory_update_product_row
        | apply quantities_delete_product_row
        | apply quantities_insert_inventory; lia
        | apply quantities_insert_or_replace; assumption
        | apply quantities_update_inventory_row; assumption
        | apply quantities_delete_inventory_row ].

Lemma handle_quantities (r : request) (st : store) :
  quantities_ok st ->
  quantities_ok (fst (handle foreign_keys column_token rowid_of_value r st)).
Proof.
  intros HQ. destruct r; cbn [handle].
  - unfold add_column. keeps_by quantities_tac.
  - unfold rename_column. keeps_by quantities_tac.
  - unfold update_column_options. keeps_by quantities_tac.
  - unfold toggle_column_visibility. keeps_by quantities_tac.
  - unfold add_product. keeps_by quantities_tac.
  - unfold update_product. keeps_by quantities_tac.
  - unfold delete_product. keeps_by quantities_tac.
  - unfold update_inventory. keeps_by quantities_tac.
  - unfold delete_inventory_entry. keeps_by quantities_tac.
Qed.

(** X1. No request stores a negative quantity: in every store requests
    can produce from a new store file every inventory row has a quantity of
    at least 0, and [update_inventory] answers [NegativeQuantity] without
    touching the store whenever the quantity it reads is below 0. *)
Theorem quantity_is_never_negative :
  (forall st, reachable foreign_keys column_token rowid_of_value st ->
              Forall (fun r => (0 <= i_quantity r)%Z) (inventory st))
  /\ (forall (f : form) (now : string) (st : store) (p q : string) (product_id quantity : Z),
         form_get f "product_id" = Some p -> form_get f "quantity" = Some q ->
         Py.int p = Some product_id -> Py.int q = Some quantity ->
         (quantity < 0)%Z ->
         update_inventory foreign_keys f now st = (st, NegativeQuantity)).
Proof.
  split.
  - apply (reachable_ind quantities_ok); [constructor | apply handle_quantities].
  - intros f now st p q pid qty Hp Hq Hpi Hqi Hneg.
    unfold update_inventory. rewrite Hp, Hq.
    assert (Hpt : Py.truthy p = true).
    { apply truthy_true. intros ->. discriminate. }
    assert (Hqt : Py.truthy q = true).
    { apply truthy_true. intros ->. discriminate. }
    rewrite Hpt, Hqt, Hpi, Hqi. cbn [negb orb].
    apply Z.ltb_lt in Hneg. rewrite Hneg. reflexivity.
Qed.

(** *** Column names *)

Section SchemaOnly.
Variable Q : list string -> Prop.

Lemma on_schema_same (st st' : store) :
  Sql.table_info st' = Sql.table_info st -> on_schema Q st -> on_schema Q st'.
Proof. unfold on_schema. now intros ->. Qed.

Lemma on_schema_insert_or_ignore (name type : string) (opts : option string) :
  preserves_ (on_schema Q)
    (fun w => Done (insert_or_ignore_stock_column name type opts w)).
Proof.
  intros st st' HQ H. inversion H. eapply on_schema_same; [|exact HQ].
  apply (insert_or_ignore_stock_column_frame name type opts st).
Qed.

Lemma on_schema_insert_or_replace_visibility (user_id : Z) (name : string) (b : bool) :
  preserves_ (on_schema Q) (insert_or_replace_visibility user_id name b).
Proof.
  intros st st' HQ H. apply insert_or_replace_visibility_frame in H.
  eapply on_schema_same; [|exact HQ]. tauto.
Qed.

Lemma on_schema_update_stock_column_name (new old : string) :
  preserves_ (on_schema Q) (update_stock_column_name new old).
Proof.
  intros st st' HQ H. apply update_stock_column_name_frame in H.
  eapply on_schema_same; [|exact HQ]. tauto.
Qed.

Lemma on_schema_update_visibility_name (new old : string) (user_id : Z) :
  preserves_ (on_schema Q) (update_visibility_name new old user_id).
Proof.
  intros st st' HQ H. apply update_visibility_name_frame in H.
  eapply on_schema_same; [|exact HQ]. tauto.
Qed.

Lemma on_schema_update_stock_column_options (opts name : string) :
  preserves_ (on_schema Q)
    (fun w => Done (update_stock_column_options opts name w)).
Proof. intros st st' HQ H. inversion H. exact HQ. Qed.

Lemma on_schema_insert_product (a : list (string * sqlval)) :
  preserves (on_schema Q) (insert_product rowid_of_value a).
Proof.
  intros st st' id HQ H. apply insert_product_frame in H.
  eapply on_schema_same; [|exact HQ]. tauto.
Qed.

Lemma on_schema_update_product_row (a : list (string * sqlval)) (id : Z) :
  preserves (on_schema Q) (update_product_row a id).
Proof.
  intros st st' n HQ H. apply update_product_row_frame in H.
  eapply on_schema_same; [|exact HQ]. tauto.
Qed.

Lemma on_schema_delete_product_row (id : Z) :
  preserves (on_schema Q) (delete_product_row foreign_keys id).
Proof.
  intros st st' n HQ H. apply delete_product_row_frame in H.
  eapply on_schema_same; [|exact HQ]. tauto.
Qed.

Lemma on_schema_insert_inventory (product_id quantity : Z) (location now : string) :
  preserves_ (on_schema Q)
    (insert_inventory foreign_keys product_id quantity location now).
Proof.
  intros st st' HQ H. apply insert_inventory_done in H.
  destruct H as (_ & id & ->). exact HQ.
Qed.

Lemma on_schema_insert_or_replace_inventory
    (product_id quantity : Z) (location now : string) :
  preserves_ (on_schema Q)
    (insert_or_replace_inventory foreign_keys product_id quantity location now).
Proof.
  intros st st' HQ H. apply insert_or_replace_inventory_done in H.
  destruct H as (id & ->). exact HQ.
Qed.

Lemma on_schema_update_inventory_row
    (quantity : Z) (location now : string) (inventory_id product_id : Z) :
  preserves (on_schema Q)
    (update_inventory_row quantity location now inventory_id product_id).
Proof.
  intros st st' n HQ H. apply update_inventory_row_done in H.
  destruct H as (_ & ->). exact HQ.
Qed.

Lemma on_schema_delete_inventory_row (inventory_id : Z) :
  preserves_ (on_schema Q) (delete_inventory_row inventory_id).
Proof.
  intros st st' HQ H. apply delete_inventory_row_done in H. subst st'. exact HQ.
Qed.

End SchemaOnly.

Lemma lower_char_fixed_fold (c : ascii) :
  Py.lower_char c = c -> Sql.fold_char c = c.
Proof. destruct c as [[] [] [] [] [] [] [] []]; cbn; congruence. Qed.

Lemma lower_fixed_fold (s : string) :
  Py.lower s = s -> Py.smap Sql.fold_char s = s.
Proof.
  unfold Py.lower. induction s as [|c s IH]; cbn; [reflexivity|].
  intros H. inversion H as [[Hc Hs]]. rewrite Hc, Hs.
  now rewrite (lower_char_fixed_fold c Hc), (IH Hs).
Qed.

(** On lowercase names SQLite's comparison is equality. *)
Lemma name_eqb_lowercase (a b : string) :
  Py.lower a = a -> Py.lower b = b -> Sql.name_eqb a b = String.eqb a b.
Proof.
  intros Ha Hb. unfold Sql.name_eqb.
  now rewrite (lower_fixed_fold a Ha), (lower_fixed_fold b Hb).
Qed.

Lemma map_id_of_fixed {A : Type} (g : A -> A) (l : list A) :
  Forall (fun x => g x = x) l -> map g l = l.
Proof.
  induction 1 as [|x l Hx _ IH]; cbn; [reflexivity | now rewrite Hx, IH].
Qed.

Lemma NoDup_replace (k new : string) (l : list string) :
  NoDup l -> ~ In new l ->
  NoDup (map (fun n => if String.eqb k n then new else n) l).
Proof.
  intros Hnd Hnew. induction l as [|a l IH]; cbn; [constructor|].
  inversion Hnd as [|? ? Ha Hl]; subst.
  assert (Hnew' : ~ In new l) by (intros H; apply Hnew; now right).
  specialize (IH Hl Hnew').
  destruct (String.eqb_spec k a) as [->|Hka].
  - constructor; [|exact IH].
    rewrite map_unchanged.
    + exact Hnew'.
    + intros x Hx. apply String.eqb_neq. intros ->. contradiction.
  - constructor; [|exact IH].
    intros Hin. apply in_map_iff in Hin. destruct Hin as (x & Hx & Hin).
    destruct (String.eqb_spec k x) as [->|Hkx].
    + subst a. apply Hnew. now left.
    + subst x. contradiction.
Qed.

Lemma schema_alter_add_column (name : string) :
  Py.lower name = name ->
  preserves_ schema_ok (alter_add_column column_token name).
Proof.
  intros Hlow st st' [Hnd Hall] H.
  assert (Hfree : Sql.has_column st name = false).
  { unfold alter_add_column in H. destruct (Sql.has_column st name);
      [rewrite orb_true_r in H; discriminate | reflexivity]. }
  apply alter_add_column_frame in H. destruct H as (Hinfo & _).
  unfold schema_ok, on_schema. rewrite Hinfo.
  rewrite (map_id_of_fixed Py.lower _ Hall) in Hnd.
  assert (Hall' : Forall (fun n => Py.lower n = n) (Sql.table_info st ++ [name])%list).
  { apply Forall_app. split; [assumption | constructor; [assumption | constructor]]. }
  split; [|exact Hall'].
  rewrite (map_id_of_fixed Py.lower _ Hall').
  apply NoDup_app; [assumption | constructor; [intros [] | constructor] |].
  intros x Hx [<-|[]].
  unfold Sql.has_column in Hfree. rewrite existsb_false_iff in Hfree.
  specialize (Hfree _ Hx). now rewrite name_eqb_refl in Hfree.
Qed.

Lemma schema_alter_rename_column (old new : string) :
  Py.lower new = new ->
  preserves_ schema_ok (alter_rename_column column_token old new).
Proof.
  intros Hlow st st' [Hnd Hall] H.
  pose proof (alter_rename_column_done _ _ _ _ H) as (_ & _ & _ & Hfree & _).
  apply alter_rename_column_frame in H. destruct H as (Hinfo & _).
  unfold schema_ok, on_schema. rewrite Hinfo.
  rewrite (map_id_of_fixed Py.lower _ Hall) in Hnd.
  assert (Hren : map (rename_name old new) (Sql.table_info st)
                 = map (fun n => if String.eqb (Py.smap Sql.fold_char old) n
                                 then new else n) (Sql.table_info st)).
  { apply map_ext_in. intros n Hn. unfold rename_name, Sql.name_eqb.
    rewrite Forall_forall in Hall.
    now rewrite (lower_fixed_fold n (Hall n Hn)). }
  assert (Hall' : Forall (fun n => Py.lower n = n)
                         (map (rename_name old new) (Sql.table_info st))).
  { apply Forall_forall. intros n Hn. apply in_map_iff in Hn.
    destruct Hn as (n0 & <- & Hn0). unfold rename_name.
    rewrite Forall_forall in Hall.
    destruct (Sql.name_eqb old n0); [assumption | now apply Hall]. }
  split; [|exact Hall'].
  rewrite (map_id_of_fixed Py.lower _ Hall'), Hren.
  apply NoDup_replace; [assumption|].
  intros Hin. unfold Sql.has_column in Hfree. rewrite existsb_false_iff in Hfree.
  specialize (Hfree _ Hin). now rewrite name_eqb_refl in Hfree.
Qed.

Ltac schema_tac :=
  first [ apply schema_alter_add_column; apply lower_sanitize
        | apply schema_alter_rename_column; apply lower_sanitize
        | apply on_schema_insert_or_ignore
        | apply on_schema_insert_or_replace_visibility
        | apply on_schema_update_stock_column_name
        | apply on_schema_update_visibility_name
        | apply on_schema_update_stock_column_options
        | apply on_schema_insert_product
        | apply on_schema_update_product_row
        | apply on_schema_delete_product_row
        | apply on_schema_insert_inventory
        | apply on_schema_insert_or_replace_inventory
        | apply on_schema_update_inventory_row
        | apply on_schema_delete_inventory_row ].

Lemma handle_schema (r : request) (st : store) :
  schema_ok st ->
  schema_ok (fst (handle foreign_keys column_token rowid_of_value r st)).
Proof.
  intros HQ. destruct r; cbn [handle].
  - unfold add_column. keeps_by schema_tac.
  - unfold rename_column. keeps_by schema_tac.
  - unfold update_column_options. keeps_by schema_tac.
  - unfold toggle_column_visibility. keeps_by schema_tac.
  - unfold add_product. keeps_by schema_tac.
  - unfold update_product. keeps_by schema_tac.
  - unfold delete_product. keeps_by schema_tac.
  - unfold update_inventory. keeps_by schema_tac.
  - unfold delete_inventory_entry. keeps_by schema_tac.
Qed.

Lemma reachable_schema (st : store) :
  reachable foreign_keys column_token rowid_of_value st -> schema_ok st.
Proof.
  apply (reachable_ind schema_ok); [|apply handle_schema].
  split; cbn.
  - repeat constructor; cbn; intuition discriminate.
  - repeat constructor.
Qed.

(** X2. The names of the product columns stay unique: in every store
    requests can produce from a new store file no two columns have the same
    name once lowercased, and every column name is lowercase. *)
Theorem column_names_stay_unique :
  forall st, reachable foreign_keys column_token rowid_of_value st ->
    NoDup (map Py.lower (Sql.table_info st))
    /\ Forall (fun n => Py.lower n = n) (Sql.table_info st).
Proof. intros st H. exact (reachable_schema st H). Qed.


(** *** Requests that fail *)

Lemma filter_length_0 {A : Type} (p : A -> bool) (l : list A) :
  List.length (filter p l) = 0%nat -> forall x, In x l -> p x = false.
Proof.
  induction l as [|a l IH]; cbn; [tauto|].
  destruct (p a) eqn:E; [discriminate|].
  intros H x [<-|Hx]; auto.
Qed.

Lemma filter_all {A : Type} (p : A -> bool) (l : list A) :
  (forall x, In x l -> p x = true) -> filter p l = l.
Proof.
  induction l as [|a l IH]; cbn; [reflexivity|].
  intros H. rewrite (H a (or_introl eq_refl)). f_equal. apply IH.
  intros x Hx. apply H. now right.
Qed.

(** An UPDATE of the products that meets no row changes nothing. *)
Lemma update_product_row_none (a : list (string * sqlval)) (id : Z)
    (st st1 : store) :
  update_product_row a id st = Done (st1, 0%nat) -> st1 = st.
Proof using.
  clear foreign_keys column_token rowid_of_value.
  unfold update_product_row. intros H.
  repeat (destruct_match_in H; try discriminate).
  inversion H as [[Hst Hn]]. clear H Hst.
  pose proof (filter_length_0 _ _ Hn) as Hno.
  rewrite map_unchanged.
  - destruct st; reflexivity.
  - intros p Hp. now rewrite (Hno p Hp).
Qed.

(** A DELETE of the products that meets no row changes nothing. *)
Lemma delete_product_row_none (id : Z) (st st1 : store) :
  delete_product_row foreign_keys id st = Done (st1, 0%nat) -> st1 = st.
Proof.
  unfold delete_product_row. intros H.
  destruct (negb (Sql.fits_int64 id)); [discriminate|].
  destruct (negb (Sql.name_eqb "id" (pk_name st))); [discriminate|].
  inversion H as [[Hst Hn]]. clear H Hst. rewrite Hn.
  pose proof (filter_length_0 _ _ Hn) as Hno.
  rewrite andb_false_r, filter_all.
  - destruct st; reflexivity.
  - intros p Hp. cbn. now rewrite (Hno p Hp).
Qed.

Lemma update_column_options_failed (f : form) (st : store) :
  succeeded (snd (update_column_options f st)) = false ->
  fst (update_column_options f st) = st.
Proof using.
  clear foreign_keys column_token rowid_of_value.
  unfold update_column_options. cbv zeta.
  repeat (destruct_match_goal; cbn [fst snd succeeded close connect committed];
          try reflexivity; try discriminate).
Qed.

Lemma toggle_column_visibility_failed (user_id : Z) (f : form) (st : store) :
  succeeded (snd (toggle_column_visibility user_id f st)) = false ->
  fst (toggle_column_visibility user_id f st) = st.
Proof using.
  clear foreign_keys column_token rowid_of_value.
  unfold toggle_column_visibility. cbv zeta.
  repeat (destruct_match_goal; cbn [fst snd succeeded close connect committed];
          try reflexivity; try discriminate).
Qed.

Lemma update_product_failed (product_id : Z) (f : form) (st : store) :
  succeeded (snd (update_product product_id f st)) = false ->
  fst (update_product product_id f st) = st.
Proof using.
  clear foreign_keys column_token rowid_of_value.
  unfold update_product. cbv zeta.
  repeat (destruct_match_goal; cbn [fst snd succeeded close connect committed];
          try reflexivity; try discriminate).
  intros _.
  match goal with H : dml _ _ = Done _ |- _ => apply dml_done in H;
    destruct H as (w & Hw & ->) end.
  cbn [commit working committed connect] in *.
  match goal with H : (0 <? ?n)%nat = false |- _ =>
    apply Nat.ltb_ge in H; assert (n = 0%nat) by lia; subst n end.
  now apply update_product_row_none in Hw.
Qed.

Lemma delete_product_failed (product_id : Z) (st : store) :
  succeeded (snd (delete_product foreign_keys product_id st)) = false ->
  fst (delete_product foreign_keys product_id st) = st.
Proof.
  unfold delete_product. cbv zeta.
  repeat (destruct_match_goal; cbn [fst snd succeeded close connect committed];
          try reflexivity; try discriminate).
  intros _.
  match goal with H : dml _ _ = Done _ |- _ => apply dml_done in H;
    destruct H as (w & Hw & ->) end.
  cbn [commit working committed connect] in *.
  match goal with H : (0 <? ?n)%nat = false |- _ =>
    apply Nat.ltb_ge in H; assert (n = 0%nat) by lia; subst n end.
  now apply delete_product_row_none in Hw.
Qed.

Lemma update_inventory_failed (f : form) (now : string) (st : store) :
  succeeded (snd (update_inventory foreign_keys f now st)) = false ->
  fst (update_inventory foreign_keys f now st) = st.
Proof.
  unfold update_inventory. cbv zeta.
  repeat (destruct_match_goal;
          cbn [fst snd succeeded close connect committed rollback];
          try reflexivity; try discriminate).
  intros _.
  match goal with H : dml _ _ = Done _ |- _ => apply dml_done in H;
    destruct H as (w & Hw & ->) end.
  reflexivity.
Qed.

Lemma delete_inventory_entry_failed (inventory_id : Z) (st : store) :
  succeeded (snd (delete_inventory_entry inventory_id st)) = false ->
  fst (delete_inventory_entry inventory_id st) = st.
Proof using.
  clear foreign_keys column_token rowid_of_value.
  unfold delete_inventory_entry. cbv zeta.
  repeat (destruct_match_goal;
          cbn [fst snd succeeded close connect committed rollback];
          try reflexivity; try discriminate).
Qed.

(** X3. A request that runs no ALTER TABLE is all or nothing: when its
    answer is not one of the answers that report the request as carried
    out, the store is exactly as it was before the request. *)
Theorem failed_request_changes_nothing :
  forall (r : request) (st : store),
    alters_schema r = false ->
    succeeded (snd (handle foreign_keys column_token rowid_of_value r st)) = false ->
    fst (handle foreign_keys column_token rowid_of_value r st) = st.
Proof.
  intros r st Hr H. destruct r; try discriminate Hr; cbn [handle] in *.
  - now apply update_column_options_failed.
  - now apply toggle_column_visibility_failed.
  - destruct (add_product foreign_keys rowid_of_value f now st) as [st' a] eqn:E.
    cbn [fst snd] in *. apply (add_product_failed _ _ _ _ _ E).
    intros ->. discriminate.
  - now apply update_product_failed.
  - now apply delete_product_failed.
  - now apply update_inventory_failed.
  - now apply delete_inventory_entry_failed.
Qed.

Lemma rename_column_failed (user_id : Z) (f : form) (st st' : store) (r : response) :
  rename_column column_token user_id f st = (st', r) ->
  r <> AttributeRenamed ->
  st' = st
  \/ exists old,
       form_get f "old_column_name" = Some old
       /\ alter_rename_column column_token old
            (sanitize (Py.strip (form_get_default f "new_column_name" EmptyString))) st
          = Done st'.
Proof.
  unfold rename_column. cbv zeta. intros H Hr.
  destruct (form_get f "old_column_name") as [old|];
    [|inversion H; now left].
  repeat (destruct_match_in H;
          try (inversion H; subst; cbn [close connect committed]; now left)).
  all: try (inversion H; subst; congruence).
  all: right; exists old; split; [reflexivity|].
  all: match goal with Hd : ddl _ (connect _) = Done _ |- _ =>
         apply ddl_connect_done in Hd; destruct Hd as (w & Hw & ->) end.
  all: repeat match goal with Hd : dml_ _ _ = Done _ |- _ =>
         apply dml__done in Hd; destruct Hd as (? & _ & ->) end.
  all: inversion H; subst; cbn [close committed]; exact Hw.
Qed.

Lemma add_column_failed (user_id : Z) (f : form) (st st' : store) (r : response) :
  add_column column_token user_id f st = (st', r) ->
  r <> AttributeAdded ->
  st' = st
  \/ exists raw,
       form_get f "new_column" = Some raw
       /\ alter_add_column column_token (sanitize (Py.strip raw)) st = Done st'.
Proof.
  unfold add_column. cbv zeta. intros H Hr.
  destruct (form_get f "new_column") as [raw|];
    [|inversion H; now left].
  repeat (destruct_match_in H;
          try (inversion H; subst; cbn [close connect committed]; now left)).
  all: try (inversion H; subst; congruence).
  all: right; exists raw; split; [reflexivity|].
  all: match goal with Hd : ddl _ (connect _) = Done _ |- _ =>
         apply ddl_connect_done in Hd; destruct Hd as (w & Hw & ->) end.
  all: repeat match goal with Hd : dml_ _ _ = Done _ |- _ =>
         apply dml__done in Hd; destruct Hd as (? & _ & ->) end.
  all: inversion H; subst; cbn [close committed]; exact Hw.
Qed.

(** X4. [add_column] and [rename_column] are not all or nothing. When the
    answer is not the success answer, the store is either as it was, or it
    is the store the ALTER TABLE statement alone leaves: the column is
    added or renamed, and neither a definition nor a preference has been
    written, because the schema statement is not part of the transaction
    that is given up. *)
Theorem failed_schema_request_keeps_the_alter :
  (forall (user_id : Z) (f : form) (st st' : store) (r : response),
      add_column column_token user_id f st = (st', r) ->
      r <> AttributeAdded ->
      st' = st
      \/ exists raw,
           form_get f "new_column" = Some raw
           /\ alter_add_column column_token (sanitize (Py.strip raw)) st = Done st')
  /\ (forall (user_id : Z) (f : form) (st st' : store) (r : response),
         rename_column column_token user_id f st = (st', r) ->
         r <> AttributeRenamed ->
         st' = st
         \/ exists old,
              form_get f "old_column_name" = Some old
              /\ alter_rename_column column_token old
                   (sanitize (Py.strip
                      (form_get_default f "new_column_name" EmptyString))) st
                 = Done st').
Proof. split; [exact add_column_failed | exact rename_column_failed]. Qed.

(** ** Sanitized names *)





(** ** Validation of the attribute values *)

(** X6. The values [add_product] and [update_product] collect for the
    attributes, once the validation loop has accepted the form: each one
    belongs to a product column outside the four reserved names and is the
    trimmed form value of that column; for a number attribute the value is
    blank and stored as NULL, or [float] reads it; for a select attribute
    it is blank or one of the options of the definition; for any other
    column the text is stored as it is. *)
Theorem validated_values_fit_their_definition :
  forall (info : list (string * col_info)) (f : form) (cols : list string)
         (vs : list (string * sqlval)) (c : string) (v : sqlval),
    dynamic_values info f cols = inr vs ->
    In (c, v) vs ->
    In c cols /\ ~ In c reserved_names
    /\ let value := Py.strip (form_get_default f c EmptyString) in
       match dict_get info c with
       | Some i =>
           (column_type i = "number" ->
            (value = EmptyString /\ v = VNull)
            \/ exists x, Py.float_of_string value = Some x /\ v = Sql.bind_float x)
           /\ (column_type i = "select" ->
               v = VText value
               /\ (value = EmptyString \/ in_options value (options i) = true))
           /\ (column_type i <> "number" -> column_type i <> "select" ->
               v = VText value)
       | None => v = VText value
       end.
Proof using.
  clear foreign_keys column_token rowid_of_value.
  intros info f cols. induction cols as [|col rest IH]; intros vs c v H Hin.
  - inversion H; subst. destruct Hin.
  - cbn [dynamic_values] in H.
    destruct (Py.mem col reserved_names) eqn:Hres.
    { destruct (IH vs c v H Hin) as (Hc & Hrest). split; [now right | exact Hrest]. }
    set (value := Py.strip (form_get_default f col EmptyString)) in *.
    set (col_type := match dict_get info col with
                     | Some i => column_type i | None => "text" end) in *.
    set (col_options := match dict_get info col with
                        | Some i => options i | None => [] end) in *.
    match type of H with
    | match ?chk with _ => _ end = _ => destruct chk as [e|v0] eqn:Hchk
    end; [discriminate|].
    destruct (dynamic_values info f rest) as [e|vs0] eqn:Hrest; [discriminate|].
    inversion H; subst vs; clear H.
    destruct Hin as [Heq|Hin].
    2:{ destruct (IH vs0 c v eq_refl Hin) as (Hc & Hr). split; [now right | exact Hr]. }
    inversion Heq; subst c v; clear Heq.
    split; [now left|]. split; [now apply mem_not_In|].
    cbv zeta. fold value.
    unfold col_type, col_options in Hchk.
    destruct (dict_get info col) as [i|].
    2:{ cbn in Hchk. congruence. }
    destruct (String.eqb (column_type i) "number") eqn:Hn.
    + apply String.eqb_eq in Hn. split; [|split].
      * intros _. destruct (Py.truthy value) eqn:Hv.
        -- destruct (Py.float_of_string value) as [x|]; [|discriminate].
           right. exists x. split; [reflexivity | congruence].
        -- left. apply truthy_false in Hv. split; congruence.
      * intros Hs. rewrite Hs in Hn. discriminate.
      * intros Hnot. contradiction.
    + apply String.eqb_neq in Hn.
      destruct (String.eqb (column_type i) "select") eqn:Hs.
      * apply String.eqb_eq in Hs. split; [|split].
        -- intros Hnum. contradiction.
        -- intros _. destruct (Py.truthy value) eqn:Hv.
           ++ destruct (in_options value (options i)); cbn in Hchk;
                [|discriminate]. split; [congruence | now right].
           ++ cbn in Hchk. apply truthy_false in Hv.
              split; [congruence | now left].
        -- intros _ Hnot. contradiction.
      * apply String.eqb_neq in Hs. split; [|split].
        -- intros Hnum. contradiction.
        -- intros Hsel. contradiction.
        -- intros _ _. congruence.
Qed.

(** ** Editing a product *)

Lemma dynamic_values_keys (info : list (string * col_info)) (f : form)
    (cols : list string) (vs : list (string * sqlval)) :
  dynamic_values info f cols = inr vs ->
  forall k v, In (k, v) vs -> In k cols /\ ~ In k reserved_names.
Proof using.
  clear foreign_keys column_token rowid_of_value.
  revert vs. induction cols as [|col rest IH]; intros vs H k v Hin.
  - inversion H; subst. destruct Hin.
  - cbn [dynamic_values] in H.
    destruct (Py.mem col reserved_names) eqn:Hres.
    { destruct (IH vs H k v Hin) as [Hc Hr]. split; [now right | exact Hr]. }
    match type of H with
    | match ?chk with _ => _ end = _ => destruct chk as [e|v0]
    end; [discriminate|].
    destruct (dynamic_values info f rest) as [e|vs0]; [discriminate|].
    inversion H; subst vs; clear H.
    destruct Hin as [Heq|Hin].
    + inversion Heq; subst. split; [now left | now apply mem_not_In].
    + destruct (IH vs0 eq_refl k v Hin) as [Hc Hr]. split; [now right | exact Hr].
Qed.

Lemma assigned_none (name : string) (a : list (string * sqlval)) :
  (forall k v, In (k, v) a -> Sql.name_eqb k name = false) ->
  Sql.assigned name a = None.
Proof using.
  clear foreign_keys column_token rowid_of_value.
  induction a as [|[k v] a IH]; intros H; [reflexivity|].
  cbn [Sql.assigned]. rewrite (H k v (or_introl eq_refl)).
  apply IH. intros k' v' Hin. apply (H k' v'). now right.
Qed.





(** ** Internal ids *)

Section RowidsOnly.
Variable Q : list Z -> Z -> Prop.

Lemma on_rowids_same (st st' : store) :
  map p_rowid (products st') = map p_rowid (products st) ->
  products_seq st' = products_seq st ->
  on_rowids Q st -> on_rowids Q st'.
Proof. unfold on_rowids. now intros -> ->. Qed.

Lemma on_rowids_alter_add_column (name : string) :
  preserves_ (on_rowids Q) (alter_add_column column_token name).
Proof.
  intros st st' HQ H. apply alter_add_column_frame in H.
  apply (on_rowids_same st); tauto.
Qed.

Lemma on_rowids_alter_rename_column (old new : string) :
  preserves_ (on_rowids Q) (alter_rename_column column_token old new).
Proof.
  intros st st' HQ H. apply alter_rename_column_frame in H.
  destruct H as (_ & Hp & Hs & _).
  apply (on_rowids_same st); [now rewrite Hp | exact Hs | exact HQ].
Qed.

Lemma on_rowids_insert_or_ignore (name type : string) (opts : option string) :
  preserves_ (on_rowids Q)
    (fun w => Done (insert_or_ignore_stock_column name type opts w)).
Proof.
  intros st st' HQ H. inversion H.
  destruct (insert_or_ignore_stock_column_frame name type opts st)
    as (_ & Hp & Hs & _).
  apply (on_rowids_same st); [now rewrite Hp | exact Hs | exact HQ].
Qed.

Lemma on_rowids_insert_or_replace_visibility (user_id : Z) (name : string) (b : bool) :
  preserves_ (on_rowids Q) (insert_or_replace_visibility user_id name b).
Proof.
  intros st st' HQ H. apply insert_or_replace_visibility_frame in H.
  destruct H as (_ & Hp & Hs & _).
  apply (on_rowids_same st); [now rewrite Hp | exact Hs | exact HQ].
Qed.

Lemma on_rowids_update_stock_column_name (new old : string) :
  preserves_ (on_rowids Q) (update_stock_column_name new old).
Proof.
  intros st st' HQ H. apply update_stock_column_name_frame in H.
  destruct H as (_ & Hp & Hs & _).
  apply (on_rowids_same st); [now rewrite Hp | exact Hs | exact HQ].
Qed.

Lemma on_rowids_update_visibility_name (new old : string) (user_id : Z) :
  preserves_ (on_rowids Q) (update_visibility_name new old user_id).
Proof.
  intros st st' HQ H. apply update_visibility_name_frame in H.
  destruct H as (_ & Hp & Hs & _).
  apply (on_rowids_same st); [now rewrite Hp | exact Hs | exact HQ].
Qed.

Lemma on_rowids_update_stock_column_options (opts name : string) :
  preserves_ (on_rowids Q)
    (fun w => Done (update_stock_column_options opts name w)).
Proof. intros st st' HQ H. inversion H. exact HQ. Qed.

Lemma on_rowids_update_product_row (a : list (string * sqlval)) (id : Z) :
  preserves (on_rowids Q) (update_product_row a id).
Proof.
  intros st st' n HQ H. apply update_product_row_frame in H.
  apply (on_rowids_same st); tauto.
Qed.

Lemma on_rowids_insert_inventory (product_id quantity : Z) (location now : string) :
  preserves_ (on_rowids Q)
    (insert_inventory foreign_keys product_id quantity location now).
Proof.
  intros st st' HQ H. apply insert_inventory_done in H.
  destruct H as (_ & id & ->). exact HQ.
Qed.

Lemma on_rowids_insert_or_replace_inventory
    (product_id quantity : Z) (location now : string) :
  preserves_ (on_rowids Q)
    (insert_or_replace_inventory foreign_keys product_id quantity location now).
Proof.
  intros st st' HQ H. apply insert_or_replace_inventory_done in H.
  destruct H as (id & ->). exact HQ.
Qed.

Lemma on_rowids_update_inventory_row
    (quantity : Z) (location now : string) (inventory_id product_id : Z) :
  preserves (on_rowids Q)
    (update_inventory_row quantity location now inventory_id product_id).
Proof.
  intros st st' n HQ H. apply update_inventory_row_done in H.
  destruct H as (_ & ->). exact HQ.
Qed.

Lemma on_rowids_delete_inventory_row (inventory_id : Z) :
  preserves_ (on_rowids Q) (delete_inventory_row inventory_id).
Proof.
  intros st st' HQ H. apply delete_inventory_row_done in H. subst st'. exact HQ.
Qed.

End RowidsOnly.

(** What INSERT does to the ids: the new id is not in the table, the
    sequence becomes the larger of itself and the new id, and an id that
    SQLite chooses is one more than the largest the table ever held. *)
Lemma insert_product_rowid (a : list (string * sqlval)) (st st1 : store) (id : Z) :
  insert_product rowid_of_value a st = Done (st1, id) ->
  map p_rowid (products st1) = (map p_rowid (products st) ++ [id])%list
  /\ products_seq st1 = Z.max (products_seq st) id
  /\ ~ In id (map p_rowid (products st))
  /\ (Sql.assigned (pk_name st) a = None ->
      id = Sql.next_rowid (products_seq st) (map p_rowid (products st))).
Proof.
  unfold insert_product. intros H.
  destruct (negb (forallb _ a)); [discriminate|].
  destruct (negb (forallb _ a)); [discriminate|].
  destruct (existsb _ (combine _ _)); [discriminate|].
  set (auto := Sql.next_rowid (products_seq st) (map p_rowid (products st))) in *.
  assert (Hauto : ~ In auto (map p_rowid (products st))).
  { intros Hin. unfold auto, Sql.next_rowid in Hin.
    destruct (fold_max_ge (map p_rowid (products st)) (products_seq st)) as [_ Hall].
    rewrite Forall_forall in Hall. specialize (Hall _ Hin). lia. }
  match type of H with
  | match ?ch with _ => _ end = _ => destruct ch as [z|] eqn:Hch
  end; [|discriminate].
  inversion H; subst st1 id; clear H.
  cbn [products products_seq]. rewrite map_app. cbn [map p_rowid].
  split; [reflexivity|]. split; [reflexivity|]. split.
  - destruct (Sql.assigned (pk_name st) a) as [v|].
    + destruct v; try (inversion Hch; subst; exact Hauto).
      all: destruct (rowid_of_value _) as [z'|]; [|discriminate].
      all: destruct (existsb _ (products st)) eqn:Hex; [discriminate|].
      all: inversion Hch; subst z'.
      all: rewrite existsb_false_iff in Hex.
      all: intros Hin; apply in_map_iff in Hin; destruct Hin as (p & Hp & Hin).
      all: specialize (Hex p Hin); rewrite Hp, Z.eqb_refl in Hex; discriminate.
    + inversion Hch; subst; exact Hauto.
  - intros Hnone. rewrite Hnone in Hch. now inversion Hch.
Qed.

Lemma rowids_insert_product (a : list (string * sqlval)) :
  preserves rowids_ok (insert_product rowid_of_value a).
Proof.
  intros st st' id [Hnd Hall] H. apply insert_product_rowid in H.
  destruct H as (Hids & Hseq & Hfresh & _).
  unfold rowids_ok, on_rowids. rewrite Hids, Hseq. split.
  - apply NoDup_app; [assumption | constructor; [intros [] | constructor] |].
    intros x Hx [<-|[]]. contradiction.
  - apply Forall_app. split.
    + eapply Forall_impl; [|exact Hall]. cbn. intros; lia.
    + constructor; [lia | constructor].
Qed.

Lemma rowids_delete_product_row (id : Z) :
  preserves rowids_ok (delete_product_row foreign_keys id).
Proof.
  intros st st' n [Hnd Hall] H. apply delete_product_row_frame in H.
  destruct H as (_ & Hp & Hs & _).
  unfold rowids_ok, on_rowids. rewrite Hp, Hs. split.
  - now apply NoDup_map_filter.
  - rewrite Forall_forall in *. intros z Hz. apply Hall.
    apply in_map_iff in Hz. destruct Hz as (p & <- & Hin).
    apply filter_In in Hin. apply in_map. tauto.
Qed.

Ltac rowids_frame_tac :=
  first [ apply on_rowids_alter_add_column
        | apply on_rowids_alter_rename_column
        | apply on_rowids_insert_or_ignore
        | apply on_rowids_insert_or_replace_visibility
        | apply on_rowids_update_stock_column_name
        | apply on_rowids_update_visibility_name
        | apply on_rowids_update_stock_column_options
        | apply on_rowids_update_product_row
        | apply on_rowids_insert_inventory
        | apply on_rowids_insert_or_replace_inventory
        | apply on_rowids_update_inventory_row
        | apply on_rowids_delete_inventory_row ].

Ltac rowids_tac :=
  first [ rowids_frame_tac
        | apply rowids_insert_product
        | apply rowids_delete_product_row ].

Lemma handle_rowids (r : request) (st : store) :
  rowids_ok st ->
  rowids_ok (fst (handle foreign_keys column_token rowid_of_value r st)).
Proof.
  intros HQ. unfold rowids_ok in *. destruct r; cbn [handle].
  - unfold add_column. keeps_by rowids_tac.
  - unfold rename_column. keeps_by rowids_tac.
  - unfold update_column_options. keeps_by rowids_tac.
  - unfold toggle_column_visibility. keeps_by rowids_tac.
  - unfold add_product. keeps_by rowids_tac.
  - unfold update_product. keeps_by rowids_tac.
  - unfold delete_product. keeps_by rowids_tac.
  - unfold update_inventory. keeps_by rowids_tac.
  - unfold delete_inventory_entry. keeps_by rowids_tac.
Qed.

Lemma reachable_rowids (st : store) :
  reachable foreign_keys column_token rowid_of_value st -> rowids_ok st.
Proof.
  apply (reachable_ind rowids_ok); [|apply handle_rowids].
  split; cbn; constructor.
Qed.

Lemma seq_insert_product (s0 : Z) (a : list (string * sqlval)) :
  preserves (seq_from s0) (insert_product rowid_of_value a).
Proof.
  intros st st' id HQ H. apply insert_product_rowid in H.
  destruct H as (_ & Hseq & _). unfold seq_from, on_rowids in *. lia.
Qed.

Lemma seq_delete_product_row (s0 : Z) (id : Z) :
  preserves (seq_from s0) (delete_product_row foreign_keys id).
Proof.
  intros st st' n HQ H. apply delete_product_row_frame in H.
  destruct H as (_ & _ & Hs & _). unfold seq_from, on_rowids in *. lia.
Qed.

Ltac seq_tac :=
  first [ rowids_frame_tac
        | apply seq_insert_product
        | apply seq_delete_product_row ].

Lemma handle_seq (s0 : Z) (r : request) (st : store) :
  seq_from s0 st ->
  seq_from s0 (fst (handle foreign_keys column_token rowid_of_value r st)).
Proof.
  intros HQ. unfold seq_from in *. destruct r; cbn [handle].
  - unfold add_column. keeps_by seq_tac.
  - unfold rename_column. keeps_by seq_tac.
  - unfold update_column_options. keeps_by seq_tac.
  - unfold toggle_column_visibility. keeps_by seq_tac.
  - unfold add_product. keeps_by seq_tac.
  - unfold update_product. keeps_by seq_tac.
  - unfold delete_product. keeps_by seq_tac.
  - unfold update_inventory. keeps_by seq_tac.
  - unfold delete_inventory_entry. keeps_by seq_tac.
Qed.

Lemma fold_max_bounded (ids : list Z) (seq : Z) :
  Forall (fun z => (z <= seq)%Z) ids -> fold_left Z.max ids seq = seq.
Proof using.
  clear foreign_keys column_token rowid_of_value.
  induction 1 as [|z ids Hz _ IH]; cbn; [reflexivity|].
  now replace (Z.max seq z) with seq by lia.
Qed.

(** X8. The internal id of a product is never given twice. In every store
    requests can produce from a new store file the ids are pairwise
    different and none lies above the sequence of the table; no request
    lowers the sequence; and while the id column is named [id] a product
    [add_product] creates takes the id one above the sequence, so above
    every id a product of the store has or had, deleted ones included. *)
Theorem internal_ids_are_never_reused :
  (forall st, reachable foreign_keys column_token rowid_of_value st ->
      NoDup (map p_rowid (products st))
      /\ Forall (fun p => (p_rowid p <= products_seq st)%Z) (products st))
  /\ (forall (r : request) (st : store),
         (products_seq st
          <= products_seq (fst (handle foreign_keys column_token rowid_of_value r st)))%Z)
  /\ (forall (f : form) (now : string) (st st' : store),
         reachable foreign_keys column_token rowid_of_value st ->
         pk_name st = "id" ->
         add_product foreign_keys rowid_of_value f now st = (st', ProductAdded) ->
         products_seq st' = (products_seq st + 1)%Z
         /\ exists cells,
              products st'
              = (products st ++ [mkProduct (products_seq st + 1) cells])%list).
Proof.
  split; [|split].
  - intros st Hreach. destruct (reachable_rowids st Hreach) as [Hnd Hall].
    split; [exact Hnd|]. rewrite Forall_forall in *. intros p Hp.
    apply Hall. now apply in_map.
  - intros r st. apply (handle_seq (products_seq st) r st).
    unfold seq_from, on_rowids. lia.
  - intros f now st st' Hreach Hpk H.
    apply add_product_added in H.
    destruct H as (cells & m & price & dyn & st1 & pid & _ & _ & _ & _ & Hdyn & Hp & Hi).
    pose proof (insert_product_rowid _ _ _ _ Hp) as (_ & Hseq & _ & Hauto).
    pose proof (insert_product_done _ _ _ _ Hp) as (_ & _ & Hprod & _).
    apply insert_inventory_done in Hi. destruct Hi as (_ & iid & ->).
    cbn [with_inventory products products_seq].
    destruct (reachable_rowids st Hreach) as [_ Hall].
    assert (Hid : pid = (products_seq st + 1)%Z).
    { rewrite Hauto.
      - unfold Sql.next_rowid. now rewrite (fold_max_bounded _ _ Hall).
      - rewrite Hpk. apply assigned_none. intros k v Hin.
        destruct Hin as [Heq|[Heq|[Heq|Hin]]];
          try (inversion Heq; subst k; reflexivity).
        destruct (dynamic_values_keys _ _ _ _ Hdyn k v Hin) as [Hcol Hres].
        destruct (reachable_schema st Hreach) as [_ Hlow].
        rewrite Forall_forall in Hlow.
        rewrite (name_eqb_lowercase k "id" (Hlow k Hcol) eq_refl).
        apply String.eqb_neq. intros ->. apply Hres. cbn. tauto. }
    subst pid. split; [rewrite Hseq; lia|].
    eexists. exact Hprod.
Qed.

(** ** Visibility preferences *)

Lemma find_filter {A : Type} (q p : A -> bool) (l : list A) :
  find q (filter p l) = find (fun x => p x && q x) l.
Proof using.
  clear foreign_keys column_token rowid_of_value.
  induction l as [|a l IH]; cbn; [reflexivity|].
  destruct (p a); cbn; [|exact IH].
  destruct (q a); [reflexivity | exact IH].
Qed.

Lemma find_map {A B : Type} (q : B -> bool) (g : A -> B) (l : list A) :
  find q (map g l) = option_map g (find (fun x => q (g x)) l).
Proof using.
  clear foreign_keys column_token rowid_of_value.
  induction l as [|a l IH]; cbn; [reflexivity|].
  destruct (q (g a)); [reflexivity | exact IH].
Qed.

Lemma find_ext_in {A : Type} (p q : A -> bool) (l : list A) :
  (forall x, In x l -> p x = q x) -> find p l = find q l.
Proof using.
  clear foreign_keys column_token rowid_of_value.
  induction l as [|a l IH]; cbn; intros H; [reflexivity|].
  rewrite <- (H a (or_introl eq_refl)).
  destruct (p a); [reflexivity|]. apply IH. intros x Hx. apply H. now right.
Qed.

Lemma find_none {A : Type} (p : A -> bool) (l : list A) :
  (forall x, In x l -> p x = false) -> find p l = None.
Proof using.
  clear foreign_keys column_token rowid_of_value.
  induction l as [|a l IH]; cbn; intros H; [reflexivity|].
  rewrite (H a (or_introl eq_refl)). apply IH. intros x Hx. apply H. now right.
Qed.

Lemma filter_rev {A : Type} (p : A -> bool) (l : list A) :
  rev (filter p l) = filter p (rev l).
Proof using.
  clear foreign_keys column_token rowid_of_value.
  induction l as [|a l IH]; cbn; [reflexivity|].
  rewrite filter_app. cbn. destruct (p a); cbn; rewrite IH;
    [reflexivity | now rewrite app_nil_r].
Qed.

(** The preference of a user for a column is the flag of the last row of
    the user that names the column. *)
Lemma preference_lookup (user_id : Z) (st : store) (k : string) :
  dict_get (column_visibility_preferences user_id st) k
  = option_map v_visible
      (find (fun r => (v_user_id r =? user_id)%Z && String.eqb (v_name r) k)
            (rev (visibility st))).
Proof using.
  clear foreign_keys column_token rowid_of_value.
  unfold dict_get, column_visibility_preferences.
  rewrite <- map_rev, filter_rev, find_map, find_filter. cbn [fst].
  destruct (find _ (rev (visibility st))); reflexivity.
Qed.

Lemma toggle_column_visibility_set (user_id : Z) (f : form) (st st' : store) :
  toggle_column_visibility user_id f st = (st', VisibilitySet) ->
  exists column_name,
    form_get f "column_name" = Some column_name
    /\ column_name <> EmptyString
    /\ ~ In column_name reserved_names
    /\ insert_or_replace_visibility user_id column_name
         (match form_get f "is_visible" with
          | Some v => String.eqb v "true"
          | None => false
          end) st = Done st'.
Proof using.
  clear foreign_keys column_token rowid_of_value.
  unfold toggle_column_visibility. cbv zeta. intros H.
  destruct (form_get f "column_name") as [c|]; [|discriminate].
  destruct (negb (Py.truthy c)) eqn:Hc; [discriminate|].
  destruct (Py.mem c reserved_names) eqn:Hres; [discriminate|].
  destruct (dml_ _ _) as [db1| | |] eqn:Hd; try discriminate.
  apply dml__done in Hd. destruct Hd as (w & Hw & ->).
  cbn [connect working commit close committed] in *. inversion H; subst.
  exists c. repeat split; try assumption.
  - apply negb_false_iff in Hc. now apply truthy_true.
  - now apply mem_not_In.
Qed.

Lemma insert_or_replace_visibility_rows (user_id : Z) (name : string) (b : bool)
    (st st' : store) :
  insert_or_replace_visibility user_id name b st = Done st' ->
  exists id,
    visibility st'
    = (filter (fun r => negb (String.eqb (v_name r) name)) (visibility st)
       ++ [mkVis id user_id name b])%list.
Proof using.
  clear foreign_keys column_token rowid_of_value.
  unfold insert_or_replace_visibility. intros H.
  destruct (negb (Sql.fits_int64 user_id)); [discriminate|].
  inversion H; subst. cbn. eauto.
Qed.

(** X9. A visibility preference is kept per column, not per user and
    column. After [toggle_column_visibility] has answered that the
    preference is set, the requesting user's preference for the column is
    the requested flag (visible only for the text [true]), no other user
    has a preference for that column any more, and the preferences for the
    other columns are those of before, for every user; products, columns,
    inventory and definitions are untouched. *)
Theorem visibility_preference_is_per_column :
  forall (user_id : Z) (f : form) (st st' : store) (column_name : string),
    toggle_column_visibility user_id f st = (st', VisibilitySet) ->
    form_get f "column_name" = Some column_name ->
    let is_visible :=
      match form_get f "is_visible" with
      | Some v => String.eqb v "true"
      | None => false
      end in
    dict_get (column_visibility_preferences user_id st') column_name
    = Some is_visible
    /\ (forall other, other <> user_id ->
          dict_get (column_visibility_preferences other st') column_name = None)
    /\ (forall user c, c <> column_name ->
          dict_get (column_visibility_preferences user st') c
          = dict_get (column_visibility_preferences user st) c)
    /\ Sql.table_info st' = Sql.table_info st
    /\ products st' = products st
    /\ inventory st' = inventory st
    /\ stock_columns st' = stock_columns st.
Proof using.
  clear foreign_keys column_token rowid_of_value.
  intros user_id f st st' column_name H Hname is_visible.
  apply toggle_column_visibility_set in H.
  destruct H as (c & Hc & _ & _ & Hins).
  rewrite Hname in Hc. inversion Hc; subst c; clear Hc. fold is_visible in Hins.
  pose proof (insert_or_replace_visibility_frame _ _ _ _ _ Hins)
    as (Hinfo & Hprod & _ & Hinv & Hdefs).
  apply insert_or_replace_visibility_rows in Hins. destruct Hins as (id & Hrows).
  repeat split; try assumption.
  - rewrite preference_lookup, Hrows, rev_unit. cbn [find v_user_id v_name].
    now rewrite Z.eqb_refl, String.eqb_refl.
  - intros other Hother. rewrite preference_lookup, Hrows, rev_unit.
    cbn [find v_user_id v_name].
    apply Z.eqb_neq in Hother. rewrite Z.eqb_sym in Hother. rewrite Hother.
    cbn [andb]. rewrite filter_rev, find_filter, find_none; [reflexivity|].
    intros r _. destruct (String.eqb (v_name r) column_name);
      cbn; [reflexivity | now rewrite andb_false_r].
  - intros user c Hne. rewrite !preference_lookup, Hrows, rev_unit.
    cbn [find v_user_id v_name].
    assert (Hcn : String.eqb column_name c = false).
    { apply String.eqb_neq. congruence. }
    rewrite Hcn, andb_false_r, filter_rev, find_filter.
    f_equal. apply find_ext_in. intros r _.
    destruct (String.eqb_spec (v_name r) c) as [Hr|Hr].
    + rewrite Hr. apply String.eqb_neq in Hne. rewrite Hne. reflexivity.
    + now rewrite andb_false_r, andb_false_r.
Qed.

(** ** The exported columns *)

Lemma export_loop (prefs : list (string * bool)) (l acc : list string) :
  let step := fun columns_to_export col_name =>
    if Py.mem col_name columns_to_export then columns_to_export
    else if preference prefs col_name
         then (columns_to_export ++ [col_name])%list
         else columns_to_export in
  let r := fold_left step l acc in
  (NoDup acc -> NoDup r)
  /\ (exists rest, r = (acc ++ rest)%list)
  /\ (forall c, In c r <-> In c acc \/ (In c l /\ preference prefs c = true)).
Proof using.
  clear foreign_keys column_token rowid_of_value.
  cbv zeta. revert acc. induction l as [|col l IH]; intros acc; cbn [fold_left].
  - split; [auto|]. split; [exists []; now rewrite app_nil_r|].
    intros c. cbn. tauto.
  - destruct (Py.mem col acc) eqn:Hmem.
    + destruct (IH acc) as (Hnd & Hpre & Hin).
      split; [exact Hnd|]. split; [exact Hpre|].
      intros c. rewrite Hin. apply mem_In in Hmem. cbn [In].
      split; [tauto|]. intros [H|[[<-|H] Hp]]; auto.
    + apply mem_not_In in Hmem.
      destruct (preference prefs col) eqn:Hp.
      * destruct (IH (acc ++ [col])%list) as (Hnd & (rest & Hpre) & Hin).
        split; [|split].
        -- intros Hacc. apply Hnd. apply NoDup_app; [assumption | | ].
           ++ constructor; [intros [] | constructor].
           ++ intros x Hx [<-|[]]. contradiction.
        -- exists (col :: rest). rewrite Hpre, <- app_assoc. reflexivity.
        -- intros c. rewrite Hin, in_app_iff. cbn [In].
           split.
           ++ intros [[H|[<-|[]]]|[H1 H2]]; auto.
           ++ intros [H|[[<-|H] H2]]; auto.
      * destruct (IH acc) as (Hnd & Hpre & Hin).
        split; [exact Hnd|]. split; [exact Hpre|].
        intros c. rewrite Hin. cbn [In].
        split; [tauto|]. intros [H|[[<-|H] H2]]; auto. congruence.
Qed.

(** X10. The columns [export_excel] selects: no column twice; first the
    fixed columns the table has, in the order id, user_product_id, name,
    price, whatever their place in the table and whatever the preferences
    say; and a column is exported exactly when it is a product column and
    either one of the four fixed names or not hidden by a preference of
    the user (a column without a preference, or without a definition, is
    exported). *)
Theorem exported_columns :
  forall (user_id : Z) (st : store),
    NoDup (columns_to_export user_id st)
    /\ (exists rest,
          columns_to_export user_id st
          = (filter (fun c => Py.mem c (Sql.table_info st))
                    ["id"; "user_product_id"; "name"; "price"] ++ rest)%list)
    /\ (forall c,
          In c (columns_to_export user_id st)
          <-> In c (Sql.table_info st)
              /\ (In c reserved_names
                  \/ preference (column_visibility_preferences user_id st) c = true)).
Proof using.
  clear foreign_keys column_token rowid_of_value.
  intros user_id st. unfold columns_to_export. cbv zeta.
  destruct (export_loop (column_visibility_preferences user_id st)
              (Sql.table_info st)
              (filter (fun c => Py.mem c (Sql.table_info st))
                      ["id"; "user_product_id"; "name"; "price"]))
    as (Hnd & Hpre & Hin).
  split; [|split; [exact Hpre|]].
  - apply Hnd. apply NoDup_filter.
    repeat constructor; cbn; intuition discriminate.
  - intros c. rewrite Hin, filter_In, mem_In. cbn [In reserved_names]. tauto.
Qed.

(** ** A new attribute in the listing and in the export *)

Lemma find_some_of_In {A : Type} (p : A -> bool) (l : list A) (x : A) :
  In x l -> p x = true -> exists y, find p l = Some y.
Proof using.
  clear foreign_keys column_token rowid_of_value.
  induction l as [|a l IH]; cbn; [tauto|].
  intros [<-|Hin] Hp.
  - rewrite Hp. eauto.
  - destruct (p a); [eauto | now apply IH].
Qed.

Lemma dict_get_of_key {V : Type} (d : list (string * V)) (k : string) :
  In k (map fst d) -> exists v, dict_get d k = Some v.
Proof using.
  clear foreign_keys column_token rowid_of_value.
  intros Hin. apply in_map_iff in Hin. destruct Hin as ([k' v] & Hk & Hin).
  cbn in Hk. subst k'. unfold dict_get.
  destruct (find_some_of_In (fun e => String.eqb (fst e) k) (rev d) (k, v))
    as (y & Hy).
  - now apply in_rev in Hin.
  - cbn. apply String.eqb_refl.
  - rewrite Hy. cbn. eauto.
Qed.

Lemma dict_get_snoc {V : Type} (d : list (string * V)) (k k' : string) (v : V) :
  dict_get (d ++ [(k', v)]) k
  = if String.eqb k' k then Some v else dict_get d k.
Proof using.
  clear foreign_keys column_token rowid_of_value.
  unfold dict_get. rewrite rev_unit. cbn [find fst].
  destruct (String.eqb k' k); reflexivity.
Qed.

(** The defaults [stok_listesi] adds never replace a preference. *)
Lemma preferences_with_defaults {V : Type} (cols : list (string * V))
    (prefs : list (string * bool)) (k : string) (b : bool) :
  dict_get prefs k = Some b ->
  dict_get
    (fold_left
       (fun prefs col_info =>
          match dict_get prefs (fst col_info) with
          | Some _ => prefs
          | None => (prefs ++ [(fst col_info, true)])%list
          end) cols prefs) k = Some b.
Proof using.
  clear foreign_keys column_token rowid_of_value.
  revert prefs. induction cols as [|c cols IH]; intros prefs H; [exact H|].
  cbn [fold_left]. apply IH.
  destruct (dict_get prefs (fst c)) eqn:Hc; [exact H|].
  rewrite dict_get_snoc.
  destruct (String.eqb_spec (fst c) k) as [Heq|_]; [congruence | exact H].
Qed.

Lemma columns_for_form_In (st : store) (name : string) :
  In name (Sql.table_info st) ->
  ~ In name reserved_names ->
  In name (map sc_name (stock_columns st)) ->
  In name (map fst (columns_for_form st)).
Proof using.
  clear foreign_keys column_token rowid_of_value.
  intros Hcol Hres Hdef. unfold columns_for_form. cbv zeta.
  apply in_map_iff.
  destruct (dict_get_of_key
              (dynamic_columns_info stok_listesi_options (stock_columns st)) name)
    as (i & Hi).
  { unfold dynamic_columns_info. rewrite map_map. cbn [fst]. exact Hdef. }
  exists (name, i). split; [reflexivity|].
  apply in_flat_map. exists name. split; [exact Hcol|].
  assert (Hid : String.eqb name "id" = false).
  { apply String.eqb_neq. intros ->. apply Hres. cbn. tauto. }
  rewrite Hid.
  assert (Hfix : dict_get fixed_columns_meta name = None).
  { unfold dict_get, fixed_columns_meta. cbn [rev app find fst].
    repeat match goal with
           | |- context [String.eqb ?a name] =>
               destruct (String.eqb_spec a name) as [<-|_];
               [exfalso; apply Hres; cbn; tauto|]
           end.
    reflexivity. }
  rewrite Hfix, Hi. now left.
Qed.

Lemma add_column_name_ok (user_id : Z) (f : form) (st st' : store) (raw : string) :
  add_column column_token user_id f st = (st', AttributeAdded) ->
  form_get f "new_column" = Some raw ->
  ~ In (sanitize (Py.strip raw)) reserved_names.
Proof.
  unfold add_column. cbv zeta. intros H Hraw. rewrite Hraw in H.
  destruct (negb (Py.truthy (Py.strip raw))); [discriminate|].
  destruct (Py.mem (sanitize (Py.strip raw)) reserved_names) eqn:Hres.
  - rewrite orb_true_r in H. discriminate.
  - now apply mem_not_In.
Qed.

(** X11. An attribute [add_column] has added is there for the user who
    added it: it is among the columns [stok_listesi] lists, the
    preferences [stok_listesi] hands out mark it visible, and
    [export_excel] exports it. *)
Theorem new_attribute_is_listed_and_exported :
  forall (user_id : Z) (f : form) (st st' : store) (raw : string),
    add_column column_token user_id f st = (st', AttributeAdded) ->
    form_get f "new_column" = Some raw ->
    let name := sanitize (Py.strip raw) in
    In name (map fst (columns_for_form st'))
    /\ dict_get (stok_listesi_preferences user_id st') name = Some true
    /\ In name (columns_to_export user_id st').
Proof.
  intros user_id f st st' raw H Hraw name.
  pose proof (add_column_name_ok _ _ _ _ _ H Hraw) as Hnot. fold name in Hnot.
  apply add_column_added in H.
  destruct H as (raw' & st1 & options_json & Hraw' & H).
  rewrite Hraw in Hraw'. inversion Hraw'; subst raw'; clear Hraw'.
  cbv zeta in H. fold name in H.
  destruct H as (_ & _ & Halter & Hvis).
  pose proof (alter_add_column_frame _ _ _ Halter) as (Hinfo1 & _).
  set (st2 := insert_or_ignore_stock_column name
                (form_get_default f "column_type" "text") options_json st1) in *.
  destruct (insert_or_ignore_stock_column_frame name
              (form_get_default f "column_type" "text") options_json st1)
    as (Hinfo2 & _). fold st2 in Hinfo2.
  pose proof (insert_or_replace_visibility_frame _ _ _ _ _ Hvis)
    as (Hinfo3 & _ & _ & _ & Hdefs3).
  apply insert_or_replace_visibility_rows in Hvis. destruct Hvis as (id & Hrows).
  assert (Hcol : In name (Sql.table_info st')).
  { rewrite Hinfo3, Hinfo2, Hinfo1. apply in_app_iff. right. now left. }
  assert (Hdef : In name (map sc_name (stock_columns st'))).
  { rewrite Hdefs3. unfold st2, insert_or_ignore_stock_column.
    destruct (existsb _ (stock_columns st1)) eqn:Hex.
    - apply existsb_exists in Hex. destruct Hex as (d & Hd & Heq).
      apply String.eqb_eq in Heq. apply in_map_iff. eauto.
    - cbn [stock_columns]. rewrite map_app. apply in_app_iff. right. now left. }
  assert (Hpref : dict_get (column_visibility_preferences user_id st') name
                  = Some true).
  { rewrite preference_lookup, Hrows, rev_unit. cbn [find v_user_id v_name].
    now rewrite Z.eqb_refl, String.eqb_refl. }
  split; [|split].
  - now apply columns_for_form_In.
  - unfold stok_listesi_preferences. now apply preferences_with_defaults.
  - unfold columns_to_export. cbv zeta.
    destruct (export_loop (column_visibility_preferences user_id st')
                (Sql.table_info st')
                (filter (fun c => Py.mem c (Sql.table_info st'))
                        ["id"; "user_product_id"; "name"; "price"]))
      as (_ & _ & Hin).
    apply Hin. right. split; [exact Hcol|].
    unfold preference. now rewrite Hpref.
Qed.

(** ** Attribute definitions *)

Section DefsOnly.
Variable Q : list col_def -> Prop.

Lemma on_defs_alter_add_column (name : string) :
  preserves_ (on_defs Q) (alter_add_column column_token name).
Proof.
  intros st st' HQ H. apply alter_add_column_frame in H.
  destruct H as (_ & _ & _ & _ & Hd & _). unfold on_defs. now rewrite Hd.
Qed.

Lemma on_defs_alter_rename_column (old new : string) :
  preserves_ (on_defs Q) (alter_rename_column column_token old new).
Proof.
  intros st st' HQ H. apply alter_rename_column_frame in H.
  destruct H as (_ & _ & _ & _ & Hd & _). unfold on_defs. now rewrite Hd.
Qed.

Lemma on_defs_insert_or_replace_visibility (user_id : Z) (name : string) (b : bool) :
  preserves_ (on_defs Q) (insert_or_replace_visibility user_id name b).
Proof.
  intros st st' HQ H. apply insert_or_replace_visibility_frame in H.
  destruct H as (_ & _ & _ & _ & Hd). unfold on_defs. now rewrite Hd.
Qed.

Lemma on_defs_update_visibility_name (new old : string) (user_id : Z) :
  preserves_ (on_defs Q) (update_visibility_name new old user_id).
Proof.
  intros st st' HQ H. apply update_visibility_name_frame in H.
  destruct H as (_ & _ & _ & _ & Hd). unfold on_defs. now rewrite Hd.
Qed.

Lemma on_defs_insert_product (a : list (string * sqlval)) :
  preserves (on_defs Q) (insert_product rowid_of_value a).
Proof.
  intros st st' id HQ H. apply insert_product_frame in H.
  destruct H as (_ & _ & Hd & _). unfold on_defs. now rewrite Hd.
Qed.

Lemma on_defs_update_product_row (a : list (string * sqlval)) (id : Z) :
  preserves (on_defs Q) (update_product_row a id).
Proof.
  intros st st' n HQ H. apply update_product_row_frame in H.
  destruct H as (_ & _ & _ & _ & Hd & _). unfold on_defs. now rewrite Hd.
Qed.

Lemma on_defs_delete_product_row (id : Z) :
  preserves (on_defs Q) (delete_product_row foreign_keys id).
Proof.
  intros st st' n HQ H. apply delete_product_row_frame in H.
  destruct H as (_ & _ & _ & _ & _ & Hd & _). unfold on_defs. now rewrite Hd.
Qed.

Lemma on_defs_insert_inventory (product_id quantity : Z) (location now : string) :
  preserves_ (on_defs Q)
    (insert_inventory foreign_keys product_id quantity location now).
Proof.
  intros st st' HQ H. apply insert_inventory_done in H.
  destruct H as (_ & id & ->). exact HQ.
Qed.

Lemma on_defs_insert_or_replace_inventory
    (product_id quantity : Z) (location now : string) :
  preserves_ (on_defs Q)
    (insert_or_replace_inventory foreign_keys product_id quantity location now).
Proof.
  intros st st' HQ H. apply insert_or_replace_inventory_done in H.
  destruct H as (id & ->). exact HQ.
Qed.

Lemma on_defs_update_inventory_row
    (quantity : Z) (location now : string) (inventory_id product_id : Z) :
  preserves (on_defs Q)
    (update_inventory_row quantity location now inventory_id product_id).
Proof.
  intros st st' n HQ H. apply update_inventory_row_done in H.
  destruct H as (_ & ->). exact HQ.
Qed.

Lemma on_defs_delete_inventory_row (inventory_id : Z) :
  preserves_ (on_defs Q) (delete_inventory_row inventory_id).
Proof.
  intros st st' HQ H. apply delete_inventory_row_done in H. subst st'. exact HQ.
Qed.

End DefsOnly.

Lemma defs_insert_or_ignore (name type : string) (opts : option string) :
  Py.lower name = name -> written_options opts ->
  preserves_ definitions_ok
    (fun w => Done (insert_or_ignore_stock_column name type opts w)).
Proof using.
  clear foreign_keys column_token rowid_of_value.
  intros Hname Hopts st st' HQ H. inversion H; subst st'; clear H.
  unfold definitions_ok, on_defs, insert_or_ignore_stock_column in *.
  destruct (existsb _ (stock_columns st)); [exact HQ|].
  cbn [stock_columns]. apply Forall_app. split; [exact HQ|].
  constructor; [|constructor]. cbn. auto.
Qed.

Lemma defs_update_stock_column_name (new old : string) :
  Py.lower new = new ->
  preserves_ definitions_ok (update_stock_column_name new old).
Proof using.
  clear foreign_keys column_token rowid_of_value.
  intros Hnew st st' HQ H. apply update_stock_column_name_done in H.
  destruct H as (Hd & _).
  unfold definitions_ok, on_defs in *. rewrite Hd.
  rewrite Forall_forall in *. intros d Hin.
  apply in_map_iff in Hin. destruct Hin as (d0 & <- & Hin0).
  specialize (HQ d0 Hin0). unfold rename_def.
  destruct (String.eqb (sc_name d0) old); [cbn; tauto | exact HQ].
Qed.

Lemma defs_update_stock_column_options (tokens : list string) (name : string) :
  preserves_ definitions_ok
    (fun w => Done (update_stock_column_options (Json.dumps tokens) name w)).
Proof using.
  clear foreign_keys column_token rowid_of_value.
  intros st st' HQ H. inversion H; subst st'; clear H.
  unfold definitions_ok, on_defs, update_stock_column_options in *.
  cbn [stock_columns]. rewrite Forall_forall in *. intros d Hin.
  apply in_map_iff in Hin. destruct Hin as (d0 & <- & Hin0).
  specialize (HQ d0 Hin0).
  destruct (String.eqb (sc_name d0) name); [|exact HQ].
  cbn. split; [tauto|]. right. eexists. reflexivity.
Qed.

Ltac written_tac :=
  first [ now left
        | right; eexists; reflexivity
        | match goal with
          | H : _ = Some ?o |- written_options ?o =>
              repeat (destruct_match_in H; try discriminate);
              inversion H; first [now left | right; eexists; reflexivity]
          end ].

Ltac defs_tac :=
  first [ apply on_defs_alter_add_column
        | apply on_defs_alter_rename_column
        | apply on_defs_insert_or_replace_visibility
        | apply on_defs_update_visibility_name
        | apply on_defs_insert_product
        | apply on_defs_update_product_row
        | apply on_defs_delete_product_row
        | apply on_defs_insert_inventory
        | apply on_defs_insert_or_replace_inventory
        | apply on_defs_update_inventory_row
        | apply on_defs_delete_inventory_row
        | apply defs_insert_or_ignore; [apply lower_sanitize | written_tac]
        | apply defs_update_stock_column_name; apply lower_sanitize
        | apply defs_update_stock_column_options ].

Lemma handle_definitions (r : request) (st : store) :
  definitions_ok st ->
  definitions_ok (fst (handle foreign_keys column_token rowid_of_value r st)).
Proof.
  intros HQ. destruct r; cbn [handle].
  - unfold add_column. keeps_by defs_tac.
  - unfold rename_column. keeps_by defs_tac.
  - unfold update_column_options. keeps_by defs_tac.
  - unfold toggle_column_visibility. unfold definitions_ok in *. keeps_by defs_tac.
  - unfold add_product. unfold definitions_ok in *. keeps_by defs_tac.
  - unfold update_product. unfold definitions_ok in *. keeps_by defs_tac.
  - unfold delete_product. unfold definitions_ok in *. keeps_by defs_tac.
  - unfold update_inventory. unfold definitions_ok in *. keeps_by defs_tac.
  - unfold delete_inventory_entry. unfold definitions_ok in *. keeps_by defs_tac.
Qed.

Lemma reachable_definitions (st : store) :
  reachable foreign_keys column_token rowid_of_value st -> definitions_ok st.
Proof.
  apply (reachable_ind definitions_ok); [|apply handle_definitions].
  constructor.
Qed.

(** X12. The option texts in a store are the ones the handlers wrote: in
    every store requests can produce from a new store file, each
    definition has no option text or the serialization of a list of
    tokens, and the three decodings of the source ([stok_listesi],
    [add_product] and [update_product], [export_excel]) read it as the
    same list, those tokens; the lenient scan on which they differ is never
    reached. *)
Theorem stored_options_decode_alike :
  forall st, reachable foreign_keys column_token rowid_of_value st ->
    Forall (fun d =>
              exists tokens,
                (sc_options d = None /\ tokens = []
                 \/ sc_options d = Some (Json.dumps tokens))
                /\ stok_listesi_options (sc_options d) = map Json.of_string tokens
                /\ add_product_options (sc_options d) = map Json.of_string tokens
                /\ export_excel_options (sc_options d) = map Json.of_string tokens)
           (stock_columns st).
Proof.
  intros st Hreach. pose proof (reachable_definitions st Hreach) as Hok.
  unfold definitions_ok, on_defs in Hok.
  eapply Forall_impl; [|exact Hok]. cbn beta.
  intros d [_ [Hnone|(tokens & Hsome)]].
  - exists []. rewrite Hnone. repeat split; auto.
  - exists tokens. rewrite Hsome. split; [now right|].
    now rewrite stok_listesi_options_dumps, add_product_options_dumps,
      export_excel_options_dumps.
Qed.

Lemma columns_for_form_defined (st : store) (name : string) :
  In name (map fst (columns_for_form st)) ->
  In name (Sql.table_info st)
  /\ (In name reserved_names \/ In name (map sc_name (stock_columns st))).
Proof using.
  clear foreign_keys column_token rowid_of_value.
  unfold columns_for_form. cbv zeta. intros H.
  apply in_map_iff in H. destruct H as ([k i] & Hk & Hin). cbn in Hk. subst k.
  apply in_flat_map in Hin. destruct Hin as (col & Hcol & Hin).
  destruct (String.eqb col "id"); [destruct Hin|].
  destruct (dict_get fixed_columns_meta col) as [i0|] eqn:Hfix.
  - destruct Hin as [Heq|[]]. inversion Heq; subst col i0.
    split; [exact Hcol|]. left.
    unfold dict_get, fixed_columns_meta in Hfix. cbn [rev app find fst] in Hfix.
    repeat match type of Hfix with
           | context [String.eqb ?a name] =>
               destruct (String.eqb_spec a name) as [<-|_]; [cbn; tauto|]
           end.
    discriminate.
  - destruct (dict_get (dynamic_columns_info stok_listesi_options
                           (stock_columns st)) col) as [i0|] eqn:Hdyn;
      [|destruct Hin].
    destruct Hin as [Heq|[]]. inversion Heq; subst col i0.
    split; [exact Hcol|]. right.
    unfold dict_get in Hdyn.
    destruct (find _ _) as [[k v]|] eqn:Hfind; [|discriminate].
    apply find_some in Hfind. destruct Hfind as [Hin Hkey].
    cbn in Hkey. apply String.eqb_eq in Hkey. subst k.
    apply in_rev in Hin. unfold dynamic_columns_info in Hin.
    apply in_map_iff in Hin. destruct Hin as (d & Hd & Hin).
    inversion Hd. apply in_map_iff. eauto.
Qed.

(** X13. A rename that spells the old name with a capital renames the
    column and leaves its definition behind. On a store requests can
    produce from a new store file, when [rename_column] answers that the
    attribute is renamed and the old name of the request is not its own
    lowercase, no definition has changed, the table has the new column and
    none that matches the old name, and, unless a definition of the new
    name was there before, [stok_listesi] no longer lists the column. *)
Theorem rename_by_another_spelling_leaves_the_definition :
  forall (user_id : Z) (f : form) (st st' : store) (old : string),
    reachable foreign_keys column_token rowid_of_value st ->
    rename_column column_token user_id f st = (st', AttributeRenamed) ->
    form_get f "old_column_name" = Some old ->
    Py.lower old <> old ->
    let new := sanitize (Py.strip (form_get_default f "new_column_name" EmptyString)) in
    stock_columns st' = stock_columns st
    /\ In new (Sql.table_info st')
    /\ Sql.has_column st' old = false
    /\ (~ In new (map sc_name (stock_columns st)) ->
        ~ In new (map fst (columns_for_form st'))).
Proof.
  intros user_id f st st' old Hreach H Hold Hcap new.
  apply rename_column_renamed in H.
  destruct H as (old' & st1 & st2 & Hold' & Hrest).
  rewrite Hold in Hold'. inversion Hold'; subst old'; clear Hold'.
  cbv zeta in Hrest. fold new in Hrest.
  destruct Hrest as (_ & Hres & Halter & Hdef & Hvis).
  pose proof (alter_rename_column_done _ _ _ _ Halter) as (_ & _ & Hhas & Hfree & _).
  pose proof (alter_rename_column_frame _ _ _ _ Halter) as (Hinfo1 & _ & _ & _ & Hd1 & _).
  pose proof (update_stock_column_name_frame _ _ _ _ Hdef) as (Hinfo2 & _).
  apply update_stock_column_name_done in Hdef. destruct Hdef as (Hd2 & _).
  pose proof (update_visibility_name_frame _ _ _ _ _ Hvis)
    as (Hinfo3 & _ & _ & _ & Hd3).
  assert (Hdefs : stock_columns st' = stock_columns st).
  { rewrite Hd3, Hd2, Hd1.
    pose proof (reachable_definitions st Hreach) as Hok.
    unfold definitions_ok, on_defs in Hok. rewrite Forall_forall in Hok.
    unfold rename_def.
    apply (map_unchanged (fun d => String.eqb (sc_name d) old)
             (fun d => mkColDef (sc_id d) new (sc_type d) (sc_options d))).
    intros d Hd. apply String.eqb_neq. intros Heq.
    destruct (Hok d Hd) as [Hlow _]. rewrite Heq in Hlow. contradiction. }
  assert (Hinfo : Sql.table_info st' = map (rename_name old new) (Sql.table_info st)).
  { now rewrite Hinfo3, Hinfo2, Hinfo1. }
  split; [exact Hdefs|]. split; [|split].
  - rewrite Hinfo. unfold Sql.has_column in Hhas.
    apply existsb_exists in Hhas. destruct Hhas as (c & Hc & Hm).
    apply in_map_iff. exists c. split; [|exact Hc].
    unfold rename_name. now rewrite Hm.
  - unfold Sql.has_column. rewrite Hinfo.
    apply has_column_after_rename; assumption.
  - intros Hnodef Hlisted. apply columns_for_form_defined in Hlisted.
    destruct Hlisted as (_ & [Hr|Hd]); [contradiction|].
    rewrite Hdefs in Hd. contradiction.
Qed.

(** X14. [add_column] does not replace a definition that is already there
    under the name: when it answers that the attribute is added and a
    definition of the sanitized name exists, the definitions are exactly
    those of before, so the new column takes the type and the options of
    the old definition, and those of the request are dropped. *)
Theorem add_column_keeps_an_existing_definition :
  forall (user_id : Z) (f : form) (st st' : store) (raw : string) (d : col_def),
    add_column column_token user_id f st = (st', AttributeAdded) ->
    form_get f "new_column" = Some raw ->
    In d (stock_columns st) ->
    sc_name d = sanitize (Py.strip raw) ->
    stock_columns st' = stock_columns st
    /\ In (sanitize (Py.strip raw)) (Sql.table_info st').
Proof.
  intros user_id f st st' raw d H Hraw Hd Hname.
  apply add_column_added in H.
  destruct H as (raw' & st1 & options_json & Hraw' & H).
  rewrite Hraw in Hraw'. inversion Hraw'; subst raw'; clear Hraw'.
  cbv zeta in H. destruct H as (_ & _ & Halter & Hvis).
  pose proof (alter_add_column_frame _ _ _ Halter) as (Hinfo1 & _ & _ & _ & Hd1 & _).
  pose proof (insert_or_replace_visibility_frame _ _ _ _ _ Hvis)
    as (Hinfo3 & _ & _ & _ & Hd3).
  destruct (insert_or_ignore_stock_column_frame (sanitize (Py.strip raw))
              (form_get_default f "column_type" "text") options_json st1)
    as (Hinfo2 & _).
  split.
  - rewrite Hd3. unfold insert_or_ignore_stock_column.
    assert (Hex : existsb (fun r => String.eqb (sc_name r) (sanitize (Py.strip raw)))
                          (stock_columns st1) = true).
    { apply existsb_exists. exists d. rewrite Hd1. split; [exact Hd|].
      now apply String.eqb_eq. }
    rewrite Hex. exact Hd1.
  - rewrite Hinfo3, Hinfo2, Hinfo1. apply in_app_iff. right. now left.
Qed.

(** ** The options of a select attribute *)

Lemma update_column_options_updated (f : form) (st st' : store) :
  update_column_options f st = (st', OptionsUpdated) ->
  exists column_name d,
    form_get f "column_name" = Some column_name
    /\ column_name <> EmptyString
    /\ find (fun r => String.eqb (sc_name r) column_name) (stock_columns st) = Some d
    /\ sc_type d = "select"
    /\ st' = update_stock_column_options
               (Json.dumps (options_list
                  (Py.strip (form_get_default f "options_input" EmptyString))))
               column_name st.
Proof using.
  clear foreign_keys column_token rowid_of_value.
  unfold update_column_options. cbv zeta. cbn [connect working close committed].
  intros H.
  destruct (form_get f "column_name") as [c|]; [|discriminate].
  destruct (negb (Py.truthy c)) eqn:Hc; [discriminate|].
  destruct (find _ (stock_columns st)) as [d|] eqn:Hfind; [|discriminate].
  destruct (negb (String.eqb (sc_type d) "select")) eqn:Hsel; [discriminate|].
  unfold dml_ in H. cbn [working commit close committed] in H.
  inversion H; subst st'; clear H.
  exists c, d. repeat split; try assumption.
  - apply negb_false_iff in Hc. now apply truthy_true.
  - apply negb_false_iff in Hsel. now apply String.eqb_eq.
Qed.

(** X15. [update_column_options] answers that the options are updated
    exactly when the named definition exists and is of type select; no
    option is required, an empty list is written like any other. After
    that answer every definition of that name decodes, in [stok_listesi]
    and in [add_product] alike, to the tokens of the request (split on
    commas, trimmed, empty ones dropped), keeps its id and type, and every
    other definition and the rest of the store are as before. *)
Theorem update_column_options_round_trip :
  (forall (f : form) (st : store),
      snd (update_column_options f st) = OptionsUpdated
      <-> exists column_name d,
            form_get f "column_name" = Some column_name
            /\ column_name <> EmptyString
            /\ find (fun r => String.eqb (sc_name r) column_name) (stock_columns st)
               = Some d
            /\ sc_type d = "select")
  /\ (forall (f : form) (st st' : store) (column_name : string),
         update_column_options f st = (st', OptionsUpdated) ->
         form_get f "column_name" = Some column_name ->
         let tokens :=
           options_list (Py.strip (form_get_default f "options_input" EmptyString)) in
         Forall2 (fun d d' =>
                    sc_id d' = sc_id d /\ sc_name d' = sc_name d
                    /\ sc_type d' = sc_type d
                    /\ (sc_name d = column_name ->
                        stok_listesi_options (sc_options d')
                        = map Json.of_string tokens
                        /\ add_product_options (sc_options d')
                           = map Json.of_string tokens)
                    /\ (sc_name d <> column_name -> d' = d))
                 (stock_columns st) (stock_columns st')
         /\ Sql.table_info st' = Sql.table_info st
         /\ products st' = products st
         /\ inventory st' = inventory st
         /\ visibility st' = visibility st).
Proof using.
  clear foreign_keys column_token rowid_of_value.
  split.
  - intros f st. split.
    + intros H.
      destruct (update_column_options f st) as [st' r] eqn:E. cbn in H. subst r.
      apply update_column_options_updated in E.
      destruct E as (c & d & H1 & H2 & H3 & H4 & _). eauto 6.
    + intros (c & d & Hc & Hne & Hfind & Hsel).
      unfold update_column_options. cbv zeta. rewrite Hc.
      apply truthy_true in Hne. rewrite Hne. cbn [negb connect working].
      rewrite Hfind, Hsel. reflexivity.
  - intros f st st' column_name H Hname tokens.
    apply update_column_options_updated in H.
    destruct H as (c & d & Hc & _ & _ & _ & ->).
    rewrite Hname in Hc. inversion Hc; subst c; clear Hc. fold tokens.
    destruct (update_stock_column_options_frame (Json.dumps tokens) column_name st)
      as (Hinfo & Hprod & _ & Hinv & Hvis).
    repeat split; try assumption.
    unfold update_stock_column_options. cbn [stock_columns].
    induction (stock_columns st) as [|d0 l IH]; cbn [map]; constructor; [|exact IH].
    destruct (String.eqb_spec (sc_name d0) column_name) as [Heq|Hne].
    + cbn [sc_id sc_name sc_type sc_options].
      split; [reflexivity|]. split; [reflexivity|]. split; [reflexivity|].
      split; [|intros Hc; contradiction].
      intros _. split;
        [apply stok_listesi_options_dumps | apply add_product_options_dumps].
    + split; [reflexivity|]. split; [reflexivity|]. split; [reflexivity|].
      split; [intros Hc; contradiction | reflexivity].
Qed.

(** ** Inventory ids *)

Lemma insert_or_replace_inventory_id
    (product_id quantity : Z) (location now : string) (st st' : store) :
  insert_or_replace_inventory foreign_keys product_id quantity location now st
  = Done st' ->
  let id := Sql.next_rowid (inventory_seq st) (map i_id (inventory st)) in
  inventory st'
  = (filter (fun r => negb (same_slot product_id location r)) (inventory st)
     ++ [mkInv id product_id quantity location now])%list
  /\ Forall (fun r => (i_id r < id)%Z) (inventory st).
Proof.
  unfold insert_or_replace_inventory. intros H.
  destruct (negb (Sql.fits_int64 product_id && Sql.fits_int64 quantity));
    [discriminate|].
  destruct (negb (parent_ok foreign_keys product_id st)); [discriminate|].
  inversion H; subst st'; clear H. cbn [with_inventory inventory].
  split; [reflexivity|].
  unfold Sql.next_rowid.
  destruct (fold_max_ge (map i_id (inventory st)) (inventory_seq st)) as [_ Hall].
  rewrite Forall_forall in *. intros r Hr.
  specialize (Hall (i_id r) (in_map i_id _ _ Hr)). cbn in Hall. lia.
Qed.

Lemma update_inventory_by_id (f : form) (now : string) (st st' : store) (i : string) :
  update_inventory foreign_keys f now st = (st', InventoryUpdated) ->
  form_get f "inventory_id" = Some i ->
  i <> EmptyString -> i <> "None" ->
  exists product_id quantity inventory_id n,
    Py.int i = Some inventory_id
    /\ n <> 0%nat
    /\ update_inventory_row quantity
         (Py.strip (form_get_default f "location" EmptyString)) now
         inventory_id product_id st = Done (st', n).
Proof.
  unfold update_inventory. cbv zeta. intros H Hi Hne Hnone. rewrite Hi in H.
  apply truthy_true in Hne. apply String.eqb_neq in Hnone.
  rewrite Hne, Hnone in H. cbn [andb negb] in H.
  destruct (form_get f "product_id") as [p|]; [|discriminate].
  destruct (form_get f "quantity") as [q|]; [|discriminate].
  destruct (negb (Py.truthy p) || negb (Py.truthy q)); [discriminate|].
  destruct (Py.int p) as [product_id|]; [|discriminate].
  destruct (Py.int q) as [quantity|]; [|discriminate].
  destruct (quantity <? 0)%Z; [discriminate|].
  destruct (Py.int i) as [inventory_id|]; [|discriminate].
  destruct (dml _ _) as [[db1 n]| | |] eqn:Hd; try discriminate.
  destruct (n =? 0)%nat eqn:Hn; [discriminate|].
  apply dml_done in Hd. destruct Hd as (w & Hw & ->).
  cbn [connect working commit close committed] in *. inversion H; subst st'.
  exists product_id, quantity, inventory_id, n.
  split; [reflexivity|]. split; [now apply Nat.eqb_neq | exact Hw].
Qed.

(** X16. The two ways of [update_inventory] treat the id of an entry
    differently. Without [inventory_id] the entry of the product at the
    location is written as a new row: it is the last row of the inventory
    and its id lies above the id of every row the inventory held before,
    the replaced one included, so the id that entry had is gone. With
    [inventory_id] the ids and the products of all rows stay as they are. *)
Theorem upsert_gives_the_entry_a_new_id :
  (forall (f : form) (now : string) (st st' : store) (product_id : Z)
          (location : string),
      update_inventory foreign_keys f now st = (st', InventoryUpdated) ->
      form_get f "inventory_id" = None ->
      upsert_key f = Some (product_id, location) ->
      exists r,
        inventory st'
        = (filter (fun r0 => negb (same_slot product_id location r0)) (inventory st)
           ++ [r])%list
        /\ i_product_id r = product_id /\ i_location r = location
        /\ Forall (fun r0 => (i_id r0 < i_id r)%Z) (inventory st))
  /\ (forall (f : form) (now : string) (st st' : store) (i : string),
         update_inventory foreign_keys f now st = (st', InventoryUpdated) ->
         form_get f "inventory_id" = Some i ->
         i <> EmptyString -> i <> "None" ->
         map i_id (inventory st') = map i_id (inventory st)
         /\ map i_product_id (inventory st') = map i_product_id (inventory st)).
Proof.
  split.
  - intros f now st st' product_id location H Hnone Hkey.
    apply update_inventory_upserted in H; [|exact Hnone].
    destruct H as (pid & loc & q & Hkey' & _ & _ & Hins).
    rewrite Hkey in Hkey'. inversion Hkey'; subst pid loc; clear Hkey'.
    apply insert_or_replace_inventory_id in Hins. cbv zeta in Hins.
    destruct Hins as (Hrows & Hall).
    eexists. split; [exact Hrows|]. cbn. auto.
  - intros f now st st' i H Hi Hne Hnone.
    destruct (update_inventory_by_id f now st st' i H Hi Hne Hnone)
      as (pid & q & iid & n & _ & _ & Hrow).
    apply update_inventory_row_done in Hrow. cbv zeta in Hrow.
    destruct Hrow as (_ & ->). cbn [with_inventory inventory].
    rewrite !map_map. split; apply map_ext; intros r;
      destruct ((i_id r =? iid)%Z && (i_product_id r =? pid)%Z); reflexivity.
Qed.

(** ** The locations offered as a filter *)

Lemma code_inj (c d : ascii) : Py.code c = Py.code d -> c = d.
Proof using.
  clear foreign_keys column_token rowid_of_value.
  unfold Py.code. intros H.
  rewrite <- (ascii_N_embedding c), <- (ascii_N_embedding d). now rewrite H.
Qed.

Lemma text_cmp_eq (a b : string) : Sql.text_cmp a b = Eq <-> a = b.
Proof using.
  clear foreign_keys column_token rowid_of_value.
  revert b. induction a as [|c a IH]; intros [|d b]; cbn; try (split; congruence).
  destruct (Py.code c ?= Py.code d)%N eqn:E.
  - apply N.compare_eq in E. apply code_inj in E. subst d.
    rewrite IH. split; congruence.
  - split; [discriminate|]. intros H. inversion H; subst.
    rewrite N.compare_refl in E. discriminate.
  - split; [discriminate|]. intros H. inversion H; subst.
    rewrite N.compare_refl in E. discriminate.
Qed.

Lemma text_cmp_opp (a b : string) :
  Sql.text_cmp b a = CompOpp (Sql.text_cmp a b).
Proof using.
  clear foreign_keys column_token rowid_of_value.
  revert b. induction a as [|c a IH]; intros [|d b]; cbn; try reflexivity.
  rewrite (N.compare_antisym (Py.code c) (Py.code d)).
  destruct (Py.code c ?= Py.code d)%N; cbn; [apply IH | reflexivity | reflexivity].
Qed.

Lemma text_cmp_trans (a b c : string) :
  Sql.text_cmp a b = Lt -> Sql.text_cmp b c = Lt -> Sql.text_cmp a c = Lt.
Proof using.
  clear foreign_keys column_token rowid_of_value.
  revert b c. induction a as [|x a IH]; intros [|y b] [|z c]; cbn;
    try congruence.
  destruct (Py.code x ?= Py.code y)%N eqn:Exy;
    destruct (Py.code y ?= Py.code z)%N eqn:Eyz; try congruence.
  - apply N.compare_eq in Exy, Eyz. rewrite Exy, Eyz, N.compare_refl.
    apply IH.
  - apply N.compare_eq in Exy. rewrite Exy, Eyz. reflexivity.
  - apply N.compare_eq in Eyz. rewrite <- Eyz, Exy. reflexivity.
  - intros _ _. rewrite N.compare_lt_iff in *.
    assert (H : (Py.code x < Py.code z)%N) by lia.
    apply N.compare_lt_iff in H. now rewrite H.
Qed.

Lemma insert_by_sorted (x : string) (l : list string) :
  StronglySorted (fun a b => Sql.text_cmp a b = Lt) l ->
  ~ In x l ->
  StronglySorted (fun a b => Sql.text_cmp a b = Lt) (Sql.insert_by VText x l).
Proof using.
  clear foreign_keys column_token rowid_of_value.
  induction 1 as [|y l Hl IH Hy]; intros Hx; cbn [Sql.insert_by].
  - constructor; constructor.
  - cbn [Sql.val_cmp].
    assert (Hxy : x <> y) by (intros ->; apply Hx; now left).
    assert (Hxl : ~ In x l) by (intros H; apply Hx; now right).
    destruct (Sql.text_cmp x y) eqn:E.
    + apply text_cmp_eq in E. contradiction.
    + constructor; [now constructor|].
      constructor; [exact E|].
      eapply Forall_impl; [|exact Hy]. cbn. intros z Hz.
      now apply (text_cmp_trans x y z).
    + constructor; [now apply IH|].
      apply Forall_forall. intros z Hz. apply In_insert_by in Hz.
      destruct Hz as [->|Hz].
      * rewrite text_cmp_opp, E. reflexivity.
      * rewrite Forall_forall in Hy. now apply Hy.
Qed.

Lemma order_by_sorted (l : list string) :
  NoDup l ->
  StronglySorted (fun a b => Sql.text_cmp a b = Lt) (Sql.order_by VText l).
Proof using.
  clear foreign_keys column_token rowid_of_value.
  induction 1 as [|x l Hx _ IH]; cbn; [constructor|].
  apply insert_by_sorted; [exact IH|].
  intros H. apply In_order_by in H. contradiction.
Qed.

Lemma strictly_sorted_NoDup (l : list string) :
  StronglySorted (fun a b => Sql.text_cmp a b = Lt) l -> NoDup l.
Proof using.
  clear foreign_keys column_token rowid_of_value.
  induction 1 as [|x l _ IH Hx]; constructor; [|exact IH].
  intros Hin. rewrite Forall_forall in Hx. specialize (Hx x Hin).
  assert (E : Sql.text_cmp x x = Eq) by now apply text_cmp_eq.
  congruence.
Qed.

(** X17. The locations [envanter_listesi] offers as a filter are the
    locations of the inventory rows that are not empty, each one once, in
    increasing order of their code points; the row of a product that no
    longer exists counts like any other. *)
Theorem existing_locations_are_the_distinct_locations :
  forall st : store,
    StronglySorted (fun a b => Sql.text_cmp a b = Lt) (existing_locations st)
    /\ NoDup (existing_locations st)
    /\ (forall l, In l (existing_locations st)
                  <-> l <> EmptyString
                      /\ exists r, In r (inventory st) /\ i_location r = l).
Proof using.
  clear foreign_keys column_token rowid_of_value.
  intros st. unfold existing_locations.
  assert (Hs : StronglySorted (fun a b => Sql.text_cmp a b = Lt)
                 (Sql.order_by VText
                    (nodup string_dec
                       (filter Py.truthy (map i_location (inventory st)))))).
  { apply order_by_sorted. apply NoDup_nodup. }
  split; [exact Hs|]. split; [now apply strictly_sorted_NoDup|].
  intros l. rewrite In_order_by, nodup_In, filter_In, in_map_iff, truthy_true.
  split.
  - intros [(r & Hr & Hin) Hne]. split; [exact Hne|]. eauto.
  - intros [Hne (r & Hin & Hr)]. split; [eauto | exact Hne].
Qed.

(** ** The name filter of the inventory listing *)

Lemma like_percent (p t : string) :
  Sql.like (String "%" p) t = like_any p t.
Proof using.
  clear foreign_keys column_token rowid_of_value.
  cbn [Sql.like]. rewrite Ascii.eqb_refl.
  induction t as [|d t IH]; cbn [like_any]; [reflexivity|].
  now rewrite IH.
Qed.

Lemma like_any_empty (t : string) : like_any EmptyString t = true.
Proof using.
  clear foreign_keys column_token rowid_of_value.
  induction t as [|d t IH]; cbn; [reflexivity | exact IH].
Qed.

Lemma like_prefix (p t : string) :
  all_chars (fun c => negb (Ascii.eqb c "%")) p = true ->
  Sql.like (p ++ "%") t = matches_at p t.
Proof using.
  clear foreign_keys column_token rowid_of_value.
  revert t. induction p as [|c p IH]; intros t Hp.
  - change (EmptyString ++ "%") with (String "%" EmptyString).
    rewrite like_percent. apply like_any_empty.
  - cbn [all_chars] in Hp. apply andb_true_iff in Hp. destruct Hp as [Hc Hp].
    apply negb_true_iff in Hc.
    change (String c p ++ "%") with (String c (p ++ "%")).
    cbn [Sql.like matches_at]. rewrite Hc.
    destruct t as [|d t]; [reflexivity|].
    unfold char_like. now rewrite IH.
Qed.

Lemma like_contains (p t : string) :
  all_chars (fun c => negb (Ascii.eqb c "%")) p = true ->
  Sql.like ("%" ++ p ++ "%") t = occurs p t.
Proof using.
  clear foreign_keys column_token rowid_of_value.
  intros Hp. change ("%" ++ p ++ "%") with (String "%" (p ++ "%")).
  rewrite like_percent.
  induction t as [|d t IH]; cbn [like_any occurs].
  - now rewrite like_prefix.
  - now rewrite like_prefix, IH.
Qed.

Lemma matches_at_plain (p t : string) :
  plain p = true ->
  matches_at p t = true
  <-> exists mid post,
        t = mid ++ post /\ Py.smap Sql.fold_char mid = Py.smap Sql.fold_char p.
Proof using.
  clear foreign_keys column_token rowid_of_value.
  unfold plain. revert t. induction p as [|c p IH]; intros t Hp.
  - cbn. split; [|reflexivity]. intros _. exists EmptyString, t. now split.
  - cbn [all_chars] in Hp. apply andb_true_iff in Hp. destruct Hp as [Hc Hp].
    apply andb_true_iff in Hc. destruct Hc as [_ Hc]. apply negb_true_iff in Hc.
    cbn [matches_at]. destruct t as [|d t].
    + split; [discriminate|]. intros (mid & post & Ht & Hm).
      destruct mid; cbn in Hm; [discriminate|]. discriminate.
    + unfold char_like. rewrite Hc. cbn [orb].
      rewrite andb_true_iff, (IH t Hp). split.
      * intros [Hcd (mid & post & -> & Hm)].
        apply Ascii.eqb_eq in Hcd.
        exists (String d mid), post. split; [reflexivity|].
        cbn. now rewrite Hm, Hcd.
      * intros (mid & post & Ht & Hm).
        destruct mid as [|e mid]; [discriminate|].
        cbn in Ht, Hm. inversion Ht; subst. inversion Hm as [[He Hmid]].
        split; [rewrite He; apply Ascii.eqb_refl|]. eauto.
Qed.

Lemma occurs_plain (p t : string) :
  plain p = true ->
  occurs p t = true
  <-> exists pre mid post,
        t = pre ++ mid ++ post
        /\ Py.smap Sql.fold_char mid = Py.smap Sql.fold_char p.
Proof using.
  clear foreign_keys column_token rowid_of_value.
  intros Hp. induction t as [|d t IH]; cbn [occurs].
  - rewrite orb_false_r, (matches_at_plain p _ Hp). split.
    + intros (mid & post & Ht & Hm). exists EmptyString, mid, post. now split.
    + intros (pre & mid & post & Ht & Hm).
      destruct pre; [|discriminate]. cbn in Ht. eauto.
  - rewrite orb_true_iff, (matches_at_plain p _ Hp), IH. split.
    + intros [(mid & post & Ht & Hm)|(pre & mid & post & Ht & Hm)].
      * exists EmptyString, mid, post. now split.
      * exists (String d pre), mid, post. split; [|exact Hm].
        cbn. now rewrite Ht.
    + intros (pre & mid & post & Ht & Hm). destruct pre as [|e pre].
      * left. cbn in Ht. eauto.
      * right. cbn in Ht. inversion Ht; subst. eauto.
Qed.

(** X18. The name filter of [envanter_listesi] is a search for the filter
    inside the name that ignores the case of the ASCII letters: for a
    filter without percent sign and underscore, a name passes exactly when
    some part of it equals the filter once the ASCII capitals of both are
    folded. The filter is not escaped: an underscore in it stands for any
    one character, so the filter that is one underscore passes every name
    that is not empty, and the filter that is one percent sign passes
    every name. *)
Theorem name_filter_is_a_substring_search :
  (forall filter name : string,
      plain filter = true ->
      name_like ("%" ++ filter ++ "%") (VText name) = true
      <-> exists pre mid post,
            name = pre ++ mid ++ post
            /\ Py.smap Sql.fold_char mid = Py.smap Sql.fold_char filter)
  /\ (forall name : string,
         name_like ("%" ++ "_" ++ "%") (VText name) = Py.truthy name)
  /\ (forall name : string, name_like ("%" ++ "%" ++ "%") (VText name) = true).
Proof using.
  clear foreign_keys column_token rowid_of_value.
  split; [|split].
  - intros filter name Hp. cbn [name_like].
    rewrite like_contains.
    + now apply occurs_plain.
    + unfold plain in Hp. clear name.
      induction filter as [|c s IH]; [reflexivity|].
      cbn [all_chars] in *. apply andb_true_iff in Hp. destruct Hp as [Hc Hs].
      apply andb_true_iff in Hc. destruct Hc as [Hc _].
      now rewrite Hc, IH.
  - intros name. cbn [name_like]. rewrite like_contains; [|reflexivity].
    destruct name as [|d t]; [reflexivity|].
    cbn [occurs matches_at]. unfold char_like. now rewrite Ascii.eqb_refl.
  - intros name. cbn [name_like].
    change ("%" ++ "%" ++ "%") with (String "%" (String "%" "%")).
    assert (H1 : forall t, Sql.like "%" t = true).
    { intros t. rewrite like_percent. apply like_any_empty. }
    assert (H2 : forall t, like_any "%" t = true).
    { intros [|d t]; cbn [like_any]; now rewrite H1. }
    assert (H3 : forall t, Sql.like (String "%" "%") t = true).
    { intros t. rewrite like_percent. apply H2. }
    rewrite like_percent. destruct name as [|d t]; cbn [like_any]; now rewrite H3.
Qed.

(** ** Deleting *)

Lemma some_filtered {A : Type} (p : A -> bool) (l : list A) :
  (0 <? List.length (filter p l))%nat = existsb p l.
Proof using.
  clear foreign_keys column_token rowid_of_value.
  induction l as [|a l IH]; [reflexivity|].
  cbn [filter existsb]. destruct (p a); [reflexivity | exact IH].
Qed.

Lemma delete_product_cases (product_id : Z) (st : store) :
  Sql.fits_int64 product_id = true ->
  Sql.name_eqb "id" (pk_name st) = true ->
  exists st1,
    delete_product_row foreign_keys product_id st
    = Done (st1, List.length (filter (fun p => (p_rowid p =? product_id)%Z)
                                     (products st)))
    /\ delete_product foreign_keys product_id st
       = (st1, if existsb (fun p => (p_rowid p =? product_id)%Z) (products st)
               then ProductDeleted else ProductNotFound).
Proof.
  intros Hfit Hpk. unfold delete_product, dml, delete_product_row. cbv zeta.
  cbn [connect working committed]. rewrite Hfit, Hpk. cbn [negb].
  eexists. split; [reflexivity|]. cbn [commit close working committed].
  now rewrite some_filtered.
Qed.

(** X19. [delete_product] removes the products of the given id and
    answers [ProductDeleted] when there was one, [ProductNotFound]
    otherwise. The inventory rows of the product go with it only on a
    connection that enforces foreign keys, which the source never asks
    for; without it every inventory row stays, those of the deleted
    product included, and so do the locations offered as a filter. *)
Theorem delete_product_and_its_inventory :
  forall (product_id : Z) (st : store),
    Sql.fits_int64 product_id = true ->
    Sql.name_eqb "id" (pk_name st) = true ->
    let found := existsb (fun p => (p_rowid p =? product_id)%Z) (products st) in
    exists st',
      delete_product foreign_keys product_id st
      = (st', if found then ProductDeleted else ProductNotFound)
      /\ products st'
         = filter (fun p => negb (p_rowid p =? product_id)%Z) (products st)
      /\ inventory st'
         = (if foreign_keys && found
            then filter (fun r => negb (i_product_id r =? product_id)%Z)
                        (inventory st)
            else inventory st)
      /\ (foreign_keys = false ->
          inventory st' = inventory st
          /\ existing_locations st' = existing_locations st)
      /\ Sql.table_info st' = Sql.table_info st
      /\ stock_columns st' = stock_columns st
      /\ visibility st' = visibility st.
Proof.
  intros product_id st Hfit Hpk found.
  destruct (delete_product_cases product_id st Hfit Hpk) as (st1 & Hrow & Hdel).
  exists st1. split; [exact Hdel|].
  apply delete_product_row_frame in Hrow.
  destruct Hrow as (Hinfo & Hprod & _ & _ & Hinv & Hdefs & Hvis).
  assert (Hfound : (0 <? List.length (filter (fun p => (p_rowid p =? product_id)%Z)
                                             (products st)))%nat = found).
  { apply some_filtered. }
  rewrite Hfound in Hinv.
  split; [exact Hprod|]. split; [exact Hinv|].
  split; [|split; [exact Hinfo | split; [exact Hdefs | exact Hvis]]].
  intros Hfk. rewrite Hfk in Hinv. cbn [andb] in Hinv.
  split; [exact Hinv|]. unfold existing_locations. now rewrite Hinv.
Qed.

(** ** Creating and deleting *)

Lemma add_product_fresh (f : form) (now : string) (st st' : store) :
  reachable foreign_keys column_token rowid_of_value st ->
  pk_name st = "id" ->
  add_product foreign_keys rowid_of_value f now st = (st', ProductAdded) ->
  let id := (products_seq st + 1)%Z in
  Sql.fits_int64 id = true
  /\ exists cells entry_id,
       products st' = (products st ++ [mkProduct id cells])%list
       /\ inventory st'
          = (inventory st ++ [mkInv entry_id id 0 EmptyString now])%list
       /\ pk_name st' = pk_name st
       /\ products_seq st' = id.
Proof.
  intros Hreach Hpk H. cbv zeta.
  apply add_product_added in H.
  destruct H as (cells & m & price & dyn & st1 & pid & _ & _ & _ & _ & Hdyn & Hp & Hi).
  pose proof (insert_product_rowid _ _ _ _ Hp) as (_ & Hseq & _ & Hauto).
  pose proof (insert_product_done _ _ _ _ Hp) as (Hpk1 & _ & Hprod & Hinv & _).
  destruct (reachable_rowids st Hreach) as [_ Hall].
  assert (Hid : pid = (products_seq st + 1)%Z).
  { rewrite Hauto.
    - unfold Sql.next_rowid. now rewrite (fold_max_bounded _ _ Hall).
    - rewrite Hpk. apply assigned_none. intros k v Hin.
      destruct Hin as [Heq|[Heq|[Heq|Hin]]];
        try (inversion Heq; subst k; reflexivity).
      destruct (dynamic_values_keys _ _ _ _ Hdyn k v Hin) as [Hcol Hres].
      destruct (reachable_schema st Hreach) as [_ Hlow].
      rewrite Forall_forall in Hlow.
      rewrite (name_eqb_lowercase k "id" (Hlow k Hcol) eq_refl).
      apply String.eqb_neq. intros ->. apply Hres. cbn. tauto. }
  subst pid.
  assert (Hfit : Sql.fits_int64 (products_seq st + 1) = true).
  { unfold insert_inventory in Hi.
    destruct (Sql.fits_int64 (products_seq st + 1)); [reflexivity|].
    cbn in Hi. discriminate. }
  split; [exact Hfit|].
  apply insert_inventory_done in Hi. destruct Hi as (_ & iid & ->).
  cbn [with_inventory products inventory pk_name products_seq].
  eexists. exists iid. rewrite Hprod, Hinv, Hpk1, Hseq.
  repeat split. lia.
Qed.

Lemma filter_rowids_below (id : Z) (l : list product) :
  Forall (fun z => (z < id)%Z) (map p_rowid l) ->
  filter (fun p => negb (p_rowid p =? id)%Z) l = l.
Proof using.
  clear foreign_keys column_token rowid_of_value.
  intros H. apply filter_all. intros p Hp.
  rewrite Forall_forall in H. specialize (H _ (in_map p_rowid _ _ Hp)).
  apply negb_true_iff, Z.eqb_neq. cbn in H. lia.
Qed.

(** X20. Creating a product and deleting it again does not give the store
    of before. On a store requests can produce from a new store file, with
    the id column named [id], after [add_product] has answered that the
    product is added, [delete_product] of the new id answers that it is
    deleted and the products are those of before; the sequence of ids
    stays one higher; and the inventory row that came with the product is
    removed only when foreign keys are enforced: otherwise it stays, as a
    row of a product that no longer exists. *)
Theorem adding_then_deleting_a_product :
  forall (f : form) (now : string) (st st1 : store),
    reachable foreign_keys column_token rowid_of_value st ->
    pk_name st = "id" ->
    add_product foreign_keys rowid_of_value f now st = (st1, ProductAdded) ->
    let id := (products_seq st + 1)%Z in
    exists st2 entry,
      delete_product foreign_keys id st1 = (st2, ProductDeleted)
      /\ products st2 = products st
      /\ products_seq st2 = id
      /\ i_product_id entry = id /\ i_quantity entry = 0%Z
      /\ i_location entry = EmptyString
      /\ inventory st2
         = (if foreign_keys
            then filter (fun r => negb (i_product_id r =? id)%Z) (inventory st)
            else inventory st ++ [entry])%list.
Proof.
  intros f now st st1 Hreach Hpk H id.
  destruct (add_product_fresh f now st st1 Hreach Hpk H)
    as (Hfit & cells & iid & Hprod & Hinv & Hpk1 & Hseq).
  fold id in Hfit, Hprod, Hinv, Hseq.
  assert (Hpk1' : Sql.name_eqb "id" (pk_name st1) = true)
    by (rewrite Hpk1, Hpk; reflexivity).
  destruct (delete_product_cases id st1 Hfit Hpk1') as (st2 & Hrow & Hdel).
  exists st2, (mkInv iid id 0 EmptyString now).
  assert (Hfound : existsb (fun p => (p_rowid p =? id)%Z) (products st1) = true).
  { rewrite Hprod, existsb_app. cbn. rewrite Z.eqb_refl. apply orb_true_r. }
  rewrite Hfound in Hdel. split; [exact Hdel|].
  apply delete_product_row_frame in Hrow.
  destruct Hrow as (_ & Hp2 & Hs2 & _ & Hi2 & _).
  rewrite some_filtered, Hfound, andb_true_r in Hi2.
  split; [|split; [now rewrite Hs2|]].
  - rewrite Hp2, Hprod, filter_app. cbn [filter p_rowid].
    rewrite Z.eqb_refl. cbn [negb]. rewrite app_nil_r.
    apply filter_rowids_below.
    destruct (reachable_rowids st Hreach) as [_ Hall].
    eapply Forall_impl; [|exact Hall]. cbn. intros z Hz. unfold id. lia.
  - cbn [i_product_id i_quantity i_location].
    split; [reflexivity|]. split; [reflexivity|]. split; [reflexivity|].
    rewrite Hi2, Hinv. destruct foreign_keys; [|reflexivity].
    rewrite filter_app. cbn [filter i_product_id]. rewrite Z.eqb_refl.
    cbn [negb]. now rewrite app_nil_r.
Qed.

Lemma with_inventory_same (st : store) :
  with_inventory (inventory st) (inventory_seq st) st = st.
Proof using.
  clear foreign_keys column_token rowid_of_value.
  destruct st; reflexivity.
Qed.

Lemma delete_inventory_entry_done (inventory_id : Z) (st : store) :
  Sql.fits_int64 inventory_id = true ->
  delete_inventory_entry inventory_id st
  = (with_inventory
       (filter (fun r => negb (i_id r =? inventory_id)%Z) (inventory st))
       (inventory_seq st) st, EntryDeleted).
Proof using.
  clear foreign_keys column_token rowid_of_value.
  intros Hfit.
  unfold delete_inventory_entry, dml_, delete_inventory_row. cbv zeta.
  cbn [connect working committed]. rewrite Hfit. reflexivity.
Qed.

(** X21. [delete_inventory_entry] answers that the entry is deleted
    whether or not there was one: the rows of the given id are removed and
    nothing else changes, so for an id no row has the store stays as it is
    under the same answer, and a second request for the same id changes
    nothing more. *)
Theorem delete_inventory_entry_reports_success :
  forall (inventory_id : Z) (st : store),
    Sql.fits_int64 inventory_id = true ->
    exists st',
      delete_inventory_entry inventory_id st = (st', EntryDeleted)
      /\ inventory st'
         = filter (fun r => negb (i_id r =? inventory_id)%Z) (inventory st)
      /\ ((forall r, In r (inventory st) -> i_id r <> inventory_id) -> st' = st)
      /\ delete_inventory_entry inventory_id st' = (st', EntryDeleted)
      /\ Sql.table_info st' = Sql.table_info st
      /\ products st' = products st
      /\ stock_columns st' = stock_columns st
      /\ visibility st' = visibility st.
Proof using.
  clear foreign_keys column_token rowid_of_value.
  intros inventory_id st Hfit.
  eexists. split; [apply (delete_inventory_entry_done _ _ Hfit)|].
  split; [reflexivity|]. split; [|split].
  - intros Hno. rewrite filter_all; [apply with_inventory_same|].
    intros r Hr. apply negb_true_iff, Z.eqb_neq. now apply Hno.
  - rewrite (delete_inventory_entry_done _ _ Hfit). f_equal.
    cbn [with_inventory inventory inventory_seq].
    rewrite filter_all; [reflexivity|].
    intros r Hr. apply filter_In in Hr. tauto.
  - repeat split.
Qed.

(** ** What a created product holds *)







(** ** The listing and the export *)

Lemma preferences_default {V : Type} (cols : list (string * V))
    (prefs : list (string * bool)) (k : string) :
  dict_get prefs k = None ->
  In k (map fst cols) ->
  dict_get
    (fold_left
       (fun prefs col_info =>
          match dict_get prefs (fst col_info) with
          | Some _ => prefs
          | None => (prefs ++ [(fst col_info, true)])%list
          end) cols prefs) k = Some true.
Proof using.
  clear foreign_keys column_token rowid_of_value.
  revert prefs. induction cols as [|c cols IH]; intros prefs Hnone Hin;
    [destruct Hin|].
  cbn [fold_left]. cbn [map] in Hin.
  destruct (String.eqb_spec (fst c) k) as [Heq|Hne].
  - rewrite Heq, Hnone. apply preferences_with_defaults.
    rewrite dict_get_snoc. now rewrite String.eqb_refl.
  - destruct Hin as [Heq|Hin]; [contradiction|].
    apply IH; [|exact Hin].
    destruct (dict_get prefs (fst c)); [exact Hnone|].
    rewrite dict_get_snoc. apply String.eqb_neq in Hne. now rewrite Hne.
Qed.

Lemma exported_iff (user_id : Z) (st : store) (c : string) :
  In c (columns_to_export user_id st)
  <-> In c (Sql.table_info st)
      /\ (In c reserved_names
          \/ preference (column_visibility_preferences user_id st) c = true).
Proof using.
  clear foreign_keys column_token rowid_of_value.
  unfold columns_to_export. cbv zeta.
  destruct (export_loop (column_visibility_preferences user_id st)
              (Sql.table_info st)
              (filter (fun c => Py.mem c (Sql.table_info st))
                      ["id"; "user_product_id"; "name"; "price"]))
    as (_ & _ & Hin).
  rewrite Hin, filter_In, mem_In. cbn [In reserved_names]. tauto.
Qed.

(** X23. The listing and the export agree on the attributes the listing
    shows, and the export goes further. For a column [stok_listesi] lists
    outside the reserved names, the preferences it hands out hold a flag,
    and that flag is true exactly when [export_excel] exports the column.
    A product column outside the reserved names that has no definition is
    never listed, yet it is exported unless a preference of the user hides
    it. *)
Theorem listing_and_export_agree :
  forall (user_id : Z) (st : store) (c : string),
    ~ In c reserved_names ->
    (In c (map fst (columns_for_form st)) ->
     exists b,
       dict_get (stok_listesi_preferences user_id st) c = Some b
       /\ (b = true <-> In c (columns_to_export user_id st)))
    /\ (In c (Sql.table_info st) ->
        ~ In c (map sc_name (stock_columns st)) ->
        ~ In c (map fst (columns_for_form st))
        /\ (In c (columns_to_export user_id st)
            <-> dict_get (column_visibility_preferences user_id st) c
                <> Some false)).
Proof using.
  clear foreign_keys column_token rowid_of_value.
  intros user_id st c Hres. split.
  - intros Hlisted.
    destruct (columns_for_form_defined st c Hlisted) as (Hcol & _).
    exists (preference (column_visibility_preferences user_id st) c). split.
    + unfold stok_listesi_preferences, preference.
      destruct (dict_get (column_visibility_preferences user_id st) c) as [b|] eqn:E.
      * now apply preferences_with_defaults.
      * now apply preferences_default.
    + rewrite exported_iff. tauto.
  - intros Hcol Hnodef. split.
    + intros Hlisted. apply columns_for_form_defined in Hlisted. tauto.
    + rewrite exported_iff. unfold preference.
      destruct (dict_get (column_visibility_preferences user_id st) c) as [[|]|];
        split; try tauto; try congruence.
      intros [_ [H|H]]; [contradiction | discriminate].
Qed.

(** ** The checks of a rename *)

(** X24. The checks of [rename_column], in their order, each leaving the
    store as it is: a missing or empty old name or a blank new name gives
    [MissingField]; a new name that sanitizes to nothing or to a reserved
    name gives [InvalidAttributeName]; an old name whose lowercase is not
    the lowercase of a product column gives [AttributeNotFound]; a new name
    that sanitizes to the lowercase of a product column gives
    [DuplicateAttribute], the column's own name included, so a column
    cannot be renamed to another spelling of its name. *)
Theorem rename_name_checks :
  forall (user_id : Z) (f : form) (st : store),
    let new_raw := Py.strip (form_get_default f "new_column_name" EmptyString) in
    let new := sanitize new_raw in
    let names := map Py.lower (Sql.table_info st) in
    (form_get f "old_column_name" = None
     \/ form_get f "old_column_name" = Some EmptyString
     \/ new_raw = EmptyString ->
     rename_column column_token user_id f st = (st, MissingField))
    /\ (forall old,
          form_get f "old_column_name" = Some old ->
          old <> EmptyString -> new_raw <> EmptyString ->
          (new = EmptyString \/ In new reserved_names ->
           rename_column column_token user_id f st
           = (st, InvalidAttributeName UnsafeOrReserved))
          /\ (new <> EmptyString -> ~ In new reserved_names ->
              ~ In (Py.lower old) names ->
              rename_column column_token user_id f st = (st, AttributeNotFound))
          /\ (new <> EmptyString -> ~ In new reserved_names ->
              In (Py.lower old) names -> In new names ->
              rename_column column_token user_id f st = (st, DuplicateAttribute))).
Proof.
  intros user_id f st new_raw new names. split.
  - intros H. unfold rename_column. cbv zeta. fold new_raw.
    destruct (form_get f "old_column_name") as [old|]; [|reflexivity].
    destruct H as [H|[H|H]]; [discriminate | |].
    + inversion H; subst old. reflexivity.
    + rewrite H. cbn. now rewrite orb_true_r.
  - intros old Hold Hne Hraw.
    apply truthy_true in Hne. apply truthy_true in Hraw.
    unfold rename_column. cbv zeta. fold new_raw. fold new.
    rewrite Hold, Hne, Hraw. cbn [negb orb connect close working committed].
    fold names.
    split; [|split].
    + intros Hbad.
      assert (Hb : negb (Py.truthy new) || Py.mem new reserved_names = true).
      { apply orb_true_iff. destruct Hbad as [->|Hin]; [now left|].
        right. now apply mem_In. }
      now rewrite Hb.
    + intros Hn Hres Hnot.
      apply truthy_true in Hn. apply mem_not_In in Hres, Hnot.
      now rewrite Hn, Hres, Hnot.
    + intros Hn Hres Hin Hdup.
      apply truthy_true in Hn. apply mem_not_In in Hres.
      apply mem_In in Hin, Hdup.
      now rewrite Hn, Hres, Hin, Hdup.
Qed.

(** ** The cells of the product rows *)

Section RowsOnly.
Variable Q : list string -> list product -> Prop.











End RowsOnly.










(** ** What an edited product holds *)





(** ** Updating an entry by its id *)

Lemma update_inventory_entry (f : form) (now : string) (st : store)
    (inventory_id product_id quantity : Z) (location : string) :
  entry_update f = Some (inventory_id, product_id, quantity, location) ->
  (0 <= quantity)%Z ->
  update_inventory foreign_keys f now st
  = match dml (update_inventory_row quantity location now inventory_id product_id)
              (connect st) with
    | Done (db1, rowcount) =>
        if (rowcount =? 0)%nat then (close db1, EntryNotFound)
        else (close (commit db1), InventoryUpdated)
    | Integrity => (st, DuplicateLocation)
    | _ => (st, UnexpectedError)
    end.
Proof.
  unfold entry_update, update_inventory. cbv zeta. intros H Hq.
  destruct (form_get f "product_id") as [p|]; [|discriminate].
  destruct (form_get f "quantity") as [q|]; [|discriminate].
  destruct (form_get f "inventory_id") as [i|]; [|discriminate].
  destruct (Py.truthy p); [|discriminate].
  destruct (Py.truthy q); [|discriminate].
  destruct (Py.truthy i); [|discriminate].
  destruct (negb (String.eqb i "None")); [|discriminate].
  cbn [andb negb orb] in *.
  destruct (Py.int p) as [pid|]; [|discriminate].
  destruct (Py.int q) as [qty|]; [|discriminate].
  destruct (Py.int i) as [iid|]; [|discriminate].
  inversion H; subst. clear H.
  apply Z.ltb_ge in Hq. rewrite Hq.
  destruct (dml _ _) as [[db1 n]| | |]; reflexivity.
Qed.

(** X26. [update_inventory] with an [inventory_id] writes only the row
    that has this id and belongs to the named product. When no row has
    both, it answers [EntryNotFound]; when there is one and another row of
    the product already is at the requested location, it answers
    [DuplicateLocation]: the two rows are not merged. In both cases the
    store is as before. When exactly one row has both and no other row of
    the product is at the location, the answer is [InventoryUpdated] and
    that row takes the quantity, the location and the time of the request,
    every other row staying as it is. *)
Theorem update_by_id_writes_the_own_entry_only :
  forall (f : form) (now : string) (st : store)
         (inventory_id product_id quantity : Z) (location : string),
    entry_update f = Some (inventory_id, product_id, quantity, location) ->
    (0 <= quantity)%Z ->
    Sql.fits_int64 quantity = true ->
    Sql.fits_int64 inventory_id = true ->
    Sql.fits_int64 product_id = true ->
    let mine := fun r =>
      (i_id r =? inventory_id)%Z && (i_product_id r =? product_id)%Z in
    let taken := existsb (fun r => negb (mine r) && same_slot product_id location r)
                         (inventory st) in
    (filter mine (inventory st) = [] ->
     update_inventory foreign_keys f now st = (st, EntryNotFound))
    /\ (filter mine (inventory st) <> [] -> taken = true ->
        update_inventory foreign_keys f now st = (st, DuplicateLocation))
    /\ (forall r, filter mine (inventory st) = [r] -> taken = false ->
        exists st',
          update_inventory foreign_keys f now st = (st', InventoryUpdated)
          /\ inventory st'
             = map (fun r0 => if mine r0
                              then mkInv (i_id r0) (i_product_id r0)
                                         quantity location now
                              else r0) (inventory st)
          /\ In (mkInv inventory_id product_id quantity location now)
                (inventory st')
          /\ (forall r0, In r0 (inventory st) -> mine r0 = false ->
                         In r0 (inventory st'))
          /\ products st' = products st
          /\ Sql.table_info st' = Sql.table_info st).
Proof.
  intros f now st inventory_id product_id quantity location Hf Hq H1 H2 H3
         mine taken.
  rewrite (update_inventory_entry f now st _ _ _ _ Hf Hq).
  unfold dml, update_inventory_row. cbn [connect working committed].
  rewrite H1, H2, H3. cbn [andb negb]. subst mine taken. cbv beta.
  set (mine := fun r : inv_row =>
         (i_id r =? inventory_id)%Z && (i_product_id r =? product_id)%Z).
  split; [|split].
  - intros Hnone. rewrite Hnone. cbn [andb List.length Nat.eqb close committed].
    reflexivity.
  - intros Hsome Htaken. rewrite Htaken, orb_true_r.
    destruct (filter mine (inventory st)); [contradiction | reflexivity].
  - intros r Hone Hfree. rewrite Hone, Hfree.
    cbn [andb orb List.length Nat.ltb Nat.leb Nat.eqb commit close working committed].
    eexists. split; [reflexivity|].
    cbn [with_inventory inventory products].
    split; [reflexivity|].
    assert (Hr : In r (inventory st) /\ mine r = true).
    { apply filter_In. rewrite Hone. now left. }
    destruct Hr as [Hin Hmine].
    split; [|split; [|split; reflexivity]].
    + apply in_map_iff. exists r. split; [|exact Hin].
      unfold mine in Hmine. rewrite Hmine. apply andb_true_iff in Hmine.
      destruct Hmine as [Ha Hb]. apply Z.eqb_eq in Ha, Hb. now rewrite Ha, Hb.
    + intros r0 Hr0 Hnot. apply in_map_iff. exists r0.
      unfold mine in Hnot. split; [now rewrite Hnot | exact Hr0].
Qed.

End Properties.


(** * The scenarios, on the instance of SQLite's side *)

(** The display identifier of the first product of a new store. *)
Lemma display_id_of_first_product :
  add_product false integer_rowid (product_form "Widget" "9.99") "t0" init_stock_table
  = (fst (add_product false integer_rowid (product_form "Widget" "9.99") "t0"
            init_stock_table), ProductAdded)
  /\ Sql.name_eqb "user_product_id" (pk_name init_stock_table) = false
  /\ display_ids init_stock_table = Some (map VInt [])
  /\ exists row,
       products (fst (add_product false integer_rowid (product_form "Widget" "9.99")
                        "t0" init_stock_table))
       = (products init_stock_table ++ [row])%list
       /\ cell_of "user_product_id"
            (fst (add_product false integer_rowid (product_form "Widget" "9.99")
                    "t0" init_stock_table)) row
          = Some (VInt (next_display_id []))
       /\ exceeds_all (next_display_id []) [].
Proof.
  split; [reflexivity|]. split; [reflexivity|]. split; [reflexivity|].
  apply (proj1 (display_id_is_current_max_plus_one false bare_word integer_rowid)
           (product_form "Widget" "9.99") "t0" init_stock_table _ []);
    reflexivity.
Defined.

(** Deleting the product that holds the largest display identifier frees
    it: the next product gets 3 again, against [claimed_no_reuse]. *)
Lemma display_id_reused_after_deleting_the_last :
  ~ claimed_no_reuse false bare_word integer_rowid.
Proof.
  intros H. specialize (H 3%Z (or_intror (or_intror (or_introl eq_refl)))).
  cbv zeta in H. destruct H as (row & new_id & Hrow & Hcell & Hall).
  vm_compute in Hrow. inversion Hrow; subst row; clear Hrow.
  vm_compute in Hcell. inversion Hcell; subst new_id; clear Hcell.
  unfold exceeds_all in Hall.
  inversion Hall as [|? ? _ Hall2]; subst.
  inversion Hall2 as [|? ? _ Hall3]; subst.
  inversion Hall3 as [|? ? Hlt _]; subst. lia.
Qed.


(** Two inventory requests for product 1 at location A leave the row of
    the second. *)
Lemma upsert_twice_keeps_the_latest :
  update_inventory false (upsert_form "1" "A" "5") "t1" widget_store
  = (widget_store_5, InventoryUpdated)
  /\ update_inventory false (upsert_form "1" "A" "7") "t2" widget_store_5
     = (widget_store_7, InventoryUpdated)
  /\ form_get (upsert_form "1" "A" "5") "inventory_id" = None
  /\ form_get (upsert_form "1" "A" "7") "inventory_id" = None
  /\ upsert_key (upsert_form "1" "A" "5") = Some (1%Z, "A")
  /\ upsert_key (upsert_form "1" "A" "7") = Some (1%Z, "A")
  /\ upsert_quantity (upsert_form "1" "A" "7") = Some 7%Z
  /\ exists r, entries_at 1 "A" widget_store_7 = [r] /\ i_quantity r = 7%Z.
Proof.
  repeat (split; [reflexivity|]).
  apply (proj1 (proj2 (inventory_one_entry_per_location false bare_word integer_rowid))
           (upsert_form "1" "A" "5") (upsert_form "1" "A" "7") "t1" "t2"
           widget_store widget_store_5 widget_store_7 1%Z "A" 7%Z);
    reflexivity.
Defined.

(** A rename of [color] by the user who owns its preference. *)
Lemma rename_of_color :
  rename_column bare_word 1 (rename_form "color" "Colour") store_with_color
  = (fst (rename_column bare_word 1 (rename_form "color" "Colour") store_with_color),
     AttributeRenamed)
  /\ form_get (rename_form "color" "Colour") "old_column_name" = Some "color"
  /\ map sc_name
       (stock_columns
          (fst (rename_column bare_word 1 (rename_form "color" "Colour")
                  store_with_color)))
     = ["colour"]
  /\ map v_name
       (visibility
          (fst (rename_column bare_word 1 (rename_form "color" "Colour")
                  store_with_color)))
     = ["colour"].
Proof.
  assert (Hren : rename_column bare_word 1 (rename_form "color" "Colour") store_with_color
                 = (fst (rename_column bare_word 1 (rename_form "color" "Colour")
                           store_with_color), AttributeRenamed))
    by (vm_compute; reflexivity).
  split; [exact Hren|]. split; [reflexivity|].
  destruct (rename_cascade_is_scoped_to_the_user bare_word 1
              (rename_form "color" "Colour") store_with_color
              (fst (rename_column bare_word 1 (rename_form "color" "Colour")
                      store_with_color))
              "color" Hren eq_refl) as (_ & Hdefs & Hvis & _).
  rewrite Hdefs, Hvis. split; vm_compute; reflexivity.
Defined.

(** The preference of another user keeps the old name, against
    [claimed_cascade_to_all_users]. *)
Lemma rename_skips_other_users :
  ~ claimed_cascade_to_all_users bare_word.
Proof.
  intros H.
  assert (Hren : rename_column bare_word 1 (rename_form "color" "Colour")
                   store_of_two_users
                 = (fst (rename_column bare_word 1 (rename_form "color" "Colour")
                           store_of_two_users), AttributeRenamed))
    by (vm_compute; reflexivity).
  specialize (H 1%Z (rename_form "color" "Colour") store_of_two_users
                (fst (rename_column bare_word 1 (rename_form "color" "Colour")
                        store_of_two_users))
                "color" Hren eq_refl
                (mkVis 1 2 "color" true) (or_introl eq_refl) eq_refl).
  vm_compute in H. destruct H as [H|[]]. discriminate.
Qed.

(** A taken name is reported when the options are given. *)
Lemma duplicate_color :
  form_get (color_form "Red") "new_column" = Some "Color"
  /\ sanitize (Py.strip "Color") <> EmptyString
  /\ ~ In (sanitize (Py.strip "Color")) reserved_names
  /\ In (sanitize (Py.strip "Color")) (map Py.lower (Sql.table_info store_with_color))
  /\ add_column bare_word 1 (color_form "Red") store_with_color
     = (store_with_color, DuplicateAttribute).
Proof.
  assert (Hne : sanitize (Py.strip "Color") <> EmptyString) by discriminate.
  assert (Hres : ~ In (sanitize (Py.strip "Color")) reserved_names).
  { vm_compute. intros [H|[H|[H|[H|[]]]]]; discriminate. }
  assert (Hin : In (sanitize (Py.strip "Color"))
                   (map Py.lower (Sql.table_info store_with_color))).
  { vm_compute. do 4 right. now left. }
  repeat (split; [first [reflexivity | assumption]|]).
  apply (proj1 (define_name_checks bare_word) 1%Z (color_form "Red")
           store_with_color "Color" eq_refl); try assumption.
  intros _. discriminate.
Defined.

(** With an empty option list the taken name is not reported, against
    [claimed_duplicate_reported]. *)
Lemma empty_options_hide_the_duplicate :
  ~ claimed_duplicate_reported bare_word.
Proof.
  intros H.
  assert (Hne : sanitize (Py.strip "Color") <> EmptyString) by discriminate.
  assert (Hres : ~ In (sanitize (Py.strip "Color")) reserved_names).
  { vm_compute. intros [E|[E|[E|[E|[]]]]]; discriminate. }
  assert (Hin : In (sanitize (Py.strip "Color"))
                   (map Py.lower (Sql.table_info store_with_color))).
  { vm_compute. do 4 right. now left. }
  specialize (H 1%Z (color_form EmptyString) store_with_color "Color"
                eq_refl Hne Hres Hin).
  vm_compute in H. discriminate.
Qed.


(** The creation of the first product commits the row and its default
    inventory row together. *)
Lemma widget_is_created_with_its_entry :
  add_product false integer_rowid (product_form "Widget" "9.99") "t0" init_stock_table
  = (widget_store, ProductAdded)
  /\ exists row entry,
       products widget_store = (products init_stock_table ++ [row])%list
       /\ inventory widget_store = (inventory init_stock_table ++ [entry])%list
       /\ i_product_id entry = p_rowid row
       /\ i_location entry = EmptyString
       /\ i_quantity entry = 0%Z
       /\ entries_at (p_rowid row) EmptyString widget_store = [entry].
Proof.
  split; [reflexivity|].
  apply (proj1 (create_product_is_atomic false integer_rowid
                  (product_form "Widget" "9.99") "t0" init_stock_table
                  widget_store ProductAdded eq_refl)).
  reflexivity.
Defined.

(** When the second write fails, here on an inventory row that already
    holds the pair of the new product, the product row is not kept. *)
Example orphan_row_blocks_the_creation :
  add_product false integer_rowid (product_form "Widget" "9.99") "t1" store_with_orphan
  = (store_with_orphan, UnexpectedError)
  /\ products store_with_orphan = []
  /\ map slot (inventory store_with_orphan) = [(1%Z, EmptyString)].
Proof. repeat split; reflexivity. Qed.


(** A price that is not a number, and the not-a-number the store refuses
    after validation let it through. *)
Example prices_refused :
  snd (add_product false integer_rowid (product_form "Widget" "abc") "t0"
         init_stock_table) = InvalidPrice
  /\ snd (add_product false integer_rowid (product_form "Widget" EmptyString) "t0"
            init_stock_table) = InvalidPrice
  /\ snd (add_product false integer_rowid (product_form EmptyString "abc") "t0"
            init_stock_table) = EmptyName
  /\ snd (add_product false integer_rowid (product_form "Widget" "nan") "t0"
            init_stock_table) = UnexpectedError.
Proof. repeat split; reflexivity. Qed.


(** The unfiltered listing of a product with rows and of one without. *)
Example listing_without_filter :
  option_map (fun r => map (fun v => map (fun e => (inventory_id e, quantity e, location e))
                                         (inventory_entries v)) (fst r))
    (envanter_listesi []
       (fst (delete_inventory_entry 4
          (fst (add_product false integer_rowid (product_form "Gadget" "2") "t3"
                  widget_store_7)))))
  = Some [[(Some 1%Z, 0%Z, EmptyString); (Some 3%Z, 7%Z, "A")];
          [(None, 0%Z, EmptyString)]].
Proof. reflexivity. Qed.



(** The rename of the reserved column [price] of a new store. *)
Lemma price_can_be_renamed :
  In "price" reserved_names
  /\ form_get (rename_form "price" "Cost") "old_column_name" = Some "price"
  /\ In "price" (Sql.table_info init_stock_table)
  /\ bare_word "price" = true
  /\ bare_word "cost" = true
  /\ exists st',
       rename_column bare_word 1 (rename_form "price" "Cost") init_stock_table
       = (st', AttributeRenamed)
       /\ Sql.table_info st' = ["id"; "user_product_id"; "name"; "cost"]
       /\ Sql.has_column st' "price" = false
       /\ stock_columns st' = []
       /\ (forall args, envanter_listesi args st' = None)
       /\ (forall f now,
              snd (add_product false integer_rowid f now st') <> ProductAdded).
Proof.
  assert (Hres : In "price" reserved_names) by (cbn; tauto).
  assert (Hin : In "price" (Sql.table_info init_stock_table)) by (cbn; tauto).
  repeat (split; [first [reflexivity | assumption]|]).
  destruct (reserved_column_can_be_renamed false bare_word integer_rowid 1%Z
              (rename_form "price" "Cost") init_stock_table "price"
              Hres eq_refl Hin)
    as (st' & Hren & Hinfo & _ & Hgone & Hdefs & _ & Hlist & _ & Hnp & _).
  - discriminate.
  - vm_compute. intros [E|[E|[E|[E|[]]]]]; discriminate.
  - vm_compute. intros [E|[E|[E|[E|[]]]]]; discriminate.
  - reflexivity.
  - reflexivity.
  - intros d [].
  - intros v [].
  - exists st'. split; [exact Hren|]. split; [rewrite Hinfo; reflexivity|].
    split; [exact Hgone|]. split; [exact Hdefs|]. split; [exact Hlist|].
    exact (proj1 (Hnp (or_intror eq_refl))).
Defined.

(** ** Further scenarios *)

(** The two requests that lead to [widget_store_5]. *)
Lemma widget_store_5_reachable :
  reachable false bare_word integer_rowid widget_store_5.
Proof.
  exists [AddProduct (product_form "Widget" "9.99") "t0";
          UpdateInventory (upsert_form "1" "A" "5") "t1"].
  vm_compute. reflexivity.
Qed.

(** A quantity of -3 is refused, and the store with five widgets at [A]
    holds no negative quantity. *)
Lemma negative_quantity_is_refused :
  Forall (fun r => (0 <= i_quantity r)%Z) (inventory widget_store_5)
  /\ update_inventory false (upsert_form "1" "A" "-3") "t1" widget_store
     = (widget_store, NegativeQuantity).
Proof.
  destruct (quantity_is_never_negative false bare_word integer_rowid)
    as [Hinv Hneg].
  split.
  - apply Hinv. exact widget_store_5_reachable.
  - apply (Hneg (upsert_form "1" "A" "-3") "t1" widget_store "1" "-3" 1%Z (-3)%Z);
      try (vm_compute; reflexivity).
Defined.

(** The columns of the store with the attribute [color]. *)
Lemma columns_of_store_with_color_are_unique :
  NoDup (map Py.lower (Sql.table_info store_with_color))
  /\ Forall (fun n => Py.lower n = n) (Sql.table_info store_with_color).
Proof.
  apply (column_names_stay_unique false (fun _ => true) integer_rowid).
  exists [AddColumn 1 (color_form "Red, Blue, Green")].
  vm_compute. reflexivity.
Defined.

(** Deleting a product that does not exist leaves the store as it is. *)
Lemma deleting_an_unknown_product_changes_nothing :
  fst (handle false bare_word integer_rowid (DeleteProduct 9) widget_store_5)
  = widget_store_5.
Proof.
  apply failed_request_changes_nothing; vm_compute; reflexivity.
Defined.

(** The rename of [c] to [a] fails on the definition named [a], and the
    column is renamed all the same. *)
Lemma failed_rename_keeps_the_column_renamed :
  let st := store_with_stale_definition in
  let out := rename_column bare_word 1 (rename_form "c" "a") st in
  snd out = UnexpectedError
  /\ Sql.table_info st = ["id"; "user_product_id"; "name"; "price"; "b"; "c"]
  /\ Sql.table_info (fst out) = ["id"; "user_product_id"; "name"; "price"; "b"; "a"]
  /\ map sc_name (stock_columns (fst out)) = ["a"; "c"]
  /\ (fst out = st
      \/ exists old,
           form_get (rename_form "c" "a") "old_column_name" = Some old
           /\ alter_rename_column bare_word old
                (sanitize (Py.strip
                   (form_get_default (rename_form "c" "a") "new_column_name"
                      EmptyString))) st
              = Done (fst out)).
Proof.
  cbv zeta.
  repeat (split; [vm_compute; reflexivity|]).
  apply (proj2 (failed_schema_request_keeps_the_alter bare_word)
           1%Z (rename_form "c" "a") store_with_stale_definition _ UnexpectedError);
    [vm_compute; reflexivity | discriminate].
Defined.

(** The value [Red] for the select attribute [color] of [store_with_color]. *)
Lemma red_is_a_validated_color :
  let info := dynamic_columns_info add_product_options
                (stock_columns store_with_color) in
  let f := [("name", "Widget"); ("price", "1"); ("color", " Red ")] in
  let v := VText "Red" in
  In "color" (Sql.table_info store_with_color) /\ ~ In "color" reserved_names
  /\ let value := Py.strip (form_get_default f "color" EmptyString) in
     match dict_get info "color" with
     | Some i =>
         (column_type i = "number" ->
          (value = EmptyString /\ v = VNull)
          \/ exists x, Py.float_of_string value = Some x /\ v = Sql.bind_float x)
         /\ (column_type i = "select" ->
             v = VText value
             /\ (value = EmptyString \/ in_options value (options i) = true))
         /\ (column_type i <> "number" -> column_type i <> "select" ->
             v = VText value)
     | None => v = VText value
     end.
Proof.
  intros info f v.
  apply (validated_values_fit_their_definition info f
           (Sql.table_info store_with_color) [("color", v)] "color" v).
  - vm_compute. reflexivity.
  - now left.
Defined.


(** After the only product has been deleted, the next one takes the id 2. *)
Lemma id_after_a_deletion :
  let st := store_after_delete in
  let st' := fst (add_product false integer_rowid (product_form "Gadget" "1") "t1" st) in
  products st = [] /\ products_seq st = 1%Z
  /\ products_seq st' = (products_seq st + 1)%Z
  /\ exists cells,
       products st' = (products st ++ [mkProduct (products_seq st + 1) cells])%list.
Proof.
  cbv zeta. split; [reflexivity|]. split; [reflexivity|].
  apply (proj2 (proj2 (internal_ids_are_never_reused false bare_word integer_rowid))
           (product_form "Gadget" "1") "t1" store_after_delete).
  - exists [AddProduct (product_form "Widget" "9.99") "t0"; DeleteProduct 1].
    reflexivity.
  - reflexivity.
  - vm_compute. reflexivity.
Defined.

(** User 1 hides [color] in the store where the preference for [color] is
    user 2's: user 2 is left without a preference for it. *)
Lemma hiding_color_takes_the_preference_of_user_2 :
  let f := [("column_name", "color"); ("is_visible", "false")] in
  let st := store_of_two_users in
  let st' := fst (toggle_column_visibility 1 f st) in
  dict_get (column_visibility_preferences 2 st) "color" = Some true
  /\ dict_get (column_visibility_preferences 1 st') "color" = Some false
  /\ (forall other, other <> 1%Z ->
        dict_get (column_visibility_preferences other st') "color" = None)
  /\ (forall user c, c <> "color" ->
        dict_get (column_visibility_preferences user st') c
        = dict_get (column_visibility_preferences user st) c)
  /\ Sql.table_info st' = Sql.table_info st
  /\ products st' = products st
  /\ inventory st' = inventory st
  /\ stock_columns st' = stock_columns st.
Proof.
  cbv zeta. split; [vm_compute; reflexivity|].
  apply (visibility_preference_is_per_column 1%Z
           [("column_name", "color"); ("is_visible", "false")]
           store_of_two_users _ "color").
  - vm_compute. reflexivity.
  - reflexivity.
Defined.

(** The attribute [color] of [store_with_color] is listed, visible and
    exported for user 1, who added it. *)
Lemma color_is_listed_and_exported :
  In "color" (map fst (columns_for_form store_with_color))
  /\ dict_get (stok_listesi_preferences 1 store_with_color) "color" = Some true
  /\ In "color" (columns_to_export 1 store_with_color).
Proof.
  apply (new_attribute_is_listed_and_exported (fun _ => true) 1%Z
           (color_form "Red, Blue, Green") init_stock_table store_with_color "Color").
  - vm_compute. reflexivity.
  - reflexivity.
Defined.

Lemma store_with_color_reachable :
  reachable false (fun _ => true) integer_rowid store_with_color.
Proof.
  exists [AddColumn 1 (color_form "Red, Blue, Green")]. reflexivity.
Qed.

(** The options of [color] decode alike. *)
Lemma color_options_decode_alike :
  Forall (fun d =>
            exists tokens,
              (sc_options d = None /\ tokens = []
               \/ sc_options d = Some (Json.dumps tokens))
              /\ stok_listesi_options (sc_options d) = map Json.of_string tokens
              /\ add_product_options (sc_options d) = map Json.of_string tokens
              /\ export_excel_options (sc_options d) = map Json.of_string tokens)
         (stock_columns store_with_color).
Proof.
  apply (stored_options_decode_alike false (fun _ => true) integer_rowid).
  exact store_with_color_reachable.
Defined.

(** The rename of [Color] to [shade] renames the column [color] and
    leaves the definition [color]. *)
Lemma renaming_Color_leaves_the_definition :
  let st' := fst (rename_column (fun _ => true) 1 (rename_form "Color" "shade")
                    store_with_color) in
  stock_columns st' = stock_columns store_with_color
  /\ In "shade" (Sql.table_info st')
  /\ Sql.has_column st' "Color" = false
  /\ (~ In "shade" (map sc_name (stock_columns store_with_color)) ->
      ~ In "shade" (map fst (columns_for_form st'))).
Proof.
  cbv zeta.
  assert (Hren : rename_column (fun _ => true) 1 (rename_form "Color" "shade")
                   store_with_color
                 = (fst (rename_column (fun _ => true) 1 (rename_form "Color" "shade")
                           store_with_color), AttributeRenamed))
    by (vm_compute; reflexivity).
  apply (rename_by_another_spelling_leaves_the_definition false (fun _ => true)
           integer_rowid 1%Z (rename_form "Color" "shade") store_with_color _ "Color"
           store_with_color_reachable Hren eq_refl).
  vm_compute. discriminate.
Defined.

(** Adding [color] as a number to the store with the stale definition
    [color] keeps that definition, a select. *)
Lemma color_again_keeps_the_old_definition :
  let f := [("new_column", "color"); ("column_type", "number")] in
  let st' := fst (add_column (fun _ => true) 1 f store_with_stale_color) in
  map sc_type (stock_columns store_with_stale_color) = ["select"]
  /\ stock_columns st' = stock_columns store_with_stale_color
  /\ In (sanitize (Py.strip "color")) (Sql.table_info st').
Proof.
  cbv zeta. split; [vm_compute; reflexivity|].
  apply (add_column_keeps_an_existing_definition (fun _ => true) 1%Z
           [("new_column", "color"); ("column_type", "number")]
           store_with_stale_color _ "color"
           (mkColDef 1 "color" "select" (Some (Json.dumps ["Red"; "Blue"; "Green"])))).
  - vm_compute. reflexivity.
  - reflexivity.
  - vm_compute. left. reflexivity.
  - vm_compute. reflexivity.
Defined.

(** New options for [color]. *)
Lemma sizes_for_color :
  let f := [("column_name", "color"); ("options_input", "S, M, ,L")] in
  let st' := fst (update_column_options f store_with_color) in
  let tokens :=
    options_list (Py.strip (form_get_default f "options_input" EmptyString)) in
  tokens = ["S"; "M"; "L"]
  /\ Forall2 (fun d d' =>
                sc_id d' = sc_id d /\ sc_name d' = sc_name d
                /\ sc_type d' = sc_type d
                /\ (sc_name d = "color" ->
                    stok_listesi_options (sc_options d') = map Json.of_string tokens
                    /\ add_product_options (sc_options d')
                       = map Json.of_string tokens)
                /\ (sc_name d <> "color" -> d' = d))
             (stock_columns store_with_color) (stock_columns st')
  /\ Sql.table_info st' = Sql.table_info store_with_color
  /\ products st' = products store_with_color
  /\ inventory st' = inventory store_with_color
  /\ visibility st' = visibility store_with_color.
Proof.
  cbv zeta. split; [vm_compute; reflexivity|].
  apply (proj2 update_column_options_round_trip
           [("column_name", "color"); ("options_input", "S, M, ,L")]
           store_with_color _ "color").
  - vm_compute. reflexivity.
  - reflexivity.
Defined.

(** The second upsert of the widget at [A] writes the entry under a new
    id; moving the entry to [B] by its id keeps the ids. *)
Lemma upsert_of_the_widget_changes_the_entry_id :
  let by_id := [("product_id", "1"); ("inventory_id", "2");
                ("quantity", "9"); ("location", "B")] in
  map i_id (inventory widget_store_5) = [1%Z; 2%Z]
  /\ map i_id (inventory widget_store_7) = [1%Z; 3%Z]
  /\ (exists r,
        inventory widget_store_7
        = (filter (fun r0 => negb (same_slot 1 "A" r0)) (inventory widget_store_5)
           ++ [r])%list
        /\ i_product_id r = 1%Z /\ i_location r = "A"
        /\ Forall (fun r0 => (i_id r0 < i_id r)%Z) (inventory widget_store_5))
  /\ (let st' := fst (update_inventory false by_id "t2" widget_store_5) in
      map i_id (inventory st') = map i_id (inventory widget_store_5)
      /\ map i_product_id (inventory st')
         = map i_product_id (inventory widget_store_5)).
Proof.
  cbv zeta.
  split; [vm_compute; reflexivity|]. split; [vm_compute; reflexivity|].
  destruct (upsert_gives_the_entry_a_new_id false) as [Hupsert Hby_id].
  split.
  - apply (Hupsert (upsert_form "1" "A" "7") "t2" widget_store_5 widget_store_7);
      vm_compute; reflexivity.
  - apply (Hby_id [("product_id", "1"); ("inventory_id", "2");
                   ("quantity", "9"); ("location", "B")] "t2" widget_store_5 _ "2").
    + vm_compute. reflexivity.
    + reflexivity.
    + discriminate.
    + discriminate.
Defined.

(** The filter [IDG] passes the name [Widget]. *)
Lemma widget_passes_the_filter_IDG :
  name_like ("%" ++ "IDG" ++ "%") (VText "Widget") = true.
Proof.
  apply (proj2 (proj1 name_filter_is_a_substring_search "IDG" "Widget" eq_refl)).
  exists "W", "idg", "et". split; reflexivity.
Defined.

(** Deleting the widget of [widget_store_5] without foreign keys leaves
    its two inventory rows. *)
Lemma deleting_the_widget_leaves_its_inventory :
  let st := widget_store_5 in
  let found := existsb (fun p => (p_rowid p =? 1)%Z) (products st) in
  exists st',
    delete_product false 1 st
    = (st', if found then ProductDeleted else ProductNotFound)
    /\ products st' = filter (fun p => negb (p_rowid p =? 1)%Z) (products st)
    /\ inventory st'
       = (if false && found
          then filter (fun r => negb (i_product_id r =? 1)%Z) (inventory st)
          else inventory st)
    /\ (false = false ->
        inventory st' = inventory st
        /\ existing_locations st' = existing_locations st)
    /\ Sql.table_info st' = Sql.table_info st
    /\ stock_columns st' = stock_columns st
    /\ visibility st' = visibility st.
Proof.
  apply (delete_product_and_its_inventory false 1%Z widget_store_5);
    vm_compute; reflexivity.
Defined.

(** Creating the widget on a new store and deleting it leaves its
    inventory row. *)
Lemma the_deleted_widget_leaves_a_row :
  exists st2 entry,
    delete_product false 1 widget_store = (st2, ProductDeleted)
    /\ products st2 = products init_stock_table
    /\ products_seq st2 = 1%Z
    /\ i_product_id entry = 1%Z /\ i_quantity entry = 0%Z
    /\ i_location entry = EmptyString
    /\ inventory st2 = (inventory init_stock_table ++ [entry])%list.
Proof.
  apply (adding_then_deleting_a_product false bare_word integer_rowid
           (product_form "Widget" "9.99") "t0" init_stock_table widget_store).
  - exists []. reflexivity.
  - reflexivity.
  - vm_compute. reflexivity.
Defined.

(** Deleting the entry 7, which [widget_store_5] does not have. *)
Lemma deleting_an_unknown_entry_reports_success :
  exists st',
    delete_inventory_entry 7 widget_store_5 = (st', EntryDeleted)
    /\ inventory st'
       = filter (fun r => negb (i_id r =? 7)%Z) (inventory widget_store_5)
    /\ ((forall r, In r (inventory widget_store_5) -> i_id r <> 7%Z) ->
        st' = widget_store_5)
    /\ delete_inventory_entry 7 st' = (st', EntryDeleted)
    /\ Sql.table_info st' = Sql.table_info widget_store_5
    /\ products st' = products widget_store_5
    /\ stock_columns st' = stock_columns widget_store_5
    /\ visibility st' = visibility widget_store_5.
Proof.
  apply (delete_inventory_entry_reports_success 7%Z widget_store_5).
  reflexivity.
Defined.


(** [color] of [store_with_color] is listed and exported; the column
    [shade] of [store_with_stale_color] has no definition: it is exported
    and not listed. *)
Lemma shade_is_exported_and_not_listed :
  (exists b,
     dict_get (stok_listesi_preferences 1 store_with_color) "color" = Some b
     /\ (b = true <-> In "color" (columns_to_export 1 store_with_color)))
  /\ ~ In "shade" (map fst (columns_for_form store_with_stale_color))
  /\ (In "shade" (columns_to_export 1 store_with_stale_color)
      <-> dict_get (column_visibility_preferences 1 store_with_stale_color) "shade"
          <> Some false).
Proof.
  assert (Hcolor : ~ In "color" reserved_names) by (cbn; intuition discriminate).
  assert (Hshade : ~ In "shade" reserved_names) by (cbn; intuition discriminate).
  split.
  - apply (proj1 (listing_and_export_agree 1%Z store_with_color "color" Hcolor)).
    vm_compute. do 3 right. left. reflexivity.
  - apply (proj2 (listing_and_export_agree 1%Z store_with_stale_color "shade" Hshade)).
    + vm_compute. do 4 right. left. reflexivity.
    + vm_compute. intuition discriminate.
Defined.

(** The rename of [color] to [Color] is refused as a duplicate. *)
Lemma renaming_color_to_Color_is_a_duplicate :
  rename_column (fun _ => true) 1 (rename_form "color" "Color") store_with_color
  = (store_with_color, DuplicateAttribute).
Proof.
  apply (proj2 (rename_name_checks (fun _ => true) 1%Z
                  (rename_form "color" "Color") store_with_color) "color").
  - reflexivity.
  - discriminate.
  - vm_compute. discriminate.
  - vm_compute. discriminate.
  - vm_compute. intuition discriminate.
  - vm_compute. do 4 right. left. reflexivity.
  - vm_compute. do 4 right. left. reflexivity.
Defined.


(** In [widget_store_5] the entry 2 is not an entry of product 2, and the
    entry 1 of the widget cannot move to the location [A] of its entry 2. *)
Lemma entry_of_another_product_is_not_found :
  update_inventory false
    [("product_id", "2"); ("inventory_id", "2"); ("quantity", "1"); ("location", "B")]
    "t2" widget_store_5 = (widget_store_5, EntryNotFound)
  /\ update_inventory false
       [("product_id", "1"); ("inventory_id", "1"); ("quantity", "3"); ("location", "A")]
       "t2" widget_store_5 = (widget_store_5, DuplicateLocation).
Proof.
  split.
  - apply (update_by_id_writes_the_own_entry_only false
             [("product_id", "2"); ("inventory_id", "2"); ("quantity", "1");
              ("location", "B")] "t2" widget_store_5 2%Z 2%Z 1%Z "B");
      try (vm_compute; reflexivity).
    lia.
  - apply (update_by_id_writes_the_own_entry_only false
             [("product_id", "1"); ("inventory_id", "1"); ("quantity", "3");
              ("location", "A")] "t2" widget_store_5 1%Z 1%Z 3%Z "A");
      try (vm_compute; reflexivity); try lia.
    vm_compute. discriminate.
Defined.
